(** * maestro-mcp: tool dispatch, instance registry and mock backends

    A shallow embedding of the Go sources

      - [src/pkg/vectordb/interface.go]  (Document, SearchResult, WriteStats,
        the VectorDatabase interface, CreateVectorDatabase),
      - [src/pkg/vectordb/mock.go]       (MockMilvusClient, MockWeaviateClient),
      - [src/pkg/vectordb/milvus.go], [weaviate.go] (the databases, in the
        variant that delegates every method to a [MilvusClient] or
        [WeaviateClient] and is constructed over the mock client; of the
        variant written against the external Weaviate client, [Setup]),
      - [src/pkg/mcp/server.go], [handlers.go] (the registry, the tool
        handlers and the HTTP dispatch),

    followed by the properties of the specification proved about them.

    Conventions of the embedding.
      - Go's [int] is a 64-bit integer: it is a [Z] and every addition the
        code performs is wrapped by [wrap64].
      - [float64] values are modelled by the rational they denote ([Q]);
        a value decoded from JSON is always finite. The arithmetic the code
        does on them rounds each result to the nearest binary64 value
        ([round64]).
      - [interface{}] values decoded from JSON are the type [JSON]; the
        values a handler returns are the type [any].
      - A Go function returning [(T, error)] returns a [result T]; a run-time
        panic is the third outcome [Panic].
      - A method with a pointer receiver takes the receiver's state and
        returns the new one next to the result.
      - [context.Context] arguments carry deadlines only; they are dropped.
        What the code reads from package [time] is passed in as a [Clock].
      - Calls to the logger have no effect on any value and are dropped. *)

From Stdlib Require Import ZArith QArith Qround Qpower Lia Lqa.
From stdpp Require Import base option list gmap strings fin_maps pretty.

Open Scope string_scope.
Open Scope list_scope.
Open Scope Z_scope.

Set Warnings "-register-all".

(** ** Machine integers *)

Definition minInt64 : Z := - 2 ^ 63.
Definition maxInt64 : Z := 2 ^ 63 - 1.

(** Two's complement wrap-around of a 64-bit signed integer. *)
Definition wrap64 (z : Z) : Z := (z + 2 ^ 63) mod 2 ^ 64 - 2 ^ 63.

Definition in_int64 (z : Z) : Prop := minInt64 <= z <= maxInt64.

(** ** float64 *)

Definition float64 : Type := Q.

(** [int(f)] for a float64 [f]: truncation toward zero. The Go specification
    leaves the result open when the truncated value does not fit; amd64
    yields the smallest integer. *)
Definition int_of_float64 (f : float64) : Z :=
  let t := Z.quot (Qnum f) (Z.pos (Qden f)) in
  if (minInt64 <=? t) && (t <=? maxInt64) then t else minInt64.

(** Rounding to binary64, to nearest with ties to even (IEEE 754), of a
    rational [x]. [binade x] is the integer [e] with [2^e <= x < 2^(e+1)]
    for a positive [x]; the exponent of the result is not below -1022 (the
    subnormal range keeps the spacing of the smallest normal numbers), and
    the result is a multiple of [2^(exponent - 52)], the unit in the last
    place. A result of [2^1024] or more stands for an infinity; no value
    the code computes here comes near it. *)
Definition pow2 (e : Z) : Q := (2 ^ e)%Q.

Definition binade (x : Q) : Z :=
  let e := Z.log2 (Qnum x) - Z.log2 (Z.pos (Qden x)) in
  if Qle_bool (pow2 e) x then e else e - 1.

Definition exponent (x : Q) : Z := Z.max (binade x) (-1022).

Definition round_half_even (x : Q) : Z :=
  let n := Qfloor x in
  match (x - inject_Z n ?= 1 # 2)%Q with
  | Lt => n
  | Gt => n + 1
  | Eq => if Z.even n then n else n + 1
  end.

Definition round_positive (x : Q) : Q :=
  let ulp := pow2 (exponent x - 52) in
  (inject_Z (round_half_even (x / ulp)) * ulp)%Q.

Definition round64 (x : Q) : float64 :=
  Qred match (0 ?= x)%Q with
       | Eq => 0
       | Lt => round_positive x
       | Gt => - round_positive (- x)
       end%Q.

(** [float64(i)] for an int [i], and [x * y] and [x - y] on float64
    values: the exact result, rounded. *)
Definition float64_of_int (i : Z) : float64 := round64 (inject_Z i).

Definition float64_mul (x y : float64) : float64 := round64 (x * y).

Definition float64_sub (x y : float64) : float64 := round64 (x - y).

(** ** Allocation

    [make([]T, 0, cap)] calls [runtime.makeslice], which panics when the
    capacity is negative or when [cap] elements of [elemSize] bytes take
    more than [maxAlloc] bytes, the size of the address space of the heap
    (48 bits on amd64). Within these bounds the memory comes from the
    heap; when the machine cannot provide it the run-time system ends the
    process, which is no outcome of the function and is not modelled, here
    as for every other allocation of the program. *)
Definition maxAlloc : Z := 2 ^ 48.

Definition makeslice_panics (elemSize cap : Z) : bool :=
  (cap <? 0) || (elemSize * cap >? maxAlloc).

(** ** Values decoded from JSON: [nil], [bool], [float64], [string],
    [[]interface{}] and [map[string]interface{}]. *)

Inductive JSON : Type :=
| JNull
| JBool (b : bool)
| JNumber (f : float64)
| JString (s : string)
| JArray (l : list JSON)
| JObject (m : gmap string JSON).

(** The argument map of a tool call, [map[string]interface{}]. *)
Abbreviation Args := (gmap string JSON).

(** Type assertions [v.(string)], [v.(float64)], [v.([]interface{})] and
    [v.(map[string]interface{})] on the value found under a key; a missing
    key yields the nil interface, on which every assertion fails. *)
Definition as_string (v : option JSON) : option string :=
  match v with Some (JString s) => Some s | _ => None end.

Definition as_float64 (v : option JSON) : option float64 :=
  match v with Some (JNumber f) => Some f | _ => None end.

Definition as_slice (v : option JSON) : option (list JSON) :=
  match v with Some (JArray l) => Some l | _ => None end.

Definition as_map (v : option JSON) : option (gmap string JSON) :=
  match v with Some (JObject m) => Some m | _ => None end.

(** ** interface.go: documents, search results, write statistics *)

Record Document : Type := mkDocument {
  ID : string;
  URL : string;
  Text : string;
  Metadata : gmap string JSON;
  Vector : list float64
}.

Record SearchResult : Type := mkSearchResult {
  SRDocument : Document;
  Score : float64
}.

(** The size in bytes of a [SearchResult] on a 64-bit machine: three
    strings of 16 bytes each, a map of 8 and a slice of 24 for the document,
    and 8 for the score. *)
Definition sizeof_SearchResult : Z := 16 + 16 + 16 + 8 + 24 + 8.

Record WriteStats : Type := mkWriteStats {
  DocumentsWritten : Z;
  ProcessingTime : string;
  Errors : list string
}.

(** What the code reads from package [time]: the successive readings of
    [time.Now().UnixNano()] (indexed by the loop counter of [Insert]) and
    the rendering of an elapsed duration. *)
Record Clock : Type := mkClock {
  UnixNano : Z -> Z;
  Since : string
}.

(** ** Errors

    Every error of the code is built by [fmt.Errorf]; one constructor per
    format string, and [Wrap] for the formats ending in [: %w]. *)

Inductive error : Type :=
| ErrRequired (field : string)
    (* "<field> is required and must be a string" *)
| ErrAlreadyExists (dbName : string)
    (* "vector database '<dbName>' already exists" *)
| ErrNotFound (dbName : string)
    (* "vector database '<dbName>' not found. Please create it first" *)
| ErrCleanupNotFound (dbName : string)
    (* "vector database '<dbName>' not found" *)
| ErrInvalidVector (i : nat)
    (* "invalid vector value at index <i>" *)
| ErrUnsupported (dbType : string)
    (* "unsupported vector database type: <dbType>" *)
| ErrNoCollection (collectionName : string)
    (* "collection '<collectionName>' does not exist" *)
| ErrNoDocument (documentID : string)
    (* "document '<documentID>' not found" *)
| ErrExternal (msg : string)
    (* an error produced outside this repository *)
| Wrap (prefix : string) (e : error).
    (* "<prefix>: <e>" *)

(** [err.Error()]. *)
Fixpoint Error (e : error) : string :=
  match e with
  | ErrRequired field => field +:+ " is required and must be a string"
  | ErrAlreadyExists n => "vector database '" +:+ n +:+ "' already exists"
  | ErrNotFound n =>
      "vector database '" +:+ n +:+ "' not found. Please create it first"
  | ErrCleanupNotFound n => "vector database '" +:+ n +:+ "' not found"
  | ErrInvalidVector i => "invalid vector value at index " +:+ pretty i
  | ErrUnsupported t => "unsupported vector database type: " +:+ t
  | ErrNoCollection c => "collection '" +:+ c +:+ "' does not exist"
  | ErrNoDocument d => "document '" +:+ d +:+ "' not found"
  | ErrExternal msg => msg
  | Wrap prefix e => prefix +:+ ": " +:+ Error e
  end.

(** The taxonomy of the specification, read off the message. *)
Inductive ErrorKind : Type :=
| InvalidArgument | NotFound | AlreadyExists | UnsupportedBackend
| BackendFailure.

Fixpoint kind (e : error) : ErrorKind :=
  match e with
  | ErrRequired _ | ErrInvalidVector _ => InvalidArgument
  | ErrNotFound _ | ErrCleanupNotFound _ => NotFound
  | ErrAlreadyExists _ => AlreadyExists
  | ErrUnsupported _ => UnsupportedBackend
  | ErrNoCollection _ | ErrNoDocument _ | ErrExternal _ => BackendFailure
  | Wrap _ e =>
      match kind e with
      | UnsupportedBackend => UnsupportedBackend
      | _ => BackendFailure
      end
  end.

(** ** Outcomes of a call *)

Inductive result (A : Type) : Type :=
| Ok (a : A)
| Err (e : error)
| Panic (msg : string).

Arguments Ok {A} a.
Arguments Err {A} e.
Arguments Panic {A} msg.

Definition is_ok {A} (r : result A) : bool :=
  match r with Ok _ => true | _ => false end.

Definition is_err {A} (r : result A) : bool :=
  match r with Err _ => true | _ => false end.

(** ** mock.go: the in-memory client

    [MockMilvusClient] and [MockWeaviateClient] are two structs with the same
    fields and, up to the text of their log messages, the same methods; one
    record and one set of functions embed both. *)

Record MockClient : Type := mkMockClient {
  collections : gmap string (gmap string JSON);
  documents : gmap string (list Document)
}.

Abbreviation MockMilvusClient := MockClient.
Abbreviation MockWeaviateClient := MockClient.

Module Mock.

Definition NewMockMilvusClient : MockClient :=
  {| collections := ∅; documents := ∅ |}.

Definition NewMockWeaviateClient : MockClient :=
  {| collections := ∅; documents := ∅ |}.

Definition Connect (m : MockClient) : result unit * MockClient :=
  (Ok tt, m).

Definition CreateCollection (name : string) (schema : gmap string JSON)
    (m : MockClient) : result unit * MockClient :=
  (Ok tt,
   {| collections := <[name := schema]> (collections m);
      documents := <[name := []]> (documents m) |}).

(** [fmt.Sprintf("doc_%d_%d", time.Now().UnixNano(), i)] *)
Definition fresh_id (clk : Clock) (i : Z) : string :=
  "doc_" +:+ pretty (UnixNano clk i) +:+ "_" +:+ pretty i.

(** The loop of [Insert] that gives an ID to the documents without one;
    [i] is the index of the head of [docs]. *)
Fixpoint assign_ids (clk : Clock) (i : Z) (docs : list Document)
    : list Document :=
  match docs with
  | [] => []
  | d :: rest =>
      (if String.eqb (ID d) EmptyString
       then {| ID := fresh_id clk i; URL := URL d; Text := Text d;
               Metadata := Metadata d; Vector := Vector d |}
       else d) :: assign_ids clk (i + 1) rest
  end.

Definition Insert (clk : Clock) (collectionName : string)
    (docs : list Document) (m : MockClient) : result unit * MockClient :=
  match documents m !! collectionName with
  | None => (Err (ErrNoCollection collectionName), m)
  | Some old =>
      (Ok tt,
       {| collections := collections m;
          documents :=
            <[collectionName := old ++ assign_ids clk 0 docs]>
              (documents m) |})
  end.

(** [0.9 - float64(i)*0.1]: the constants are the binary64 values nearest
    to 0.9 and 0.1, and the product and the difference are rounded one
    after the other, as the amd64 build computes them. *)
Definition mock_score (i : Z) : float64 :=
  float64_sub (round64 (9 # 10))
    (float64_mul (float64_of_int i) (round64 (1 # 10))).

(** The [for i, doc := range docs] loop of [Search]; [i] is the index of
    the head of [docs] and [results] the slice appended to so far. *)
Fixpoint search_loop (limit i : Z) (docs : list Document)
    (results : list SearchResult) : list SearchResult :=
  match docs with
  | [] => results
  | doc :: rest =>
      if i >=? limit then results
      else search_loop limit (i + 1) rest
             (results ++ [{| SRDocument := doc; Score := mock_score i |}])
  end.

(** [make([]SearchResult, 0, limit)] panics on a negative limit and on a
    limit whose slice would not fit the address space of the heap. *)
Definition Search (collectionName query : string) (limit : Z)
    (m : MockClient) : result (list SearchResult) :=
  match documents m !! collectionName with
  | None => Err (ErrNoCollection collectionName)
  | Some docs =>
      if makeslice_panics sizeof_SearchResult limit
      then Panic "makeslice: cap out of range"
      else Ok (search_loop limit 0 docs [])
  end.

(** [fmt.Sprintf("%.2f", f)]: two decimals, nearest, ties to even. *)
Definition fmt_2f (f : float64) : string :=
  let h := (f * 100)%Q in
  let fl := Qfloor h in
  let n :=
    if Qfloor (h * 2)%Q - 2 * fl =? 0 then fl
    else if Qeq_bool (h * 2)%Q (inject_Z (2 * fl + 1))
         then (if Z.even fl then fl else fl + 1)
         else fl + 1 in
  let a := Z.abs n in
  (if Qle_bool 0 f then EmptyString else "-") +:+
  pretty (a / 100) +:+ "." +:+
  pretty (a mod 100 / 10) +:+ pretty (a mod 10).

(** [s[:min(100, len(s))]] *)
Definition prefix100 (s : string) : string :=
  String.substring 0 (Nat.min 100 (String.length s)) s.

(** The loop of [Query] that appends one line per result; [i] is the
    index of the head of [results]. *)
Fixpoint query_lines (i : Z) (results : list SearchResult) : string :=
  match results with
  | [] => EmptyString
  | r :: rest =>
      pretty (i + 1) +:+ ". " +:+ prefix100 (Text (SRDocument r)) +:+
      " (Score: " +:+ fmt_2f (Score r) +:+ ")" +:+ "
" +:+ query_lines (i + 1) rest
  end.

Definition query_response (query : string) (results : list SearchResult)
    : string :=
  "Found " +:+ pretty (Z.of_nat (length results)) +:+
  " relevant documents for query '" +:+ query +:+ "':" +:+ "
" +:+ query_lines 0 results.

Definition Query (collectionName query : string) (limit : Z)
    (m : MockClient) : result string :=
  match Search collectionName query limit m with
  | Ok results => Ok (query_response query results)
  | Err e => Err e
  | Panic msg => Panic msg
  end.

(** [docs[start:end]] on a slice whose capacity is not below [end]: the
    bounds must satisfy [0 <= start <= end]. *)
Definition slice (docs : list Document) (start end_ : Z)
    : result (list Document) :=
  if (start <? 0) || (end_ <? start)
  then Panic "slice bounds out of range"
  else Ok (take (Z.to_nat (end_ - start)) (drop (Z.to_nat start) docs)).

Definition ListDocuments (collectionName : string) (limit offset : Z)
    (m : MockClient) : result (list Document) :=
  match documents m !! collectionName with
  | None => Err (ErrNoCollection collectionName)
  | Some docs =>
      let start := offset in
      let end_ := wrap64 (offset + limit) in
      let len := Z.of_nat (length docs) in
      if start >=? len then Ok []
      else
        let end_ := if end_ >? len then len else end_ in
        slice docs start end_
  end.

Definition CountDocuments (collectionName : string) (m : MockClient)
    : result Z :=
  match documents m !! collectionName with
  | None => Err (ErrNoCollection collectionName)
  | Some docs => Ok (Z.of_nat (length docs))
  end.

(** The loop of [DeleteDocument]: the slice without the first document
    whose ID is [documentID], if there is one. *)
Fixpoint remove_first (documentID : string) (docs : list Document)
    : option (list Document) :=
  match docs with
  | [] => None
  | doc :: rest =>
      if String.eqb (ID doc) documentID then Some rest
      else match remove_first documentID rest with
           | Some rest' => Some (doc :: rest')
           | None => None
           end
  end.

Definition DeleteDocument (collectionName documentID : string)
    (m : MockClient) : result unit * MockClient :=
  match documents m !! collectionName with
  | None => (Err (ErrNoCollection collectionName), m)
  | Some docs =>
      match remove_first documentID docs with
      | Some docs' =>
          (Ok tt,
           {| collections := collections m;
              documents := <[collectionName := docs']> (documents m) |})
      | None => (Err (ErrNoDocument documentID), m)
      end
  end.

Fixpoint DeleteDocuments (collectionName : string)
    (documentIDs : list string) (m : MockClient)
    : result unit * MockClient :=
  match documentIDs with
  | [] => (Ok tt, m)
  | id :: rest =>
      match DeleteDocument collectionName id m with
      | (Ok _, m') => DeleteDocuments collectionName rest m'
      | (r, m') => (r, m')
      end
  end.

Definition Close (m : MockClient) : result unit * MockClient :=
  (Ok tt, m).

(** [ListCollections]. Go visits the keys of a map in an unspecified
    order; the model lists them in the order of [map_to_list]. *)
Definition ListCollections (m : MockClient) : result (list string) :=
  Ok (map_to_list (collections m)).*1.

(** The map [GetCollectionInfo] returns: its four keys "name", "schema",
    "document_count" and "created_at". *)
Record CollectionInfo : Type := mkCollectionInfo {
  info_name : string;
  info_schema : gmap string JSON;
  info_document_count : Z;
  info_created_at : string
}.

(** [now] is [time.Now().Format(time.RFC3339)]. *)
Definition GetCollectionInfo (now collectionName : string) (m : MockClient)
    : result CollectionInfo :=
  match collections m !! collectionName with
  | None => Err (ErrNoCollection collectionName)
  | Some schema =>
      let docs :=
        match documents m !! collectionName with
        | Some docs => docs
        | None => []
        end in
      Ok {| info_name := collectionName;
            info_schema := schema;
            info_document_count := Z.of_nat (length docs);
            info_created_at := now |}
  end.

Definition DeleteCollection (collectionName : string) (m : MockClient)
    : result unit * MockClient :=
  (Ok tt,
   {| collections := delete collectionName (collections m);
      documents := delete collectionName (documents m) |}).

End Mock.

(** ** config.go: the part of the configuration the backends read *)

Record Config : Type := mkConfig {
  VectorSize : Z
}.

(** ** Values returned by the tool handlers ([interface{}]) *)

Inductive any : Type :=
| VString (s : string)
| VInt (z : Z)
| VDocuments (docs : list Document)
| VWriteStats (stats : WriteStats)
| VMap (m : gmap string any)
| VMaps (l : list (gmap string any)).

(** ** milvus.go: the Milvus database over its client *)

Module Milvus.

Record MilvusDatabase : Type := mkMilvusDatabase {
  config : Config;
  collectionName : string;
  client : MockMilvusClient
}.

Definition NewMilvusDatabase (collectionName : string) (cfg : Config)
    : result MilvusDatabase :=
  Ok {| config := cfg; collectionName := collectionName;
        client := Mock.NewMockMilvusClient |}.

Definition with_client (m : MilvusDatabase) (c : MockMilvusClient)
    : MilvusDatabase :=
  {| config := config m; collectionName := collectionName m; client := c |}.

Definition Type_ (m : MilvusDatabase) : string := "milvus".

Definition CollectionName (m : MilvusDatabase) : string := collectionName m.

Definition field (name type : string) : gmap string JSON :=
  {[ "name" := JString name; "type" := JString type ]}.

(** The schema [Setup] builds. The dimension is an [int]; the schema holds
    it as the number it denotes. *)
Definition schema (m : MilvusDatabase) (embedding : string)
    : gmap string JSON :=
  {[ "name" := JString (collectionName m);
     "fields" := JArray
       [ JObject (<["primary" := JBool true]> (field "id" "string"));
         JObject (field "url" "string");
         JObject (field "text" "string");
         JObject (field "metadata" "json");
         JObject (<["dimension" :=
                      JNumber (inject_Z (VectorSize (config m)))]>
                    (field "vector" "float_vector")) ];
     "embedding" := JString embedding ]}.

Definition Setup (embedding : string) (m : MilvusDatabase)
    : result unit * MilvusDatabase :=
  match Mock.Connect (client m) with
  | (Ok _, c) =>
      match Mock.CreateCollection (collectionName m) (schema m embedding) c
      with
      | (Ok _, c') => (Ok tt, with_client m c')
      | (Err e, c') =>
          (Err (Wrap "failed to create collection" e), with_client m c')
      | (Panic msg, c') => (Panic msg, with_client m c')
      end
  | (Err e, c) =>
      (Err (Wrap "failed to connect to Milvus" e), with_client m c)
  | (Panic msg, c) => (Panic msg, with_client m c)
  end.

Definition WriteDocuments (clk : Clock) (docs : list Document)
    (m : MilvusDatabase) : result WriteStats * MilvusDatabase :=
  match Mock.Insert clk (collectionName m) docs (client m) with
  | (Ok _, c) =>
      (Ok {| DocumentsWritten := Z.of_nat (length docs);
             ProcessingTime := Since clk; Errors := [] |},
       with_client m c)
  | (Err e, c) =>
      (Err (Wrap "failed to insert documents" e), with_client m c)
  | (Panic msg, c) => (Panic msg, with_client m c)
  end.

Definition WriteDocument (clk : Clock) (doc : Document)
    (m : MilvusDatabase) : result WriteStats * MilvusDatabase :=
  match WriteDocuments clk [doc] m with
  | (Ok stats, m') =>
      (Ok {| DocumentsWritten := DocumentsWritten stats;
             ProcessingTime := Since clk; Errors := Errors stats |}, m')
  | (Err e, m') => (Err e, m')
  | (Panic msg, m') => (Panic msg, m')
  end.

Definition or_default (collectionName : string) (m : MilvusDatabase)
    : string :=
  if String.eqb collectionName EmptyString then Milvus.collectionName m
  else collectionName.

Definition Query (query : string) (limit : Z) (collectionName : string)
    (m : MilvusDatabase) : result any * MilvusDatabase :=
  match Mock.Query (or_default collectionName m) query limit (client m)
  with
  | Ok response => (Ok (VString response), m)
  | Err e => (Err (Wrap "failed to query Milvus" e), m)
  | Panic msg => (Panic msg, m)
  end.

Definition Search (query : string) (limit : Z) (collectionName : string)
    (m : MilvusDatabase) : result (list SearchResult) * MilvusDatabase :=
  match Mock.Search (or_default collectionName m) query limit (client m)
  with
  | Ok results => (Ok results, m)
  | Err e => (Err (Wrap "failed to search Milvus" e), m)
  | Panic msg => (Panic msg, m)
  end.

Definition ListDocuments (limit offset : Z) (m : MilvusDatabase)
    : result (list Document) * MilvusDatabase :=
  match Mock.ListDocuments (collectionName m) limit offset (client m) with
  | Ok docs => (Ok docs, m)
  | Err e => (Err (Wrap "failed to list documents from Milvus" e), m)
  | Panic msg => (Panic msg, m)
  end.

Definition CountDocuments (m : MilvusDatabase)
    : result Z * MilvusDatabase :=
  match Mock.CountDocuments (collectionName m) (client m) with
  | Ok count => (Ok count, m)
  | Err e => (Err (Wrap "failed to count documents in Milvus" e), m)
  | Panic msg => (Panic msg, m)
  end.

Definition DeleteDocument (documentID : string) (m : MilvusDatabase)
    : result unit * MilvusDatabase :=
  match Mock.DeleteDocument (collectionName m) documentID (client m) with
  | (Ok _, c) => (Ok tt, with_client m c)
  | (Err e, c) =>
      (Err (Wrap "failed to delete document from Milvus" e),
       with_client m c)
  | (Panic msg, c) => (Panic msg, with_client m c)
  end.

Definition Cleanup (m : MilvusDatabase) : result unit * MilvusDatabase :=
  match Mock.Close (client m) with
  | (Ok _, c) => (Ok tt, with_client m c)
  | (Err e, c) =>
      (Err (Wrap "failed to close Milvus client" e), with_client m c)
  | (Panic msg, c) => (Panic msg, with_client m c)
  end.

Definition DeleteDocuments (documentIDs : list string)
    (m : MilvusDatabase) : result unit * MilvusDatabase :=
  match Mock.DeleteDocuments (collectionName m) documentIDs (client m)
  with
  | (Ok _, c) => (Ok tt, with_client m c)
  | (Err e, c) =>
      (Err (Wrap "failed to delete documents from Milvus" e),
       with_client m c)
  | (Panic msg, c) => (Panic msg, with_client m c)
  end.

Definition ListCollections (m : MilvusDatabase)
    : result (list string) * MilvusDatabase :=
  match Mock.ListCollections (client m) with
  | Ok collections => (Ok collections, m)
  | Err e => (Err (Wrap "failed to list collections in Milvus" e), m)
  | Panic msg => (Panic msg, m)
  end.

Definition GetCollectionInfo (now collectionName : string)
    (m : MilvusDatabase) : result Mock.CollectionInfo * MilvusDatabase :=
  match Mock.GetCollectionInfo now (or_default collectionName m)
          (client m)
  with
  | Ok info => (Ok info, m)
  | Err e =>
      (Err (Wrap "failed to get collection info from Milvus" e), m)
  | Panic msg => (Panic msg, m)
  end.

Definition DeleteCollection (collectionName : string) (m : MilvusDatabase)
    : result unit * MilvusDatabase :=
  match Mock.DeleteCollection collectionName (client m) with
  | (Ok _, c) => (Ok tt, with_client m c)
  | (Err e, c) =>
      (Err (Wrap "failed to delete collection from Milvus" e),
       with_client m c)
  | (Panic msg, c) => (Panic msg, with_client m c)
  end.

End Milvus.

(** ** weaviate.go: the Weaviate database over its client *)

Module Weaviate.

Record WeaviateDatabase : Type := mkWeaviateDatabase {
  config : Config;
  collectionName : string;
  client : MockWeaviateClient
}.

Definition NewWeaviateDatabase (collectionName : string) (cfg : Config)
    : result WeaviateDatabase :=
  Ok {| config := cfg; collectionName := collectionName;
        client := Mock.NewMockWeaviateClient |}.

Definition with_client (w : WeaviateDatabase) (c : MockWeaviateClient)
    : WeaviateDatabase :=
  {| config := config w; collectionName := collectionName w; client := c |}.

Definition Type_ (w : WeaviateDatabase) : string := "weaviate".

Definition CollectionName (w : WeaviateDatabase) : string :=
  collectionName w.

Definition property (name dataType : string) : gmap string JSON :=
  {[ "name" := JString name; "dataType" := JArray [JString dataType] ]}.

Definition schema (w : WeaviateDatabase) (embedding : string)
    : gmap string JSON :=
  {[ "class" := JString (collectionName w);
     "properties" := JArray
       [ JObject (property "url" "string");
         JObject (property "text" "text");
         JObject (property "metadata" "object") ];
     "vectorizer" := JString embedding ]}.

Definition Setup (embedding : string) (w : WeaviateDatabase)
    : result unit * WeaviateDatabase :=
  match Mock.Connect (client w) with
  | (Ok _, c) =>
      match Mock.CreateCollection (collectionName w) (schema w embedding) c
      with
      | (Ok _, c') => (Ok tt, with_client w c')
      | (Err e, c') =>
          (Err (Wrap "failed to create collection" e), with_client w c')
      | (Panic msg, c') => (Panic msg, with_client w c')
      end
  | (Err e, c) =>
      (Err (Wrap "failed to connect to Weaviate" e), with_client w c)
  | (Panic msg, c) => (Panic msg, with_client w c)
  end.

Definition WriteDocuments (clk : Clock) (docs : list Document)
    (w : WeaviateDatabase) : result WriteStats * WeaviateDatabase :=
  match Mock.Insert clk (collectionName w) docs (client w) with
  | (Ok _, c) =>
      (Ok {| DocumentsWritten := Z.of_nat (length docs);
             ProcessingTime := Since clk; Errors := [] |},
       with_client w c)
  | (Err e, c) =>
      (Err (Wrap "failed to insert documents" e), with_client w c)
  | (Panic msg, c) => (Panic msg, with_client w c)
  end.

Definition WriteDocument (clk : Clock) (doc : Document)
    (w : WeaviateDatabase) : result WriteStats * WeaviateDatabase :=
  match WriteDocuments clk [doc] w with
  | (Ok stats, w') =>
      (Ok {| DocumentsWritten := DocumentsWritten stats;
             ProcessingTime := Since clk; Errors := Errors stats |}, w')
  | (Err e, w') => (Err e, w')
  | (Panic msg, w') => (Panic msg, w')
  end.

Definition or_default (collectionName : string) (w : WeaviateDatabase)
    : string :=
  if String.eqb collectionName EmptyString then Weaviate.collectionName w
  else collectionName.

Definition Query (query : string) (limit : Z) (collectionName : string)
    (w : WeaviateDatabase) : result any * WeaviateDatabase :=
  match Mock.Query (or_default collectionName w) query limit (client w)
  with
  | Ok response => (Ok (VString response), w)
  | Err e => (Err (Wrap "failed to query Weaviate" e), w)
  | Panic msg => (Panic msg, w)
  end.

Definition Search (query : string) (limit : Z) (collectionName : string)
    (w : WeaviateDatabase)
    : result (list SearchResult) * WeaviateDatabase :=
  match Mock.Search (or_default collectionName w) query limit (client w)
  with
  | Ok results => (Ok results, w)
  | Err e => (Err (Wrap "failed to search Weaviate" e), w)
  | Panic msg => (Panic msg, w)
  end.

Definition ListDocuments (limit offset : Z) (w : WeaviateDatabase)
    : result (list Document) * WeaviateDatabase :=
  match Mock.ListDocuments (collectionName w) limit offset (client w) with
  | Ok docs => (Ok docs, w)
  | Err e => (Err (Wrap "failed to list documents from Weaviate" e), w)
  | Panic msg => (Panic msg, w)
  end.

Definition CountDocuments (w : WeaviateDatabase)
    : result Z * WeaviateDatabase :=
  match Mock.CountDocuments (collectionName w) (client w) with
  | Ok count => (Ok count, w)
  | Err e => (Err (Wrap "failed to count documents in Weaviate" e), w)
  | Panic msg => (Panic msg, w)
  end.

Definition DeleteDocument (documentID : string) (w : WeaviateDatabase)
    : result unit * WeaviateDatabase :=
  match Mock.DeleteDocument (collectionName w) documentID (client w) with
  | (Ok _, c) => (Ok tt, with_client w c)
  | (Err e, c) =>
      (Err (Wrap "failed to delete document from Weaviate" e),
       with_client w c)
  | (Panic msg, c) => (Panic msg, with_client w c)
  end.

Definition Cleanup (w : WeaviateDatabase)
    : result unit * WeaviateDatabase :=
  match Mock.Close (client w) with
  | (Ok _, c) => (Ok tt, with_client w c)
  | (Err e, c) =>
      (Err (Wrap "failed to close Weaviate client" e), with_client w c)
  | (Panic msg, c) => (Panic msg, with_client w c)
  end.

Definition DeleteDocuments (documentIDs : list string)
    (w : WeaviateDatabase) : result unit * WeaviateDatabase :=
  match Mock.DeleteDocuments (collectionName w) documentIDs (client w)
  with
  | (Ok _, c) => (Ok tt, with_client w c)
  | (Err e, c) =>
      (Err (Wrap "failed to delete documents from Weaviate" e),
       with_client w c)
  | (Panic msg, c) => (Panic msg, with_client w c)
  end.

Definition ListCollections (w : WeaviateDatabase)
    : result (list string) * WeaviateDatabase :=
  match Mock.ListCollections (client w) with
  | Ok collections => (Ok collections, w)
  | Err e => (Err (Wrap "failed to list collections in Weaviate" e), w)
  | Panic msg => (Panic msg, w)
  end.

Definition GetCollectionInfo (now collectionName : string)
    (w : WeaviateDatabase) : result Mock.CollectionInfo * WeaviateDatabase :=
  match Mock.GetCollectionInfo now (or_default collectionName w)
          (client w)
  with
  | Ok info => (Ok info, w)
  | Err e =>
      (Err (Wrap "failed to get collection info from Weaviate" e), w)
  | Panic msg => (Panic msg, w)
  end.

Definition DeleteCollection (collectionName : string) (w : WeaviateDatabase)
    : result unit * WeaviateDatabase :=
  match Mock.DeleteCollection collectionName (client w) with
  | (Ok _, c) => (Ok tt, with_client w c)
  | (Err e, c) =>
      (Err (Wrap "failed to delete collection from Weaviate" e),
       with_client w c)
  | (Panic msg, c) => (Panic msg, with_client w c)
  end.

(** *** The Setup of the variant of weaviate.go written against the
    external Weaviate client. The client is outside this repository: its
    state is a type [R], [ClassExistenceChecker] and [ClassCreator] are
    its two calls. *)
Section Remote.

Variable R : Type.
Variable ClassExistenceChecker : string -> R -> result bool.
Variable ClassCreator : string -> string -> R -> result unit * R.

Definition SetupRemote (collectionName embedding : string) (r : R)
    : result unit * R :=
  match ClassExistenceChecker collectionName r with
  | Err e => (Err (Wrap "failed to check if class exists" e), r)
  | Panic msg => (Panic msg, r)
  | Ok true => (Ok tt, r)
  | Ok false =>
      match ClassCreator collectionName embedding r with
      | (Err e, r') => (Err (Wrap "failed to create class" e), r')
      | (Panic msg, r') => (Panic msg, r')
      | (Ok _, r') => (Ok tt, r')
      end
  end.

End Remote.

End Weaviate.

(** ** interface.go: the VectorDatabase interface

    The methods the tool handlers reach. ([DeleteDocuments],
    [ListCollections], [GetCollectionInfo] and [DeleteCollection] are part
    of the Go interface but no tool calls them.) *)

Class VectorDatabase (DB : Type) : Type := {
  Type_ : DB -> string;
  CollectionName : DB -> string;
  Setup : string -> DB -> result unit * DB;
  WriteDocument : Clock -> Document -> DB -> result WriteStats * DB;
  WriteDocuments : Clock -> list Document -> DB -> result WriteStats * DB;
  Query : string -> Z -> string -> DB -> result any * DB;
  Search : string -> Z -> string -> DB -> result (list SearchResult) * DB;
  ListDocuments : Z -> Z -> DB -> result (list Document) * DB;
  CountDocuments : DB -> result Z * DB;
  DeleteDocument : string -> DB -> result unit * DB;
  Cleanup : DB -> result unit * DB
}.

#[global] Instance MilvusDatabase_VectorDatabase
    : VectorDatabase Milvus.MilvusDatabase := {|
  Type_ := Milvus.Type_;
  CollectionName := Milvus.CollectionName;
  Setup := Milvus.Setup;
  WriteDocument := Milvus.WriteDocument;
  WriteDocuments := Milvus.WriteDocuments;
  Query := Milvus.Query;
  Search := Milvus.Search;
  ListDocuments := Milvus.ListDocuments;
  CountDocuments := Milvus.CountDocuments;
  DeleteDocument := Milvus.DeleteDocument;
  Cleanup := Milvus.Cleanup
|}.

#[global] Instance WeaviateDatabase_VectorDatabase
    : VectorDatabase Weaviate.WeaviateDatabase := {|
  Type_ := Weaviate.Type_;
  CollectionName := Weaviate.CollectionName;
  Setup := Weaviate.Setup;
  WriteDocument := Weaviate.WriteDocument;
  WriteDocuments := Weaviate.WriteDocuments;
  Query := Weaviate.Query;
  Search := Weaviate.Search;
  ListDocuments := Weaviate.ListDocuments;
  CountDocuments := Weaviate.CountDocuments;
  DeleteDocument := Weaviate.DeleteDocument;
  Cleanup := Weaviate.Cleanup
|}.

(** The interface values [CreateVectorDatabase] hands out: a pointer to a
    [MilvusDatabase] or to a [WeaviateDatabase]. *)
Inductive Database : Type :=
| OfMilvus (m : Milvus.MilvusDatabase)
| OfWeaviate (w : Weaviate.WeaviateDatabase).

(** Dynamic dispatch of a state-passing method on the two variants. *)
Definition dispatch {A : Type}
    (fm : Milvus.MilvusDatabase -> result A * Milvus.MilvusDatabase)
    (fw : Weaviate.WeaviateDatabase -> result A * Weaviate.WeaviateDatabase)
    (db : Database) : result A * Database :=
  match db with
  | OfMilvus m => let '(r, m') := fm m in (r, OfMilvus m')
  | OfWeaviate w => let '(r, w') := fw w in (r, OfWeaviate w')
  end.

#[global] Instance Database_VectorDatabase : VectorDatabase Database := {|
  Type_ db :=
    match db with
    | OfMilvus m => Type_ m
    | OfWeaviate w => Type_ w
    end;
  CollectionName db :=
    match db with
    | OfMilvus m => CollectionName m
    | OfWeaviate w => CollectionName w
    end;
  Setup embedding := dispatch (Setup embedding) (Setup embedding);
  WriteDocument clk doc :=
    dispatch (WriteDocument clk doc) (WriteDocument clk doc);
  WriteDocuments clk docs :=
    dispatch (WriteDocuments clk docs) (WriteDocuments clk docs);
  Query query limit collectionName :=
    dispatch (Query query limit collectionName)
             (Query query limit collectionName);
  Search query limit collectionName :=
    dispatch (Search query limit collectionName)
             (Search query limit collectionName);
  ListDocuments limit offset :=
    dispatch (ListDocuments limit offset) (ListDocuments limit offset);
  CountDocuments := dispatch CountDocuments CountDocuments;
  DeleteDocument documentID :=
    dispatch (DeleteDocument documentID) (DeleteDocument documentID);
  Cleanup := dispatch Cleanup Cleanup
|}.

(** [CreateVectorDatabase]: the switch on the backend kind. *)
Definition CreateVectorDatabase (dbType collectionName : string)
    (cfg : Config) : result Database :=
  if String.eqb dbType "milvus" then
    match Milvus.NewMilvusDatabase collectionName cfg with
    | Ok m => Ok (OfMilvus m)
    | Err e => Err e
    | Panic msg => Panic msg
    end
  else if String.eqb dbType "weaviate" then
    match Weaviate.NewWeaviateDatabase collectionName cfg with
    | Ok w => Ok (OfWeaviate w)
    | Err e => Err e
    | Panic msg => Panic msg
    end
  else Err (ErrUnsupported dbType).

(** ** server.go and handlers.go: the instance registry and the tools *)

(** Addresses of the database objects the registry points to. *)
Abbreviation loc := nat.

(** The interface methods that take a context, for the record of calls. *)
Inductive Op : Type :=
| OpSetup | OpWriteDocument | OpQuery | OpListDocuments | OpCountDocuments
| OpDeleteDocument | OpCleanup.

Section Server.

Context {DB : Type} `{!VectorDatabase DB}.

(** [vectordb.CreateVectorDatabase] *)
Variable NewDatabase : string -> string -> Config -> result DB.

(** The [Server] struct. [vectorDBs] maps a name to a pointer and [heap]
    holds the objects pointed to. [calls] is not a field of the Go struct:
    it records, in order, every interface method the handlers invoked and
    on which object. [dbMutex] has no counterpart: the model runs one
    handler at a time, from its call to its return.
    [handleCreateVectorDatabase], [handleListDatabases] and [handleCleanup]
    hold the lock for all of that time, so for them the function of the
    state is also what concurrent calls observe; the other handlers hold it
    only inside [getDatabaseByName]. *)
Record Server : Type := mkServer {
  config : Config;
  vectorDBs : gmap string loc;
  heap : gmap loc DB;
  calls : list (loc * Op)
}.

Definition NewServer (cfg : Config) : Server :=
  {| config := cfg; vectorDBs := ∅; heap := ∅; calls := [] |}.

Definition nil_dereference : string :=
  "invalid memory address or nil pointer dereference".

(** The state after method [op] ran on the object at [l] and left it as
    [db']. *)
Definition commit (l : loc) (op : Op) (db' : DB) (s : Server) : Server :=
  {| config := config s;
     vectorDBs := vectorDBs s;
     heap := <[l := db']> (heap s);
     calls := calls s ++ [(l, op)] |}.

Definition getDatabaseByName (dbName : string) (s : Server) : result loc :=
  match vectorDBs s !! dbName with
  | Some l => Ok l
  | None => Err (ErrNotFound dbName)
  end.

Definition created_message (dbType dbName collectionName : string)
    : string :=
  "Successfully created " +:+ dbType +:+ " vector database '" +:+ dbName
  +:+ "' with collection '" +:+ collectionName +:+ "'".

Definition handleCreateVectorDatabase (clk : Clock) (args : Args)
    (s : Server) : result any * Server :=
  match as_string (args !! "db_name") with
  | None => (Err (ErrRequired "db_name"), s)
  | Some dbName =>
  match as_string (args !! "db_type") with
  | None => (Err (ErrRequired "db_type"), s)
  | Some dbType =>
  let collectionName :=
    match as_string (args !! "collection_name") with
    | Some cn => cn
    | None => "MaestroDocs"
    end in
  match vectorDBs s !! dbName with
  | Some _ => (Err (ErrAlreadyExists dbName), s)
  | None =>
  match NewDatabase dbType collectionName (config s) with
  | Err e => (Err (Wrap "failed to create vector database" e), s)
  | Panic msg => (Panic msg, s)
  | Ok db =>
      let l := fresh (dom (heap s)) in
      (Ok (VString (created_message dbType dbName collectionName)),
       {| config := config s;
          vectorDBs := <[dbName := l]> (vectorDBs s);
          heap := <[l := db]> (heap s);
          calls := calls s |})
  end end end end.

Definition database_entry (dbName : string) (db : DB) (count : Z)
    : gmap string any :=
  {[ "name" := VString dbName;
     "type" := VString (Type_ db);
     "collection" := VString (CollectionName db);
     "document_count" := VInt count ]}.

(** The [for dbName, db := range s.vectorDBs] loop of
    [handleListDatabases]; [entries] is what remains to be visited and
    [dbList] the slice appended to so far. *)
Fixpoint list_databases_loop (entries : list (string * loc))
    (dbList : list (gmap string any)) (s : Server)
    : result (list (gmap string any)) * Server :=
  match entries with
  | [] => (Ok dbList, s)
  | (dbName, l) :: rest =>
      match heap s !! l with
      | None => (Panic nil_dereference, s)
      | Some db =>
          let '(r, db') := CountDocuments db in
          let s' := commit l OpCountDocuments db' s in
          match r with
          | Panic msg => (Panic msg, s')
          | Ok count =>
              list_databases_loop rest
                (dbList ++ [database_entry dbName db' count]) s'
          | Err _ =>
              list_databases_loop rest
                (dbList ++ [database_entry dbName db' (-1)]) s'
          end
      end
  end.

(** Go visits the entries of a map in an unspecified order; the model
    visits them in the order of [map_to_list]. *)
Definition handleListDatabases (clk : Clock) (args : Args) (s : Server)
    : result any * Server :=
  if decide (size (vectorDBs s) = 0%nat)
  then (Ok (VString "No vector databases are currently active"), s)
  else
    match list_databases_loop (map_to_list (vectorDBs s)) [] s with
    | (Ok dbList, s') => (Ok (VMap {[ "databases" := VMaps dbList ]}), s')
    | (Err e, s') => (Err e, s')
    | (Panic msg, s') => (Panic msg, s')
    end.

Definition setup_message (dbType dbName embedding : string) : string :=
  "Successfully set up " +:+ dbType +:+ " vector database '" +:+ dbName
  +:+ "' with embedding '" +:+ embedding +:+ "'".

Definition handleSetupDatabase (clk : Clock) (args : Args) (s : Server)
    : result any * Server :=
  match as_string (args !! "db_name") with
  | None => (Err (ErrRequired "db_name"), s)
  | Some dbName =>
  let embedding :=
    match as_string (args !! "embedding") with
    | Some emb => emb
    | None => "default"
    end in
  match getDatabaseByName dbName s with
  | Err e => (Err e, s)
  | Panic msg => (Panic msg, s)
  | Ok l =>
  match heap s !! l with
  | None => (Panic nil_dereference, s)
  | Some db =>
      let '(r, db') := Setup embedding db in
      let s' := commit l OpSetup db' s in
      match r with
      | Err e => (Err (Wrap "failed to set up vector database" e), s')
      | Panic msg => (Panic msg, s')
      | Ok _ =>
          (Ok (VString (setup_message (Type_ db') dbName embedding)), s')
      end
  end end end.

(** The loop over [vector] of [handleWriteDocument]; [i] is the index of
    the head of [vector]. *)
Fixpoint convert_vector (i : nat) (vector : list JSON)
    : result (list float64) :=
  match vector with
  | [] => Ok []
  | JNumber f :: rest =>
      match convert_vector (S i) rest with
      | Ok fs => Ok (f :: fs)
      | Err e => Err e
      | Panic msg => Panic msg
      end
  | _ :: _ => Err (ErrInvalidVector i)
  end.

Definition handleWriteDocument (clk : Clock) (args : Args) (s : Server)
    : result any * Server :=
  match as_string (args !! "db_name") with
  | None => (Err (ErrRequired "db_name"), s)
  | Some dbName =>
  match as_string (args !! "url") with
  | None => (Err (ErrRequired "url"), s)
  | Some url =>
  match as_string (args !! "text") with
  | None => (Err (ErrRequired "text"), s)
  | Some text =>
  match getDatabaseByName dbName s with
  | Err e => (Err e, s)
  | Panic msg => (Panic msg, s)
  | Ok l =>
  let metadata :=
    match as_map (args !! "metadata") with
    | Some metadata => metadata
    | None => ∅
    end in
  match
    match as_slice (args !! "vector") with
    | Some vector => convert_vector 0 vector
    | None => Ok []
    end
  with
  | Err e => (Err e, s)
  | Panic msg => (Panic msg, s)
  | Ok vector =>
  let document :=
    {| ID := EmptyString; URL := url; Text := text; Metadata := metadata;
       Vector := vector |} in
  match heap s !! l with
  | None => (Panic nil_dereference, s)
  | Some db =>
      let '(r, db') := WriteDocument clk document db in
      let s' := commit l OpWriteDocument db' s in
      match r with
      | Err e => (Err (Wrap "failed to write document" e), s')
      | Panic msg => (Panic msg, s')
      | Ok stats =>
          (Ok (VMap {[ "status" := VString "ok";
                       "message" := VString "Wrote 1 document";
                       "write_stats" := VWriteStats stats ]}), s')
      end
  end end end end end end.

Definition handleQuery (clk : Clock) (args : Args) (s : Server)
    : result any * Server :=
  match as_string (args !! "db_name") with
  | None => (Err (ErrRequired "db_name"), s)
  | Some dbName =>
  match as_string (args !! "query") with
  | None => (Err (ErrRequired "query"), s)
  | Some query =>
  match getDatabaseByName dbName s with
  | Err e => (Err e, s)
  | Panic msg => (Panic msg, s)
  | Ok l =>
  let limit :=
    match as_float64 (args !! "limit") with
    | Some f => int_of_float64 f
    | None => 5
    end in
  let collectionName :=
    match as_string (args !! "collection_name") with
    | Some cn => cn
    | None => EmptyString
    end in
  match heap s !! l with
  | None => (Panic nil_dereference, s)
  | Some db =>
      let '(r, db') := Query query limit collectionName db in
      let s' := commit l OpQuery db' s in
      match r with
      | Err e => (Err (Wrap "failed to query vector database" e), s')
      | Panic msg => (Panic msg, s')
      | Ok result => (Ok result, s')
      end
  end end end end.

Definition handleListDocuments (clk : Clock) (args : Args) (s : Server)
    : result any * Server :=
  match as_string (args !! "db_name") with
  | None => (Err (ErrRequired "db_name"), s)
  | Some dbName =>
  match getDatabaseByName dbName s with
  | Err e => (Err e, s)
  | Panic msg => (Panic msg, s)
  | Ok l =>
  let limit :=
    match as_float64 (args !! "limit") with
    | Some f => int_of_float64 f
    | None => 10
    end in
  let offset :=
    match as_float64 (args !! "offset") with
    | Some f => int_of_float64 f
    | None => 0
    end in
  match heap s !! l with
  | None => (Panic nil_dereference, s)
  | Some db =>
      let '(r, db') := ListDocuments limit offset db in
      let s' := commit l OpListDocuments db' s in
      match r with
      | Err e => (Err (Wrap "failed to list documents" e), s')
      | Panic msg => (Panic msg, s')
      | Ok documents =>
          (Ok (VMap {[ "documents" := VDocuments documents;
                       "count" := VInt (Z.of_nat (length documents)) ]}),
           s')
      end
  end end end.

Definition handleCountDocuments (clk : Clock) (args : Args) (s : Server)
    : result any * Server :=
  match as_string (args !! "db_name") with
  | None => (Err (ErrRequired "db_name"), s)
  | Some dbName =>
  match getDatabaseByName dbName s with
  | Err e => (Err e, s)
  | Panic msg => (Panic msg, s)
  | Ok l =>
  match heap s !! l with
  | None => (Panic nil_dereference, s)
  | Some db =>
      let '(r, db') := CountDocuments db in
      let s' := commit l OpCountDocuments db' s in
      match r with
      | Err e => (Err (Wrap "failed to count documents" e), s')
      | Panic msg => (Panic msg, s')
      | Ok count => (Ok (VMap {[ "count" := VInt count ]}), s')
      end
  end end end.

Definition deleted_message (documentID dbName : string) : string :=
  "Successfully deleted document '" +:+ documentID
  +:+ "' from vector database '" +:+ dbName +:+ "'".

Definition handleDeleteDocument (clk : Clock) (args : Args) (s : Server)
    : result any * Server :=
  match as_string (args !! "db_name") with
  | None => (Err (ErrRequired "db_name"), s)
  | Some dbName =>
  match as_string (args !! "document_id") with
  | None => (Err (ErrRequired "document_id"), s)
  | Some documentID =>
  match getDatabaseByName dbName s with
  | Err e => (Err e, s)
  | Panic msg => (Panic msg, s)
  | Ok l =>
  match heap s !! l with
  | None => (Panic nil_dereference, s)
  | Some db =>
      let '(r, db') := DeleteDocument documentID db in
      let s' := commit l OpDeleteDocument db' s in
      match r with
      | Err e => (Err (Wrap "failed to delete document" e), s')
      | Panic msg => (Panic msg, s')
      | Ok _ => (Ok (VString (deleted_message documentID dbName)), s')
      end
  end end end end.

Definition cleaned_message (dbName : string) : string :=
  "Successfully cleaned up and removed vector database '" +:+ dbName
  +:+ "'".

Definition handleCleanup (clk : Clock) (args : Args) (s : Server)
    : result any * Server :=
  match as_string (args !! "db_name") with
  | None => (Err (ErrRequired "db_name"), s)
  | Some dbName =>
  match vectorDBs s !! dbName with
  | None => (Err (ErrCleanupNotFound dbName), s)
  | Some l =>
  match heap s !! l with
  | None => (Panic nil_dereference, s)
  | Some db =>
      let '(r, db') := Cleanup db in
      let s' := commit l OpCleanup db' s in
      match r with
      | Err e => (Err (Wrap "failed to cleanup vector database" e), s')
      | Panic msg => (Panic msg, s')
      | Ok _ =>
          (Ok (VString (cleaned_message dbName)),
           {| config := config s';
              vectorDBs := delete dbName (vectorDBs s');
              heap := heap s';
              calls := calls s' |})
      end
  end end end.

End Server.

Arguments Server DB : clear implicits.

(** ** server.go: the tool table and the HTTP dispatch *)

Section Dispatch.

Context {DB : Type} `{!VectorDatabase DB}.
Variable NewDatabase : string -> string -> Config -> result DB.

(** The [Tool] struct. A handler is a method value bound to the server;
    here it takes the server's state. ([InputSchema] is static data that
    only [handleToolsList] reads.) *)
Record Tool : Type := mkTool {
  Name : string;
  Description : string;
  Handler : Clock -> Args -> Server DB -> result any * Server DB
}.

Definition registerTool (tool : Tool) (tools : gmap string Tool)
    : gmap string Tool :=
  <[Name tool := tool]> tools.

Definition registerTools : gmap string Tool :=
  registerTool
    {| Name := "cleanup";
       Description :=
         "Clean up resources and close connections for a vector database";
       Handler := handleCleanup |}
  (registerTool
    {| Name := "delete_document";
       Description := "Delete a single document from a vector database";
       Handler := handleDeleteDocument |}
  (registerTool
    {| Name := "count_documents";
       Description := "Get the current count of documents in a collection";
       Handler := handleCountDocuments |}
  (registerTool
    {| Name := "list_documents";
       Description := "List documents from a vector database";
       Handler := handleListDocuments |}
  (registerTool
    {| Name := "query";
       Description := "Query a vector database using natural language";
       Handler := handleQuery |}
  (registerTool
    {| Name := "write_document";
       Description := "Write a single document to a vector database";
       Handler := handleWriteDocument |}
  (registerTool
    {| Name := "setup_database";
       Description := "Set up a vector database and create collections";
       Handler := handleSetupDatabase |}
  (registerTool
    {| Name := "list_databases";
       Description := "List all available vector database instances";
       Handler := handleListDatabases |}
  (registerTool
    {| Name := "create_vector_database";
       Description := "Create a new vector database instance";
       Handler := handleCreateVectorDatabase NewDatabase |}
    ∅)))))))).

(** An HTTP request as far as [handleToolCall] reads it, and the response
    it writes. *)
Record Request : Type := mkRequest {
  Method : string;
  Body : string
}.

Inductive Payload : Type :=
| PlainText (text : string)
| Encoded (m : gmap string any).

Record Response : Type := mkResponse {
  StatusCode : Z;
  ContentType : string;
  Content : Payload
}.

(** [http.Error(w, msg, code)] *)
Definition http_Error (msg : string) (code : Z) : Response :=
  {| StatusCode := code;
     ContentType := "text/plain; charset=utf-8";
     Content := PlainText (msg +:+ "
") |}.

Definition json_response (code : Z) (m : gmap string any) : Response :=
  {| StatusCode := code; ContentType := "application/json";
     Content := Encoded m |}.

(** [json.NewDecoder(r.Body).Decode(&request)] belongs to the Go library:
    it yields the [name] and [arguments] of the request, or nothing when
    it reports an error. *)
Variable Decode : string -> option (string * Args).

(** [tools] is the [Tools] field of the server. When the handler panics,
    net/http aborts the connection and no response is written. *)
Definition handleToolCall (tools : gmap string Tool) (clk : Clock)
    (r : Request) (s : Server DB) : option Response * Server DB :=
  if negb (String.eqb (Method r) "POST")
  then (Some (http_Error "Method not allowed" 405), s)
  else
    match Decode (Body r) with
    | None => (Some (http_Error "Invalid JSON" 400), s)
    | Some (name, arguments) =>
        match tools !! name with
        | None =>
            (Some (http_Error ("Tool '" +:+ name +:+ "' not found") 404),
             s)
        | Some tool =>
            match Handler tool clk arguments s with
            | (Err err, s') =>
                (Some (json_response 500
                         {[ "error" := VString (Error err) ]}), s')
            | (Ok result, s') =>
                (Some (json_response 200 {[ "result" := result ]}), s')
            | (Panic _, s') => (None, s')
            end
        end
    end.

End Dispatch.

Arguments Tool DB : clear implicits.

(** ** Notions used to state the properties *)

(** The results [Search] builds from the documents it visits, [i] being the
    index of the first of them. *)
Fixpoint scored (i : Z) (docs : list Document) : list SearchResult :=
  match docs with
  | [] => []
  | doc :: rest =>
      {| SRDocument := doc; Score := Mock.mock_score i |}
      :: scored (i + 1) rest
  end.

(** Non-increasing order of the scores. *)
Definition non_increasing (results : list SearchResult) : Prop :=
  forall (i j : nat) (ri rj : SearchResult),
    (i <= j)%nat -> results !! i = Some ri -> results !! j = Some rj ->
    (Score rj <= Score ri)%Q.

Definition is_number (v : JSON) : bool :=
  match v with JNumber _ => true | _ => false end.

(** The client a database delegates to. *)
Definition client_of (db : Database) : MockClient :=
  match db with
  | OfMilvus m => Milvus.client m
  | OfWeaviate w => Weaviate.client w
  end.

(** The sentinel [handleListDatabases] reports for a count that failed. *)
Definition count_or_sentinel (r : result Z) : Z :=
  match r with Ok count => count | _ => -1 end.

Section Invariant.

Context {DB : Type} `{!VectorDatabase DB}.
Variable NewDatabase : string -> string -> Config -> result DB.

(** Every registered pointer points to an object. *)
Definition wf (s : Server DB) : Prop :=
  map_Forall (fun _ l => is_Some (heap s !! l)) (vectorDBs s).

(** The objects of [s] are still there in [s']. *)
Definition heap_grows (s s' : Server DB) : Prop :=
  forall l : loc, is_Some (heap s !! l) -> is_Some (heap s' !! l).

(** The states the server goes through: one call of a registered tool
    after another, starting from [NewServer]. *)
Inductive reachable (cfg : Config) : Server DB -> Prop :=
| reachable_new : reachable cfg (NewServer cfg)
| reachable_call name tool clk args s r s' :
    reachable cfg s ->
    registerTools NewDatabase !! name = Some tool ->
    Handler tool clk args s = (r, s') ->
    reachable cfg s'.

End Invariant.

(** ** Argument maps of well-typed calls: the required arguments of the
    tool on top of any other entries [rest]. *)

Definition create_call (dbName dbType : string) (rest : Args) : Args :=
  <["db_name" := JString dbName]> (<["db_type" := JString dbType]> rest).

Definition name_call (dbName : string) (rest : Args) : Args :=
  <["db_name" := JString dbName]> rest.

Definition write_call (dbName url text : string) (rest : Args) : Args :=
  <["db_name" := JString dbName]>
    (<["url" := JString url]> (<["text" := JString text]> rest)).

Definition query_call (dbName query : string) (rest : Args) : Args :=
  <["db_name" := JString dbName]> (<["query" := JString query]> rest).

Definition delete_call (dbName documentID : string) (rest : Args) : Args :=
  <["db_name" := JString dbName]>
    (<["document_id" := JString documentID]> rest).

(** ** A backend that refuses every call, and concrete states, for the
    examples *)

Module Examples.

(** An implementation of the interface whose every call returns an
    error, as a backend whose remote end is gone would. *)
Inductive Unreachable : Type := unreachable.

Definition refused : error := ErrExternal "connection refused".

#[global] Instance Unreachable_VectorDatabase : VectorDatabase Unreachable
  := {|
  Type_ _ := "unreachable";
  CollectionName _ := "none";
  Setup _ db := (Err refused, db);
  WriteDocument _ _ db := (Err refused, db);
  WriteDocuments _ _ db := (Err refused, db);
  Query _ _ _ db := (Err refused, db);
  Search _ _ _ db := (Err refused, db);
  ListDocuments _ _ db := (Err refused, db);
  CountDocuments db := (Err refused, db);
  DeleteDocument _ db := (Err refused, db);
  Cleanup db := (Err refused, db)
|}.

Definition down : Server Unreachable :=
  {| config := {| VectorSize := 1536 |};
     vectorDBs := {[ "db1" := 0%nat ]};
     heap := {[ 0%nat := unreachable ]};
     calls := [] |}.

Definition cfg : Config := {| VectorSize := 1536 |}.

Definition clk : Clock :=
  {| UnixNano := fun i => 1700000000000000000 + i; Since := "1ms" |}.

Definition after
    (h : Clock -> Args -> Server Database -> result any * Server Database)
    (args : Args) (s : Server Database) : Server Database :=
  snd (h clk args s).

(** A fresh server; then "db1" of kind milvus created; set up; one
    document written. *)
Definition s0 : Server Database := NewServer cfg.

Definition s1 : Server Database :=
  after (handleCreateVectorDatabase CreateVectorDatabase)
    (create_call "db1" "milvus" ∅) s0.

Definition s2 : Server Database :=
  after handleSetupDatabase (name_call "db1" ∅) s1.

Definition s3 : Server Database :=
  after handleWriteDocument (write_call "db1" "u" "hello world" ∅) s2.

(** [s3] with a second instance, "db2" of kind weaviate, created and not
    set up. *)
Definition s4 : Server Database :=
  after (handleCreateVectorDatabase CreateVectorDatabase)
    (create_call "db2" "weaviate" ∅) s3.

Definition doc (id text : string) : Document :=
  {| ID := id; URL := "u"; Text := text; Metadata := ∅; Vector := [] |}.

(** A client with three documents in collection "c". *)
Definition three : MockClient :=
  {| collections := {[ "c" := ∅ ]};
     documents := {[ "c" := [doc "a" "x"; doc "b" "y"; doc "c" "z"] ]} |}.

(** The body of a [count_documents] call for "db1", and a decoder that
    accepts exactly that body. *)
Definition quoted (s : string) : string :=
  String (Ascii.ascii_of_nat 34) (s +:+ String (Ascii.ascii_of_nat 34) EmptyString).

Definition count_body : string :=
  "{" +:+ quoted "name" +:+ ":" +:+ quoted "count_documents" +:+ ","
  +:+ quoted "arguments" +:+ ":{" +:+ quoted "db_name" +:+ ":"
  +:+ quoted "db1" +:+ "}}".

Definition decode_one (body : string) : option (string * Args) :=
  if String.eqb body count_body
  then Some ("count_documents", name_call "db1" ∅)
  else None.

End Examples.

(** ** Further parts of the code *)

(** *** server.go: the health endpoint *)

Section Health.

Context {DB : Type} `{!VectorDatabase DB}.

(** [now] is the JSON rendering of [time.Now().UTC()]. *)
Definition handleHealth (now : string) (r : Request) (s : Server DB)
    : Response :=
  if negb (String.eqb (Method r) "GET")
  then http_Error "Method not allowed" 405
  else
    json_response 200
      {[ "status" := VString "healthy";
         "timestamp" := VString now;
         "vector_databases" := VInt (Z.of_nat (size (vectorDBs s))) ]}.

End Health.

(** *** config.go: validation and timeouts

    The fields of the configuration structs that [Validate] and
    [GetTimeout] read; a [time.Duration] is its number of nanoseconds. *)

Module Configuration.

Record ServerConfig : Type := mkServerConfig {
  Host : string;
  Port : Z
}.

Record DatabaseConfig : Type := mkDatabaseConfig {
  DatabaseType : string
}.

Record MilvusConfig : Type := mkMilvusConfig {
  MilvusHost : string;
  MilvusPort : Z
}.

Record WeaviateConfig : Type := mkWeaviateConfig {
  WeaviateURL : string
}.

Record VectorDBConfig : Type := mkVectorDBConfig {
  VectorDBType : string;
  Milvus : MilvusConfig;
  Weaviate : WeaviateConfig
}.

Record MCPConfig : Type := mkMCPConfig {
  ToolTimeout : Z;
  Timeouts : gmap string Z;
  VectorDB : VectorDBConfig
}.

Record Config : Type := mkConfig {
  Server : ServerConfig;
  Database : DatabaseConfig;
  MCP : MCPConfig
}.

(** The errors of [Validate], one per format string. *)
Inductive ValidationError : Type :=
| InvalidServerPort (port : Z)
    (* "invalid server port: <port>" *)
| DatabaseTypeRequired
    (* "database type is required" *)
| VectorDBTypeRequired
    (* "vector database type is required" *)
| MilvusHostRequired
    (* "milvus host is required" *)
| InvalidMilvusPort (port : Z)
    (* "invalid milvus port: <port>" *)
| WeaviateURLRequired
    (* "weaviate URL is required" *)
| UnsupportedVectorDBType (type : string).
    (* "unsupported vector database type: <type>" *)

Definition message (e : ValidationError) : string :=
  match e with
  | InvalidServerPort port => "invalid server port: " +:+ pretty port
  | DatabaseTypeRequired => "database type is required"
  | VectorDBTypeRequired => "vector database type is required"
  | MilvusHostRequired => "milvus host is required"
  | InvalidMilvusPort port => "invalid milvus port: " +:+ pretty port
  | WeaviateURLRequired => "weaviate URL is required"
  | UnsupportedVectorDBType type =>
      "unsupported vector database type: " +:+ type
  end.

(** [Validate]: [None] is the nil error. *)
Definition Validate (c : Config) : option ValidationError :=
  if (Port (Server c) <=? 0) || (Port (Server c) >? 65535)
  then Some (InvalidServerPort (Port (Server c)))
  else if String.eqb (DatabaseType (Database c)) EmptyString
  then Some DatabaseTypeRequired
  else if String.eqb (VectorDBType (VectorDB (MCP c))) EmptyString
  then Some VectorDBTypeRequired
  else if String.eqb (VectorDBType (VectorDB (MCP c))) "milvus" then
    if String.eqb (MilvusHost (Milvus (VectorDB (MCP c)))) EmptyString
    then Some MilvusHostRequired
    else if (MilvusPort (Milvus (VectorDB (MCP c))) <=? 0)
            || (MilvusPort (Milvus (VectorDB (MCP c))) >? 65535)
    then Some (InvalidMilvusPort (MilvusPort (Milvus (VectorDB (MCP c)))))
    else None
  else if String.eqb (VectorDBType (VectorDB (MCP c))) "weaviate" then
    if String.eqb (WeaviateURL (Weaviate (VectorDB (MCP c)))) EmptyString
    then Some WeaviateURLRequired
    else None
  else Some (UnsupportedVectorDBType (VectorDBType (VectorDB (MCP c)))).

Definition GetTimeout (category : string) (c : Config) : Z :=
  match Timeouts (MCP c) !! category with
  | Some timeout => timeout
  | None => ToolTimeout (MCP c)
  end.

End Configuration.

(** *** Notions used to state the further properties *)

(** The calls that change a mock client. *)
Inductive ClientCall : Type :=
| CallConnect
| CallCreateCollection (name : string) (schema : gmap string JSON)
| CallInsert (clk : Clock) (collectionName : string) (docs : list Document)
| CallDeleteDocument (collectionName documentID : string)
| CallDeleteDocuments (collectionName : string) (documentIDs : list string)
| CallDeleteCollection (collectionName : string)
| CallClose.

Definition client_call (call : ClientCall) (m : MockClient) : MockClient :=
  match call with
  | CallConnect => snd (Mock.Connect m)
  | CallCreateCollection name schema =>
      snd (Mock.CreateCollection name schema m)
  | CallInsert clk collectionName docs =>
      snd (Mock.Insert clk collectionName docs m)
  | CallDeleteDocument collectionName documentID =>
      snd (Mock.DeleteDocument collectionName documentID m)
  | CallDeleteDocuments collectionName documentIDs =>
      snd (Mock.DeleteDocuments collectionName documentIDs m)
  | CallDeleteCollection collectionName =>
      snd (Mock.DeleteCollection collectionName m)
  | CallClose => snd (Mock.Close m)
  end.

(** The clients one gets from a new one by any sequence of calls. *)
Definition client_after (calls : list ClientCall) : MockClient :=
  foldl (fun m call => client_call call m) Mock.NewMockMilvusClient calls.

(** No two names of the registry share a handle. *)
Definition registry_injective {DB : Type} (s : Server DB) : Prop :=
  forall (n1 n2 : string) (l : loc),
    vectorDBs s !! n1 = Some l -> vectorDBs s !! n2 = Some l -> n1 = n2.

(** The client of a database holds no collection but the database's own. *)
Definition own_collection_only (db : Database) : Prop :=
  forall c : string,
    is_Some (documents (client_of db) !! c) -> c = CollectionName db.

(** How the objects of [s'] come from those of [s]: each is an object of
    [s] changed along [R], or sits at an address that was free and
    satisfies [N]. *)
Definition heap_step {DB : Type} (R : DB -> DB -> Prop) (N : DB -> Prop)
    (s s' : Server DB) : Prop :=
  forall (l : loc) (db' : DB),
    heap s' !! l = Some db' ->
    (exists db, heap s !! l = Some db /\ R db db') \/
    (heap s !! l = None /\ N db').

(** A database keeps its type and its collection name. *)
Definition same_kind (db db' : Database) : Prop :=
  Type_ db' = Type_ db /\ CollectionName db' = CollectionName db.

(** The [required] list of the input schema [registerTools] gives each
    tool. *)
Definition required (name : string) : list string :=
  if String.eqb name "create_vector_database" then ["db_name"; "db_type"]
  else if String.eqb name "list_databases" then []
  else if String.eqb name "setup_database" then ["db_name"]
  else if String.eqb name "write_document" then ["db_name"; "url"; "text"]
  else if String.eqb name "query" then ["db_name"; "query"]
  else if String.eqb name "list_documents" then ["db_name"]
  else if String.eqb name "count_documents" then ["db_name"]
  else if String.eqb name "delete_document" then ["db_name"; "document_id"]
  else if String.eqb name "cleanup" then ["db_name"]
  else [].

(** The limits and the offset a call carries, with the defaults of the
    handlers. *)
Definition number_or (default : Z) (v : option JSON) : Z :=
  match as_float64 v with
  | Some f => int_of_float64 f
  | None => default
  end.

(** ** Proof tactics *)

(** Reading the required arguments back from the argument map of a
    well-typed call. *)
Ltac args_lookup :=
  unfold create_call, name_call, write_call, query_call, delete_call;
  repeat first
    [ rewrite lookup_insert_eq
    | rewrite lookup_insert_ne by done ];
  simpl.

(** Case analysis along the matches of a handler that returned. *)
Ltac handler_cases :=
  repeat match goal with
  | H : (_, _) = (_, _) |- _ => injection H as <- <-
  | H : context [match ?x with _ => _ end] |- _ =>
      lazymatch x with
      | context [match _ with _ => _ end] => fail
      | _ => destruct x eqn:?
      end
  | H : context [let '(_, _) := ?x in _] |- _ => destruct x eqn:?
  end.

(** * Properties *)

(** ** float64: rounding is monotone *)

Lemma pow2_pos (e : Z) : (0 < pow2 e)%Q.
Proof. apply Qpower_0_lt. reflexivity. Qed.

Lemma pow2_plus (a b : Z) : (pow2 (a + b) == pow2 a * pow2 b)%Q.
Proof. apply Qpower_plus. discriminate. Qed.

Lemma pow2_le (a b : Z) : a <= b -> (pow2 a <= pow2 b)%Q.
Proof. intros H. apply Qpower_le_compat_l; [exact H | discriminate]. Qed.

Lemma pow2_inject (n : Z) : 0 <= n -> (pow2 n == inject_Z (2 ^ n))%Q.
Proof. intros H. symmetry. by apply Zpower_Qpower. Qed.

Lemma pow2_ulp (e k : Z) :
  0 <= k -> (pow2 e == inject_Z (2 ^ k) * pow2 (e - k))%Q.
Proof.
  intros Hk. rewrite <- (pow2_inject k), <- pow2_plus by lia.
  by replace (k + (e - k)) with e by lia.
Qed.

Lemma inject_Z_pos (z : Z) : 0 < z -> (0 < inject_Z z)%Q.
Proof. intros H. unfold Qlt. simpl. lia. Qed.

Lemma Qdiv_lt_cross (a b c d : Q) :
  (0 < b -> 0 < d -> a * d < c * b -> a / b < c / d)%Q.
Proof.
  intros Hb Hd H. apply Qlt_shift_div_r; [exact Hb |].
  assert (E : (c / d * b == c * b / d)%Q) by (field; lra).
  rewrite E. by apply Qlt_shift_div_l.
Qed.

Lemma Qdiv_le_cross (a b c d : Q) :
  (0 < b -> 0 < d -> a * d <= c * b -> a / b <= c / d)%Q.
Proof.
  intros Hb Hd H. apply Qle_shift_div_r; [exact Hb |].
  assert (E : (c / d * b == c * b / d)%Q) by (field; lra).
  rewrite E. by apply Qle_shift_div_l.
Qed.

Lemma binade_spec (x : Q) :
  (0 < x)%Q -> (pow2 (binade x) <= x /\ x < pow2 (binade x + 1))%Q.
Proof.
  destruct x as [p d]. intros Hx.
  assert (Hp : 0 < p) by (unfold Qlt in Hx; simpl in Hx; lia).
  unfold binade. cbn [Qnum Qden].
  pose proof (Z.log2_spec p Hp) as [Hp1 Hp2].
  pose proof (Z.log2_spec (Z.pos d) (Pos2Z.is_pos d)) as [Hd1 Hd2].
  pose proof (Z.log2_nonneg p) as Hlp.
  pose proof (Z.log2_nonneg (Z.pos d)) as Hld.
  set (lp := Z.log2 p) in *. set (ld := Z.log2 (Z.pos d)) in *.
  assert (HPD : (p # d == inject_Z p / inject_Z (Z.pos d))%Q)
    by apply Qmake_Qdiv.
  assert (HD : (0 < inject_Z (Z.pos d))%Q) by (by apply inject_Z_pos).
  assert (Hupper : (p # d < pow2 (lp - ld + 1))%Q).
  { replace (lp - ld + 1) with (Z.succ lp - ld) by lia.
    unfold pow2. rewrite Qpower_minus by discriminate.
    fold (pow2 (Z.succ lp)). fold (pow2 ld).
    rewrite HPD, (pow2_inject (Z.succ lp)), (pow2_inject ld) by lia.
    apply Qdiv_lt_cross; [exact HD | apply inject_Z_pos; lia |].
    rewrite <- !inject_Z_mult, <- Zlt_Qlt. nia. }
  assert (Hlower : (pow2 (lp - ld - 1) <= p # d)%Q).
  { replace (lp - ld - 1) with (lp - Z.succ ld) by lia.
    unfold pow2. rewrite Qpower_minus by discriminate.
    fold (pow2 lp). fold (pow2 (Z.succ ld)).
    rewrite HPD, (pow2_inject lp), (pow2_inject (Z.succ ld)) by lia.
    apply Qdiv_le_cross; [apply inject_Z_pos; lia | exact HD |].
    rewrite <- !inject_Z_mult, <- Zle_Qle. nia. }
  destruct (Qle_bool (pow2 (lp - ld)) (p # d)) eqn:Hb.
  - apply Qle_bool_iff in Hb. split; [exact Hb | exact Hupper].
  - split; [exact Hlower |].
    replace (lp - ld - 1 + 1) with (lp - ld) by lia.
    apply Qnot_le_lt. intros Hle. apply Qle_bool_iff in Hle. congruence.
Qed.

Lemma round_half_even_mono (x y : Q) :
  (x <= y)%Q -> round_half_even x <= round_half_even y.
Proof.
  intros Hxy. pose proof (Qfloor_resp_le _ _ Hxy) as Hf.
  pose proof (Qfloor_le x) as Hx1. pose proof (Qlt_floor x) as Hx2.
  pose proof (Qfloor_le y) as Hy1. pose proof (Qlt_floor y) as Hy2.
  rewrite inject_Z_plus in Hx2, Hy2.
  unfold round_half_even.
  destruct (Z.eq_dec (Qfloor x) (Qfloor y)) as [E | NE].
  - rewrite <- E in *.
    destruct (Qcompare_spec (x - inject_Z (Qfloor x)) (1 # 2));
      destruct (Qcompare_spec (y - inject_Z (Qfloor x)) (1 # 2));
      destruct (Z.even (Qfloor x)); try lia; exfalso; lra.
  - destruct (Qcompare_spec (x - inject_Z (Qfloor x)) (1 # 2));
      destruct (Qcompare_spec (y - inject_Z (Qfloor y)) (1 # 2));
      destruct (Z.even (Qfloor x)); destruct (Z.even (Qfloor y)); lia.
Qed.

Lemma round_half_even_inject (n : Z) : round_half_even (inject_Z n) = n.
Proof.
  unfold round_half_even. rewrite Qfloor_Z.
  destruct (Qcompare_spec (inject_Z n - inject_Z n) (1 # 2));
    [exfalso; lra | done | exfalso; lra].
Qed.

Lemma round_positive_nonneg (x : Q) : (0 < x -> 0 <= round_positive x)%Q.
Proof.
  intros Hx. unfold round_positive.
  pose proof (pow2_pos (exponent x - 52)) as Hu.
  apply Qmult_le_0_compat; [|lra].
  change 0%Q with (inject_Z 0). rewrite <- Zle_Qle.
  apply Z.le_trans with (round_half_even (inject_Z 0));
    [by rewrite round_half_even_inject |].
  apply round_half_even_mono.
  apply Qle_shift_div_l; [exact Hu |].
  change (inject_Z 0) with 0%Q. lra.
Qed.

Lemma round_positive_upper (x : Q) :
  (0 < x -> round_positive x <= pow2 (exponent x + 1))%Q.
Proof.
  intros Hx. unfold round_positive.
  pose proof (pow2_pos (exponent x - 52)) as Hu.
  destruct (binade_spec x Hx) as [_ Hlt].
  assert (Hle : (pow2 (binade x + 1) <= pow2 (exponent x + 1))%Q)
    by (apply pow2_le; unfold exponent; lia).
  pose proof (pow2_ulp (exponent x + 1) 53 ltac:(lia)) as E.
  replace (exponent x + 1 - 53) with (exponent x - 52) in E by lia.
  rewrite E. apply Qmult_le_compat_r; [|lra].
  rewrite <- Zle_Qle.
  apply Z.le_trans with (round_half_even (inject_Z (2 ^ 53)));
    [|by rewrite round_half_even_inject].
  apply round_half_even_mono.
  apply Qle_shift_div_r; [exact Hu | lra].
Qed.

Lemma round_positive_lower (x : Q) :
  (0 < x)%Q -> -1022 <= binade x ->
  (pow2 (exponent x) <= round_positive x)%Q.
Proof.
  intros Hx Hn. unfold round_positive.
  pose proof (pow2_pos (exponent x - 52)) as Hu.
  destruct (binade_spec x Hx) as [Hle _].
  replace (binade x) with (exponent x) in Hle by (unfold exponent; lia).
  pose proof (pow2_ulp (exponent x) 52 ltac:(lia)) as E.
  rewrite E at 1. apply Qmult_le_compat_r; [|lra].
  rewrite <- Zle_Qle.
  apply Z.le_trans with (round_half_even (inject_Z (2 ^ 52)));
    [by rewrite round_half_even_inject |].
  apply round_half_even_mono.
  apply Qle_shift_div_l; [exact Hu | lra].
Qed.

Lemma round_positive_mono (x y : Q) :
  (0 < x -> x <= y -> round_positive x <= round_positive y)%Q.
Proof.
  intros Hx Hxy. assert (Hy : (0 < y)%Q) by lra.
  destruct (Z.lt_trichotomy (exponent x) (exponent y)) as [Hlt | [E | Hgt]].
  - pose proof (round_positive_upper x Hx) as Hu.
    assert (Hb : -1022 <= binade y) by (unfold exponent in *; lia).
    pose proof (round_positive_lower y Hy Hb) as Hl.
    pose proof (pow2_le (exponent x + 1) (exponent y)) as Hp.
    specialize (Hp ltac:(lia)). lra.
  - unfold round_positive. rewrite E.
    pose proof (pow2_pos (exponent y - 52)) as Hu.
    apply Qmult_le_compat_r; [|lra].
    rewrite <- Zle_Qle. apply round_half_even_mono.
    apply Qmult_le_compat_r; [exact Hxy |].
    apply Qlt_le_weak, Qinv_lt_0_compat, Hu.
  - exfalso.
    assert (Hb : binade x = exponent x) by (unfold exponent in *; lia).
    destruct (binade_spec x Hx) as [Hl _]. rewrite Hb in Hl.
    destruct (binade_spec y Hy) as [_ Hu].
    pose proof (pow2_le (binade y + 1) (exponent x)) as Hp.
    specialize (Hp ltac:(unfold exponent in *; lia)). lra.
Qed.

Lemma round64_mono (x y : Q) : (x <= y -> round64 x <= round64 y)%Q.
Proof.
  intros Hxy. unfold round64. apply Qred_le.
  destruct (Qcompare_spec 0 x) as [Hx | Hx | Hx];
    destruct (Qcompare_spec 0 y) as [Hy | Hy | Hy]; try lra.
  - by apply round_positive_nonneg.
  - by apply round_positive_mono.
  - pose proof (round_positive_nonneg (- x) ltac:(lra)). lra.
  - pose proof (round_positive_nonneg (- x) ltac:(lra)).
    pose proof (round_positive_nonneg y Hy). lra.
  - pose proof (round_positive_mono (- y) (- x) ltac:(lra) ltac:(lra)). lra.
Qed.

(** ** The mock client: search *)

Lemma mock_score_antitone (a b : Z) :
  a <= b -> (Mock.mock_score b <= Mock.mock_score a)%Q.
Proof.
  intros Hab.
  unfold Mock.mock_score, float64_sub, float64_mul, float64_of_int.
  apply round64_mono.
  assert (H1 : (round64 (inject_Z a) <= round64 (inject_Z b))%Q)
    by (by apply round64_mono; rewrite <- Zle_Qle).
  assert (Hc : (0 <= round64 (1 # 10))%Q) by (vm_compute; discriminate).
  assert (H2 : (round64 (round64 (inject_Z a) * round64 (1 # 10))
                <= round64 (round64 (inject_Z b) * round64 (1 # 10)))%Q).
  { apply round64_mono. by apply Qmult_le_compat_r. }
  lra.
Qed.

Lemma search_loop_scored (docs : list Document) :
  forall (limit i : Z) (results : list SearchResult),
    Mock.search_loop limit i docs results
    = results ++ scored i (take (Z.to_nat (limit - i)) docs).
Proof.
  induction docs as [|doc rest IH]; intros limit i results; simpl.
  - rewrite take_nil. simpl. by rewrite app_nil_r.
  - destruct (Z.geb_spec i limit) as [Hge|Hlt].
    + replace (Z.to_nat (limit - i)) with 0%nat by lia.
      simpl. by rewrite app_nil_r.
    + rewrite IH.
      replace (Z.to_nat (limit - i)) with (S (Z.to_nat (limit - (i + 1))))
        by lia.
      simpl. by rewrite <- app_assoc.
Qed.

Lemma scored_length (docs : list Document) :
  forall i : Z, length (scored i docs) = length docs.
Proof. induction docs; intros i; simpl; [done | by rewrite IHdocs]. Qed.

Lemma scored_documents (docs : list Document) :
  forall i : Z, SRDocument <$> scored i docs = docs.
Proof. induction docs; intros i; simpl; [done | by rewrite IHdocs]. Qed.

Lemma scored_lookup (docs : list Document) :
  forall (i : Z) (k : nat) (r : SearchResult),
    scored i docs !! k = Some r -> Score r = Mock.mock_score (i + Z.of_nat k).
Proof.
  induction docs as [|doc rest IH]; intros i k r; simpl; [done |].
  destruct k as [|k]; simpl.
  - intros [= <-]. simpl. by rewrite Z.add_0_r.
  - intros Hk. rewrite (IH _ _ _ Hk). f_equal. lia.
Qed.

Lemma scored_non_increasing (i : Z) (docs : list Document) :
  non_increasing (scored i docs).
Proof.
  intros k1 k2 r1 r2 Hle H1 H2.
  rewrite (scored_lookup _ _ _ _ H1), (scored_lookup _ _ _ _ H2).
  apply mock_score_antitone. lia.
Qed.

Lemma Search_ok (collectionName query : string) (limit : Z) (m : MockClient)
    (results : list SearchResult) :
  Mock.Search collectionName query limit m = Ok results ->
  exists docs,
    documents m !! collectionName = Some docs /\ 0 <= limit /\
    results = scored 0 (take (Z.to_nat limit) docs).
Proof.
  unfold Mock.Search. destruct (documents m !! collectionName) as [docs|];
    [|done].
  unfold makeslice_panics.
  destruct (Z.ltb_spec limit 0); [done |].
  destruct (_ >? _); [done |]. simpl.
  intros [= <-]. exists docs. split; [done |]. split; [done |].
  rewrite search_loop_scored. simpl. by rewrite Z.sub_0_r.
Qed.

Lemma Query_ok (collectionName query : string) (limit : Z) (m : MockClient)
    (response : string) :
  Mock.Query collectionName query limit m = Ok response ->
  exists results,
    Mock.Search collectionName query limit m = Ok results /\
    response = Mock.query_response query results.
Proof.
  unfold Mock.Query.
  destruct (Mock.Search collectionName query limit m) as [results| |];
    [|done..].
  intros [= <-]. by exists results.
Qed.

(** The scores are the binary64 values the code computes: at index 6 the
    score is 0.29999999999999993, not 3/10. *)
Example mock_score_6 :
  Mock.mock_score 6 = (2702159776422297 # 9007199254740992)%Q.
Proof. vm_compute. reflexivity. Qed.

(** A limit whose slice does not fit the heap makes [Search] panic, as a
    negative one does. *)
Example Search_large_limit :
  Mock.Search "c" "q" (10 ^ 15) Examples.three
  = Panic "makeslice: cap out of range" /\
  Mock.Search "c" "q" (-1) Examples.three
  = Panic "makeslice: cap out of range".
Proof. split; vm_compute; reflexivity. Qed.

(** C6. Whenever [Search] of the mock client succeeds on a collection with
    limit [limit], the results it returns are in non-increasing order of
    score and there are at most [limit] of them: they are the first
    documents of the collection, in order. Whenever [Query] succeeds, its
    response lists the results of such a search. *)
Theorem search_results_ordered_and_bounded (collectionName query : string)
    (limit : Z) (m : MockClient) :
  (forall results : list SearchResult,
     Mock.Search collectionName query limit m = Ok results ->
     non_increasing results /\
     Z.of_nat (length results) <= limit /\
     exists docs,
       documents m !! collectionName = Some docs /\
       SRDocument <$> results = take (Z.to_nat limit) docs) /\
  (forall response : string,
     Mock.Query collectionName query limit m = Ok response ->
     exists results,
       response = Mock.query_response query results /\
       non_increasing results /\
       Z.of_nat (length results) <= limit).
Proof.
  assert (Hsearch : forall results,
     Mock.Search collectionName query limit m = Ok results ->
     non_increasing results /\
     Z.of_nat (length results) <= limit /\
     exists docs,
       documents m !! collectionName = Some docs /\
       SRDocument <$> results = take (Z.to_nat limit) docs).
  { intros results Hs.
    destruct (Search_ok _ _ _ _ _ Hs) as (docs & Hd & Hl & ->).
    split; [apply scored_non_increasing |]. split.
    - rewrite scored_length, length_take. lia.
    - exists docs. split; [done |]. apply scored_documents. }
  split; [exact Hsearch |].
  intros response Hq.
  destruct (Query_ok _ _ _ _ _ Hq) as (results & Hs & ->).
  destruct (Hsearch _ Hs) as (H1 & H2 & _).
  by exists results.
Qed.

Lemma search_results_ordered_and_bounded_witness :
  exists results,
    Mock.Search "c" "q" 2 Examples.three = Ok results /\
    non_increasing results /\ Z.of_nat (length results) <= 2.
Proof.
  eexists. split; [reflexivity |].
  destruct (search_results_ordered_and_bounded "c" "q" 2 Examples.three)
    as [Hsearch _].
  destruct (Hsearch _ eq_refl) as (H1 & H2 & _).
  split; [exact H1 | exact H2].
Defined.

(** ** The mock client: pagination *)

Lemma wrap64_in_range (z : Z) : in_int64 z -> wrap64 z = z.
Proof.
  unfold in_int64, minInt64, maxInt64, wrap64. intros Hz.
  rewrite Z.mod_small; lia.
Qed.

(** Within the range of [int], for a limit and an offset that are not
    negative, [ListDocuments] returns the page of at most [limit] documents
    that starts after the first [offset] ones, and the empty page when the
    offset is beyond the end. *)
Lemma ListDocuments_page (collectionName : string) (limit offset : Z)
    (m : MockClient) (docs : list Document) :
  documents m !! collectionName = Some docs ->
  0 <= limit -> 0 <= offset -> offset + limit <= maxInt64 ->
  Mock.ListDocuments collectionName limit offset m
  = Ok (take (Z.to_nat limit) (drop (Z.to_nat offset) docs)).
Proof.
  intros Hd Hl Ho Hsum. unfold Mock.ListDocuments. rewrite Hd.
  rewrite wrap64_in_range
    by (unfold in_int64, minInt64, maxInt64 in *; lia).
  destruct (Z.geb_spec offset (Z.of_nat (length docs))) as [Hge|Hlt].
  - rewrite drop_ge by lia. by rewrite take_nil.
  - unfold Mock.slice.
    destruct (Z.gtb_spec (offset + limit) (Z.of_nat (length docs)))
      as [Hgt|Hle].
    + destruct (Z.ltb_spec offset 0); [lia |].
      destruct (Z.ltb_spec (Z.of_nat (length docs)) offset); [lia |].
      simpl. f_equal.
      rewrite !take_ge; [done | rewrite length_drop; lia..].
    + destruct (Z.ltb_spec offset 0); [lia |].
      destruct (Z.ltb_spec (offset + limit) offset); [lia |].
      simpl. do 2 f_equal. lia.
Qed.

Lemma ListDocuments_negative_offset (collectionName : string)
    (limit offset : Z) (m : MockClient) (docs : list Document) :
  documents m !! collectionName = Some docs -> offset < 0 ->
  Mock.ListDocuments collectionName limit offset m
  = Panic "slice bounds out of range".
Proof.
  intros Hd Ho. unfold Mock.ListDocuments. rewrite Hd.
  destruct (Z.geb_spec offset (Z.of_nat (length docs))); [lia |].
  unfold Mock.slice. by destruct (Z.ltb_spec offset 0); [|lia].
Qed.

Lemma ListDocuments_beyond_end (collectionName : string) (limit offset : Z)
    (m : MockClient) (docs : list Document) :
  documents m !! collectionName = Some docs ->
  Z.of_nat (length docs) <= offset ->
  Mock.ListDocuments collectionName limit offset m = Ok [].
Proof.
  intros Hd Ho. unfold Mock.ListDocuments. rewrite Hd.
  by destruct (Z.geb_spec offset (Z.of_nat (length docs))); [|lia].
Qed.

(** C5, as stated, fails. On a collection of three documents the mock
    client's [ListDocuments] with limit 1 and offset -1 panics in its slice
    expression; with limit -1 and offset 5 it returns the empty page, which
    has more than -1 documents; with the largest [int] as limit and offset 1
    the sum wraps around and the slice expression panics. Through the
    handler, on a database that holds one document, list_documents with
    offset -1 panics as well and over HTTP no response is written. *)
Lemma list_documents_page_counterexample :
  Mock.ListDocuments "c" 1 (-1) Examples.three
  = Panic "slice bounds out of range" /\
  Mock.ListDocuments "c" (-1) 5 Examples.three = Ok [] /\
  Mock.ListDocuments "c" maxInt64 1 Examples.three
  = Panic "slice bounds out of range" /\
  fst (handleListDocuments Examples.clk
         (<["offset" := JNumber (-1 # 1)]> (name_call "db1" ∅)) Examples.s3)
  = Panic "slice bounds out of range" /\
  fst (handleToolCall (fun _ => Some ("list_documents",
                         <["offset" := JNumber (-1 # 1)]> (name_call "db1" ∅)))
         (registerTools CreateVectorDatabase) Examples.clk
         {| Method := "POST"; Body := EmptyString |} Examples.s3)
  = None /\
  ~ (forall (collectionName : string) (limit offset : Z) (m : MockClient)
       (docs : list Document),
       documents m !! collectionName = Some docs ->
       exists page,
         Mock.ListDocuments collectionName limit offset m = Ok page /\
         Z.of_nat (length page) <= limit).
Proof.
  split; [vm_compute; reflexivity |]. split; [vm_compute; reflexivity |].
  split; [vm_compute; reflexivity |]. split; [vm_compute; reflexivity |].
  split; [vm_compute; reflexivity |].
  intros Hall.
  destruct (Hall "c" 1 (-1) Examples.three
              [Examples.doc "a" "x"; Examples.doc "b" "y";
               Examples.doc "c" "z"]) as (page & Hpage & _).
  - vm_compute. reflexivity.
  - vm_compute in Hpage. discriminate Hpage.
Qed.

(** ** The tool handlers and the registry *)

Section Registry.

Context {DB : Type} `{!VectorDatabase DB}.
Variable NewDatabase : string -> string -> Config -> result DB.

Lemma getDatabaseByName_None (dbName : string) (s : Server DB) :
  vectorDBs s !! dbName = None ->
  getDatabaseByName dbName s = Err (ErrNotFound dbName).
Proof. unfold getDatabaseByName. by intros ->. Qed.

Lemma getDatabaseByName_Some (dbName : string) (s : Server DB) (l : loc) :
  vectorDBs s !! dbName = Some l -> getDatabaseByName dbName s = Ok l.
Proof. unfold getDatabaseByName. by intros ->. Qed.

(** *** Frame: what each handler does to [vectorDBs] *)

Lemma list_databases_loop_frame (entries : list (string * loc)) :
  forall dbList (s : Server DB) r s',
    list_databases_loop entries dbList s = (r, s') ->
    vectorDBs s' = vectorDBs s.
Proof.
  induction entries as [|[dbName l] rest IH]; intros dbList s r s' Hrun;
    simpl in Hrun.
  - by injection Hrun as <- <-.
  - destruct (heap s !! l) as [db|]; [|by injection Hrun as <- <-].
    destruct (CountDocuments db) as [rc db'].
    destruct rc; [| |by injection Hrun as <- <-];
      by rewrite (IH _ _ _ _ Hrun).
Qed.

Lemma handleListDatabases_frame clk args (s : Server DB) r s' :
  handleListDatabases clk args s = (r, s') -> vectorDBs s' = vectorDBs s.
Proof.
  unfold handleListDatabases. case_decide; [by intros [= <- <-] |].
  destruct (list_databases_loop _ _ _) as [rl sl] eqn:Hloop.
  apply list_databases_loop_frame in Hloop.
  by destruct rl; intros [= <- <-].
Qed.

Lemma handleSetupDatabase_frame clk args (s : Server DB) r s' :
  handleSetupDatabase clk args s = (r, s') -> vectorDBs s' = vectorDBs s.
Proof. unfold handleSetupDatabase. intros H. by handler_cases. Qed.

Lemma handleWriteDocument_frame clk args (s : Server DB) r s' :
  handleWriteDocument clk args s = (r, s') -> vectorDBs s' = vectorDBs s.
Proof. unfold handleWriteDocument. intros H. by handler_cases. Qed.

Lemma handleQuery_frame clk args (s : Server DB) r s' :
  handleQuery clk args s = (r, s') -> vectorDBs s' = vectorDBs s.
Proof. unfold handleQuery. intros H. by handler_cases. Qed.

Lemma handleListDocuments_frame clk args (s : Server DB) r s' :
  handleListDocuments clk args s = (r, s') -> vectorDBs s' = vectorDBs s.
Proof. unfold handleListDocuments. intros H. by handler_cases. Qed.

Lemma handleCountDocuments_frame clk args (s : Server DB) r s' :
  handleCountDocuments clk args s = (r, s') -> vectorDBs s' = vectorDBs s.
Proof. unfold handleCountDocuments. intros H. by handler_cases. Qed.

Lemma handleDeleteDocument_frame clk args (s : Server DB) r s' :
  handleDeleteDocument clk args s = (r, s') -> vectorDBs s' = vectorDBs s.
Proof. unfold handleDeleteDocument. intros H. by handler_cases. Qed.

Lemma handleCreateVectorDatabase_effect clk args (s : Server DB) r s' :
  handleCreateVectorDatabase NewDatabase clk args s = (r, s') ->
  (is_ok r = false /\ s' = s) \/
  (is_ok r = true /\
   exists n dbType collectionName db,
     as_string (args !! "db_name") = Some n /\
     vectorDBs s !! n = None /\
     NewDatabase dbType collectionName (config s) = Ok db /\
     vectorDBs s' = <[n := fresh (dom (heap s))]> (vectorDBs s) /\
     heap s' = <[fresh (dom (heap s)) := db]> (heap s) /\
     calls s' = calls s).
Proof.
  unfold handleCreateVectorDatabase. intros H.
  handler_cases; try (by left).
  all: right; split; [done |]; by eexists _, _, _, _.
Qed.

Lemma handleCleanup_effect clk args (s : Server DB) r s' :
  handleCleanup clk args s = (r, s') ->
  (is_ok r = false /\ vectorDBs s' = vectorDBs s) \/
  (is_ok r = true /\
   exists n l db db',
     as_string (args !! "db_name") = Some n /\
     vectorDBs s !! n = Some l /\ heap s !! l = Some db /\
     Cleanup db = (Ok tt, db') /\
     vectorDBs s' = delete n (vectorDBs s) /\
     heap s' = <[l := db']> (heap s) /\
     calls s' = calls s ++ [(l, OpCleanup)]).
Proof.
  unfold handleCleanup. intros H.
  handler_cases; try (by left).
  right. split; [done |].
  match goal with u : unit |- _ => destruct u end.
  by eexists _, _, _, _.
Qed.

Lemma registerTools_lookup (name : string) (tool : Tool DB) :
  registerTools NewDatabase !! name = Some tool ->
  (name = "create_vector_database" /\
   Handler tool = handleCreateVectorDatabase NewDatabase) \/
  (name = "cleanup" /\ Handler tool = handleCleanup) \/
  (name <> "create_vector_database" /\ name <> "cleanup" /\
   (Handler tool = handleListDatabases \/
    Handler tool = handleSetupDatabase \/
    Handler tool = handleWriteDocument \/
    Handler tool = handleQuery \/
    Handler tool = handleListDocuments \/
    Handler tool = handleCountDocuments \/
    Handler tool = handleDeleteDocument)).
Proof.
  unfold registerTools, registerTool. simpl.
  repeat (rewrite lookup_insert_Some; intros [[<- <-]|[? H]];
          [simpl; first [by left | by right; left | right; right;
             repeat split; try done; tauto] | revert H]).
  by rewrite lookup_empty.
Qed.

Lemma registerTools_create :
  registerTools NewDatabase !! "create_vector_database"
  = Some {| Name := "create_vector_database";
            Description := "Create a new vector database instance";
            Handler := handleCreateVectorDatabase NewDatabase |}.
Proof.
  unfold registerTools, registerTool. simpl.
  repeat rewrite lookup_insert_ne by done. apply lookup_insert_eq.
Qed.

Lemma registerTools_setup :
  registerTools NewDatabase !! "setup_database"
  = Some {| Name := "setup_database";
            Description :=
              "Set up a vector database and create collections";
            Handler := handleSetupDatabase |}.
Proof.
  unfold registerTools, registerTool. simpl.
  repeat rewrite lookup_insert_ne by done. apply lookup_insert_eq.
Qed.

Lemma registerTools_write :
  registerTools NewDatabase !! "write_document"
  = Some {| Name := "write_document";
            Description := "Write a single document to a vector database";
            Handler := handleWriteDocument |}.
Proof.
  unfold registerTools, registerTool. simpl.
  repeat rewrite lookup_insert_ne by done. apply lookup_insert_eq.
Qed.

(** The three ways a call of a tool relates the registry before and
    after: unchanged; one name added, bound to a new object; one name
    removed. *)
Lemma tool_registry_effect (name : string)
    (tool : Tool DB) (clk : Clock) (args : Args) (s s' : Server DB)
    (r : result any) :
  registerTools NewDatabase !! name = Some tool ->
  Handler tool clk args s = (r, s') ->
  vectorDBs s' = vectorDBs s \/
  (exists n db,
     vectorDBs s' = <[n := fresh (dom (heap s))]> (vectorDBs s) /\
     heap s' = <[fresh (dom (heap s)) := db]> (heap s)) \/
  (exists n, vectorDBs s' = delete n (vectorDBs s)).
Proof.
  intros Htool Hrun.
  destruct (registerTools_lookup _ _ Htool)
    as [[_ Hh]|[[_ Hh]|(_ & _ & Hh)]]; rewrite ?Hh in Hrun.
  - destruct (handleCreateVectorDatabase_effect _ _ _ _ _ Hrun)
      as [[_ ->]|[_ (n & t & c & db & _ & _ & _ & Hv & Hheap & _)]];
      [by left |].
    right. left. by exists n, db.
  - destruct (handleCleanup_effect _ _ _ _ _ Hrun)
      as [[_ Hv]|[_ (n & l & db & db' & _ & _ & _ & _ & Hv & _)]];
      [by left |].
    right. right. by exists n.
  - left.
    destruct Hh as [Hh|[Hh|[Hh|[Hh|[Hh|[Hh|Hh]]]]]]; rewrite Hh in Hrun;
      eauto using handleListDatabases_frame, handleSetupDatabase_frame,
        handleWriteDocument_frame, handleQuery_frame,
        handleListDocuments_frame, handleCountDocuments_frame,
        handleDeleteDocument_frame.
Qed.

End Registry.

(** C1. For a name [n] that is not registered and a backend kind that
    [CreateVectorDatabase] supports ("milvus" or "weaviate"),
    create_vector_database succeeds and changes the registry by exactly one
    entry, [n] bound to a new handle of that kind; a second
    create_vector_database with the same name, of whatever kind, fails with
    the already-exists error and leaves the whole state, hence the entry of
    [n], as it was. *)
Theorem create_vector_database_twice (clk clk' : Clock)
    (n dbType dbType' : string) (rest rest' : Args) (s : Server Database) :
  vectorDBs s !! n = None ->
  dbType = "milvus" \/ dbType = "weaviate" ->
  exists (message : string) (l : loc) (db : Database) (s1 : Server Database),
    handleCreateVectorDatabase CreateVectorDatabase clk
      (create_call n dbType rest) s = (Ok (VString message), s1) /\
    heap s !! l = None /\
    vectorDBs s1 = <[n := l]> (vectorDBs s) /\
    size (vectorDBs s1) = S (size (vectorDBs s)) /\
    heap s1 = <[l := db]> (heap s) /\
    Type_ db = dbType /\
    handleCreateVectorDatabase CreateVectorDatabase clk'
      (create_call n dbType' rest') s1 = (Err (ErrAlreadyExists n), s1) /\
    kind (ErrAlreadyExists n) = AlreadyExists.
Proof.
  intros Hnew Hkind.
  assert (Hfresh : heap s !! fresh (dom (heap s)) = None).
  { apply not_elem_of_dom, is_fresh. }
  pose proof (map_size_insert_None n (fresh (dom (heap s))) (vectorDBs s)
                Hnew) as Hsize.
  unfold handleCreateVectorDatabase. args_lookup. rewrite Hnew.
  destruct Hkind as [-> | ->]; simpl;
    eexists _, _, _, _; (split; [reflexivity |]); simpl;
    rewrite lookup_insert_eq; by repeat split.
Qed.

Lemma create_vector_database_twice_witness :
  exists (message : string) (l : loc) (db : Database) (s1 : Server Database),
    handleCreateVectorDatabase CreateVectorDatabase Examples.clk
      (create_call "db2" "weaviate" ∅) Examples.s3
    = (Ok (VString message), s1) /\
    heap Examples.s3 !! l = None /\
    vectorDBs s1 = <["db2" := l]> (vectorDBs Examples.s3) /\
    size (vectorDBs s1) = S (size (vectorDBs Examples.s3)) /\
    heap s1 = <[l := db]> (heap Examples.s3) /\
    Type_ db = "weaviate" /\
    handleCreateVectorDatabase CreateVectorDatabase Examples.clk
      (create_call "db2" "milvus" ∅) s1 = (Err (ErrAlreadyExists "db2"), s1)
    /\ kind (ErrAlreadyExists "db2") = AlreadyExists.
Proof.
  apply (create_vector_database_twice Examples.clk Examples.clk "db2"
           "weaviate" "milvus" ∅ ∅ Examples.s3).
  - vm_compute. reflexivity.
  - right. reflexivity.
Defined.

(** C3. When the name [n] is not in the registry (never created, or removed
    by cleanup), each tool that resolves an instance by name (setup_database,
    write_document, query, list_documents, count_documents and
    delete_document), called with [n] and its other required arguments,
    fails with the not-found error of [getDatabaseByName] and returns the
    state it was given: no method of any backend was invoked, no object
    changed. *)
Theorem unknown_instance_not_found {DB : Type} `{!VectorDatabase DB}
    (clk : Clock) (n url text query documentID : string) (rest : Args)
    (s : Server DB) :
  vectorDBs s !! n = None ->
  kind (ErrNotFound n) = NotFound /\
  getDatabaseByName n s = Err (ErrNotFound n) /\
  handleSetupDatabase clk (name_call n rest) s = (Err (ErrNotFound n), s) /\
  handleWriteDocument clk (write_call n url text rest) s
  = (Err (ErrNotFound n), s) /\
  handleQuery clk (query_call n query rest) s = (Err (ErrNotFound n), s) /\
  handleListDocuments clk (name_call n rest) s = (Err (ErrNotFound n), s) /\
  handleCountDocuments clk (name_call n rest) s = (Err (ErrNotFound n), s) /\
  handleDeleteDocument clk (delete_call n documentID rest) s
  = (Err (ErrNotFound n), s).
Proof.
  intros Hn. pose proof (getDatabaseByName_None n s Hn) as Hget.
  split; [done |]. split; [done |].
  unfold handleSetupDatabase, handleWriteDocument, handleQuery,
    handleListDocuments, handleCountDocuments, handleDeleteDocument.
  args_lookup. rewrite Hget. by repeat split.
Qed.

Lemma unknown_instance_not_found_witness :
  handleQuery Examples.clk (query_call "ghost" "q" ∅) Examples.s3
  = (Err (ErrNotFound "ghost"), Examples.s3) /\
  handleCountDocuments (DB := Examples.Unreachable) Examples.clk
    (name_call "db7" ∅) Examples.down
  = (Err (ErrNotFound "db7"), Examples.down).
Proof.
  split.
  - apply (unknown_instance_not_found Examples.clk "ghost" "u" "t" "q" "d" ∅
             Examples.s3).
    vm_compute. reflexivity.
  - apply (unknown_instance_not_found Examples.clk "db7" "u" "t" "q" "d" ∅
             Examples.down).
    vm_compute. reflexivity.
Defined.

(** C2. For a registered instance [n], cleanup invokes the backend's
    [Cleanup] once and returns success exactly when that call succeeded. If
    it returns success, [n] is gone from the registry and looking it up
    fails with the not-found error; if it does not, in particular when the
    backend's [Cleanup] returned an error, the handler fails with that error
    wrapped and the registry is as before, [n] still bound to its handle.
    (The handler holds the registry's write lock from its lookup to its
    return, so no other access to the registry falls between the two states
    related here.) *)
Theorem cleanup_atomic {DB : Type} `{!VectorDatabase DB} (clk : Clock)
    (n : string) (rest : Args) (s : Server DB) (l : loc) (db : DB) :
  vectorDBs s !! n = Some l ->
  heap s !! l = Some db ->
  exists (r : result any) (s' : Server DB),
    handleCleanup clk (name_call n rest) s = (r, s') /\
    calls s' = calls s ++ [(l, OpCleanup)] /\
    heap s' = <[l := snd (Cleanup db)]> (heap s) /\
    (is_ok r = true <-> is_ok (fst (Cleanup db)) = true) /\
    (is_ok r = true ->
       vectorDBs s' = delete n (vectorDBs s) /\
       getDatabaseByName n s' = Err (ErrNotFound n)) /\
    (is_ok r = false ->
       vectorDBs s' = vectorDBs s /\ getDatabaseByName n s' = Ok l) /\
    (forall e, fst (Cleanup db) = Err e ->
       r = Err (Wrap "failed to cleanup vector database" e)).
Proof.
  intros Hn Hl. unfold handleCleanup. args_lookup. rewrite Hn, Hl.
  destruct (Cleanup db) as [rc db'] eqn:Hc. simpl.
  destruct rc as [[]|e|msg]; eexists _, _; (split; [reflexivity |]); simpl;
    unfold getDatabaseByName; simpl;
    rewrite ?lookup_delete_eq, ?Hn; repeat split; try done.
  intros e' [= ->]. done.
Qed.

Lemma cleanup_atomic_witness :
  (exists s',
     handleCleanup Examples.clk (name_call "db1" ∅) Examples.s3
     = (Ok (VString (cleaned_message "db1")), s') /\
     vectorDBs s' = delete "db1" (vectorDBs Examples.s3)) /\
  (exists s',
     handleCleanup Examples.clk (name_call "db1" ∅) Examples.down
     = (Err (Wrap "failed to cleanup vector database" Examples.refused), s')
     /\ vectorDBs s' = vectorDBs Examples.down).
Proof.
  split.
  - destruct (heap Examples.s3 !! 0%nat) as [db|] eqn:Hdb;
      [|vm_compute in Hdb; discriminate Hdb].
    destruct (cleanup_atomic Examples.clk "db1" ∅ Examples.s3 0%nat db)
      as (r & s' & Hrun & _ & _ & _ & Hok & _ & _);
      [vm_compute; reflexivity | exact Hdb |].
    assert (Hr : fst (handleCleanup Examples.clk (name_call "db1" ∅)
                        Examples.s3)
                 = Ok (VString (cleaned_message "db1")))
      by (vm_compute; reflexivity).
    rewrite Hrun in Hr. simpl in Hr. subst r.
    exists s'. split; [exact Hrun |]. apply Hok. reflexivity.
  - destruct (cleanup_atomic Examples.clk "db1" ∅ Examples.down 0%nat
                Examples.unreachable)
      as (r & s' & Hrun & _ & _ & _ & _ & Herr & He);
      [vm_compute; reflexivity | vm_compute; reflexivity |].
    pose proof (He Examples.refused eq_refl) as Hr. subst r.
    exists s'. split; [exact Hrun |]. apply Herr. reflexivity.
Defined.

(** C10. Whatever tool of the tool table is called, with whatever
    arguments: if the call does not succeed, the registry [vectorDBs] is
    unchanged; if it succeeds, then either the tool is
    create_vector_database and the registry gained exactly the requested
    name, which was absent, or the tool is cleanup and the registry lost
    exactly the requested name, or it is another tool and the registry is
    unchanged. *)
Theorem registry_changes_only_by_create_and_cleanup {DB : Type}
    `{!VectorDatabase DB}
    (NewDatabase : string -> string -> Config -> result DB)
    (name : string) (tool : Tool DB) (clk : Clock) (args : Args)
    (s s' : Server DB) (r : result any) :
  registerTools NewDatabase !! name = Some tool ->
  Handler tool clk args s = (r, s') ->
  (is_ok r = false -> vectorDBs s' = vectorDBs s) /\
  (is_ok r = true ->
     (name = "create_vector_database" /\
      exists n l,
        as_string (args !! "db_name") = Some n /\
        vectorDBs s !! n = None /\
        vectorDBs s' = <[n := l]> (vectorDBs s)) \/
     (name = "cleanup" /\
      exists n l,
        as_string (args !! "db_name") = Some n /\
        vectorDBs s !! n = Some l /\
        vectorDBs s' = delete n (vectorDBs s)) \/
     (name <> "create_vector_database" /\ name <> "cleanup" /\
      vectorDBs s' = vectorDBs s)).
Proof.
  intros Htool Hrun.
  destruct (registerTools_lookup _ _ _ Htool)
    as [[-> Hh]|[[-> Hh]|(Hn1 & Hn2 & Hh)]]; rewrite ?Hh in Hrun.
  - destruct (handleCreateVectorDatabase_effect _ _ _ _ _ _ Hrun)
      as [[Hr ->]|[Hr (n & t & c & db & Ha & Hn & _ & Hv & _)]].
    + split; [done |]. by rewrite Hr.
    + split; [by rewrite Hr |]. intros _. left. split; [done |].
      by exists n, (fresh (dom (heap s))).
  - destruct (handleCleanup_effect _ _ _ _ _ Hrun)
      as [[Hr Hv]|[Hr (n & l & db & db' & Ha & Hn & _ & _ & Hv & _)]].
    + split; [done |]. by rewrite Hr.
    + split; [by rewrite Hr |]. intros _. right. left. split; [done |].
      by exists n, l.
  - assert (vectorDBs s' = vectorDBs s) as Hframe.
    { destruct Hh as [Hh|[Hh|[Hh|[Hh|[Hh|[Hh|Hh]]]]]]; rewrite Hh in Hrun;
        eauto using handleListDatabases_frame, handleSetupDatabase_frame,
          handleWriteDocument_frame, handleQuery_frame,
          handleListDocuments_frame, handleCountDocuments_frame,
          handleDeleteDocument_frame. }
    split; [done |]. intros _. right. right. done.
Qed.

Lemma registry_changes_only_by_create_and_cleanup_witness :
  vectorDBs Examples.s3 = vectorDBs Examples.s2.
Proof.
  destruct (registry_changes_only_by_create_and_cleanup CreateVectorDatabase
              "write_document"
              {| Name := "write_document";
                 Description :=
                   "Write a single document to a vector database";
                 Handler := handleWriteDocument |}
              Examples.clk (write_call "db1" "u" "hello world" ∅)
              Examples.s2 Examples.s3
              (fst (handleWriteDocument Examples.clk
                      (write_call "db1" "u" "hello world" ∅) Examples.s2)))
    as [_ Hok].
  - apply registerTools_write.
  - unfold Examples.s3, Examples.after. simpl.
    by destruct (handleWriteDocument _ _ _).
  - destruct Hok as [[Hc _]|[[Hc _]|(_ & _ & Hv)]];
      [vm_compute; reflexivity | discriminate Hc | discriminate Hc
      | exact Hv].
Defined.

(** ** write_document: the vector argument *)

Lemma convert_vector_first_bad (vector : list JSON) :
  forall (k i : nat) (v : JSON),
    vector !! i = Some v -> is_number v = false ->
    (forall (j : nat) (w : JSON),
       (j < i)%nat -> vector !! j = Some w -> is_number w = true) ->
    convert_vector k vector = Err (ErrInvalidVector (k + i)).
Proof.
  induction vector as [|x rest IH]; intros k i v Hi Hv Hbefore; [done |].
  destruct i as [|i]; simpl in *.
  - injection Hi as ->. rewrite Nat.add_0_r. by destruct v.
  - assert (is_number x = true) as Hx by (apply (Hbefore 0%nat); [lia | done]).
    destruct x; try done.
    rewrite (IH (S k) i v Hi Hv).
    + do 2 f_equal. lia.
    + intros j w Hj Hw. apply (Hbefore (S j)); [lia | done].
Qed.

Lemma convert_vector_bad (vector : list JSON) :
  forall k : nat,
    (exists v, v ∈ vector /\ is_number v = false) ->
    exists i, convert_vector k vector = Err (ErrInvalidVector i).
Proof.
  induction vector as [|x rest IH]; intros k (v & Hin & Hv).
  - by apply elem_of_nil in Hin.
  - destruct (is_number x) eqn:Hx.
    + apply elem_of_cons in Hin as [-> | Hin]; [congruence |].
      destruct (IH (S k)) as [i Hi]; [by exists v |].
      exists i. destruct x; try done. simpl. by rewrite Hi.
    + exists k. by destruct x.
Qed.

(** C8, as the code has it. A write_document call whose vector holds an
    element that is not a number fails and returns the state it was given:
    no backend method was invoked and no document was written. When the
    call's db_name, url and text are strings and db_name is registered, the
    error is the invalid-argument error that names the index of the first
    such element. (When db_name is not registered the call fails earlier,
    with the not-found error.) *)
Theorem write_document_invalid_vector {DB : Type} `{!VectorDatabase DB}
    (clk : Clock) (args : Args) (s : Server DB) (vector : list JSON) :
  as_slice (args !! "vector") = Some vector ->
  (exists v, v ∈ vector /\ is_number v = false) ->
  (exists e, handleWriteDocument clk args s = (Err e, s)) /\
  (forall (n url text : string) (l : loc) (i : nat) (v : JSON),
     as_string (args !! "db_name") = Some n ->
     as_string (args !! "url") = Some url ->
     as_string (args !! "text") = Some text ->
     vectorDBs s !! n = Some l ->
     vector !! i = Some v -> is_number v = false ->
     (forall (j : nat) (w : JSON),
        (j < i)%nat -> vector !! j = Some w -> is_number w = true) ->
     handleWriteDocument clk args s = (Err (ErrInvalidVector i), s) /\
     kind (ErrInvalidVector i) = InvalidArgument /\
     Error (ErrInvalidVector i) = "invalid vector value at index " +:+ pretty i).
Proof.
  intros Hvec Hbad. split.
  - unfold handleWriteDocument.
    destruct (as_string (args !! "db_name")) as [n|]; [|by eexists].
    destruct (as_string (args !! "url")) as [url|]; [|by eexists].
    destruct (as_string (args !! "text")) as [text|]; [|by eexists].
    destruct (getDatabaseByName n s) as [l|e|msg] eqn:Hget;
      [|by eexists|].
    + rewrite Hvec.
      destruct (convert_vector_bad vector 0 Hbad) as [i ->]. by eexists.
    + unfold getDatabaseByName in Hget. by destruct (vectorDBs s !! n).
  - intros n url text l i v Hn Hurl Htext Hl Hi Hv Hbefore.
    split; [|done].
    unfold handleWriteDocument.
    rewrite Hn, Hurl, Htext, (getDatabaseByName_Some _ _ _ Hl), Hvec.
    by rewrite (convert_vector_first_bad vector 0 i v Hi Hv Hbefore).
Qed.

Lemma write_document_invalid_vector_witness :
  handleWriteDocument Examples.clk
    (<["vector" := JArray [JNumber (1 # 2); JString "x"; JNull]]>
       (write_call "db1" "u" "t" ∅)) Examples.s3
  = (Err (ErrInvalidVector 1), Examples.s3).
Proof.
  destruct (write_document_invalid_vector Examples.clk
              (<["vector" := JArray [JNumber (1 # 2); JString "x"; JNull]]>
                 (write_call "db1" "u" "t" ∅)) Examples.s3
              [JNumber (1 # 2); JString "x"; JNull]) as [_ Hnamed].
  - vm_compute. reflexivity.
  - exists JNull. split; [|reflexivity]. apply list_elem_of_lookup.
    by exists 2%nat.
  - apply (Hnamed "db1" "u" "t" 0%nat 1%nat (JString "x")).
    + vm_compute. reflexivity.
    + vm_compute. reflexivity.
    + vm_compute. reflexivity.
    + vm_compute. reflexivity.
    + reflexivity.
    + reflexivity.
    + intros [|j] w Hj Hw; [by injection Hw as <- | lia].
Defined.

(** C8, as stated, fails: on a name that is not registered, a call with
    valid required arguments and a vector whose only element is a string
    fails with the not-found error, not with an invalid-argument error
    naming an index. *)
Lemma write_document_invalid_vector_counterexample :
  as_slice ((<["vector" := JArray [JString "x"]]>
               (write_call "ghost" "u" "t" ∅) : Args) !! "vector")
  = Some [JString "x"] /\
  handleWriteDocument Examples.clk
    (<["vector" := JArray [JString "x"]]> (write_call "ghost" "u" "t" ∅))
    Examples.s3
  = (Err (ErrNotFound "ghost"), Examples.s3) /\
  kind (ErrNotFound "ghost") <> InvalidArgument /\
  ~ (forall (clk : Clock) (args : Args) (s : Server Database)
       (vector : list JSON),
       as_slice (args !! "vector") = Some vector ->
       (exists v, v ∈ vector /\ is_number v = false) ->
       exists i s',
         handleWriteDocument clk args s = (Err (ErrInvalidVector i), s')).
Proof.
  assert (Hrun : handleWriteDocument Examples.clk
    (<["vector" := JArray [JString "x"]]> (write_call "ghost" "u" "t" ∅))
    Examples.s3 = (Err (ErrNotFound "ghost"), Examples.s3))
    by (vm_compute; reflexivity).
  split; [vm_compute; reflexivity |]. split; [exact Hrun |].
  split; [discriminate |].
  intros Hclaim.
  destruct (Hclaim Examples.clk
              (<["vector" := JArray [JString "x"]]>
                 (write_call "ghost" "u" "t" ∅))
              Examples.s3 [JString "x"]) as (i & s' & Hi).
  - vm_compute. reflexivity.
  - exists (JString "x"). split; [apply list_elem_of_here | reflexivity].
  - rewrite Hrun in Hi. discriminate Hi.
Qed.

(** ** The HTTP dispatch *)

(** C9. A POST request to the tool-call endpoint is answered as follows: if
    the body does not decode, with status 400; if the tool it names is not
    in the tool table, with status 404 and a plain-text body; if the tool's
    handler returns an error, with status 500 and the JSON object that binds
    "error" to the error's message; if the handler returns a value, with
    status 200 and the JSON object that binds "result" to that value. *)
Theorem tool_call_status_codes {DB : Type} `{!VectorDatabase DB}
    (Decode : string -> option (string * Args))
    (tools : gmap string (Tool DB)) (clk : Clock) (r : Request)
    (s : Server DB) :
  Method r = "POST" ->
  (Decode (Body r) = None ->
     handleToolCall Decode tools clk r s
     = (Some {| StatusCode := 400;
                ContentType := "text/plain; charset=utf-8";
                Content := PlainText ("Invalid JSON" +:+ "
") |}, s)) /\
  (forall (name : string) (arguments : Args),
     Decode (Body r) = Some (name, arguments) ->
     (tools !! name = None ->
        handleToolCall Decode tools clk r s
        = (Some {| StatusCode := 404;
                   ContentType := "text/plain; charset=utf-8";
                   Content :=
                     PlainText (("Tool '" +:+ name +:+ "' not found") +:+ "
") |}, s)) /\
     (forall tool : Tool DB,
        tools !! name = Some tool ->
        (forall (err : error) (s' : Server DB),
           Handler tool clk arguments s = (Err err, s') ->
           handleToolCall Decode tools clk r s
           = (Some {| StatusCode := 500;
                      ContentType := "application/json";
                      Content := Encoded {[ "error" := VString (Error err) ]}
                   |}, s')) /\
        (forall (result : any) (s' : Server DB),
           Handler tool clk arguments s = (Ok result, s') ->
           handleToolCall Decode tools clk r s
           = (Some {| StatusCode := 200;
                      ContentType := "application/json";
                      Content := Encoded {[ "result" := result ]} |}, s')))).
Proof.
  intros Hpost. unfold handleToolCall. rewrite Hpost. simpl.
  split; [by intros -> |].
  intros name arguments ->. split; [by intros -> |].
  intros tool ->. split; by intros ? s' ->.
Qed.

Lemma tool_call_status_codes_witness :
  fst (handleToolCall Examples.decode_one
         (registerTools CreateVectorDatabase) Examples.clk
         {| Method := "POST"; Body := "{" |} Examples.s3)
  = Some {| StatusCode := 400;
            ContentType := "text/plain; charset=utf-8";
            Content := PlainText ("Invalid JSON" +:+ "
") |}.
Proof.
  destruct (tool_call_status_codes Examples.decode_one
              (registerTools CreateVectorDatabase) Examples.clk
              {| Method := "POST"; Body := "{" |} Examples.s3 eq_refl)
    as [Hbad _].
  by rewrite Hbad.
Defined.

(** ** list_databases *)

Section ListDatabases.

Context {DB : Type} `{!VectorDatabase DB}.

(** The backend's [CountDocuments] leaves the object as it is and does
    not panic. *)
Hypothesis count_pure : forall db : DB, snd (CountDocuments db) = db.
Hypothesis count_no_panic :
  forall (db : DB) (msg : string), fst (CountDocuments db) <> Panic msg.

Lemma list_databases_loop_entries (entries : list (string * loc)) :
  forall (dbList : list (gmap string any)) (s : Server DB),
    Forall (fun e => is_Some (heap s !! e.2)) entries ->
    exists out s',
      list_databases_loop entries dbList s = (Ok (dbList ++ out), s') /\
      heap s' = heap s /\ vectorDBs s' = vectorDBs s /\
      Forall2 (fun e o =>
                 exists db, heap s !! e.2 = Some db /\
                   o = database_entry e.1 db
                         (count_or_sentinel (fst (CountDocuments db))))
              entries out.
Proof.
  induction entries as [|[dbName l] rest IH]; intros dbList s Hall; simpl.
  - exists [], s. rewrite app_nil_r. by repeat split.
  - apply Forall_cons in Hall as [[db Hdb] Hrest]. simpl in Hdb.
    rewrite Hdb. pose proof (count_pure db) as Hpure.
    pose proof (count_no_panic db) as Hnp.
    destruct (CountDocuments db) as [rc db'] eqn:Hc. simpl in Hpure, Hnp.
    subst db'.
    assert (Hheap : heap (commit l OpCountDocuments db s) = heap s)
      by (simpl; by apply insert_id).
    assert (Hrest' : Forall
              (fun e => is_Some (heap (commit l OpCountDocuments db s)
                                   !! e.2)) rest)
      by (by rewrite Hheap).
    destruct rc as [count|e|msg]; [| |by destruct (Hnp msg)].
    + destruct (IH (dbList ++ [database_entry dbName db count]) _ Hrest')
        as (out & s' & Hrun & Hh & Hv & Hout).
      exists (database_entry dbName db count :: out), s'.
      rewrite Hrun, <- app_assoc. rewrite Hheap in Hh. simpl in Hv.
      repeat split; try done.
      constructor; [exists db; by rewrite Hc |].
      eapply Forall2_impl; [exact Hout |].
      intros e o (db0 & H0 & ->). exists db0. by rewrite <- Hheap.
    + destruct (IH (dbList ++ [database_entry dbName db (-1)]) _ Hrest')
        as (out & s' & Hrun & Hh & Hv & Hout).
      exists (database_entry dbName db (-1) :: out), s'.
      rewrite Hrun, <- app_assoc. rewrite Hheap in Hh. simpl in Hv.
      repeat split; try done.
      constructor; [exists db; by rewrite Hc |].
      eapply Forall2_impl; [exact Hout |].
      intros e' o (db0 & H0 & ->). exists db0. by rewrite <- Hheap.
Qed.

End ListDatabases.

Lemma Mock_CountDocuments_no_panic (collectionName msg : string)
    (m : MockClient) :
  Mock.CountDocuments collectionName m <> Panic msg.
Proof.
  unfold Mock.CountDocuments. by destruct (documents m !! collectionName).
Qed.

Lemma Database_count_pure (db : Database) : snd (CountDocuments db) = db.
Proof.
  destruct db as [m|w]; simpl;
    unfold Milvus.CountDocuments, Weaviate.CountDocuments;
    by destruct (Mock.CountDocuments _ _).
Qed.

Lemma Database_count_no_panic (db : Database) (msg : string) :
  fst (CountDocuments db) <> Panic msg.
Proof.
  destruct db as [m|w]; simpl;
    unfold Milvus.CountDocuments, Weaviate.CountDocuments;
    (destruct (Mock.CountDocuments _ _) eqn:Hc; simpl; try done);
    intros [= ->]; by apply Mock_CountDocuments_no_panic in Hc.
Qed.

(** C7. In every state in which the registered handles point to objects,
    list_databases succeeds. When instances are registered, it returns one
    entry per registered instance, in the order the registry is visited,
    holding the instance's name, type and collection, and as document_count
    the backend's count, or -1 when the backend's count returned an
    error. *)
Theorem list_databases_tolerates_count_failures (clk : Clock) (args : Args)
    (s : Server Database) :
  wf s ->
  exists (v : any) (s' : Server Database),
    handleListDatabases clk args s = (Ok v, s') /\
    vectorDBs s' = vectorDBs s /\ heap s' = heap s /\
    (vectorDBs s = ∅ ->
       v = VString "No vector databases are currently active") /\
    (vectorDBs s <> ∅ ->
       exists dbList : list (gmap string any),
         v = VMap {[ "databases" := VMaps dbList ]} /\
         Forall2
           (fun (registered : string * loc) (entry : gmap string any) =>
              exists db : Database,
                heap s !! registered.2 = Some db /\
                entry !! "name" = Some (VString registered.1) /\
                entry !! "type" = Some (VString (Type_ db)) /\
                entry !! "collection" = Some (VString (CollectionName db)) /\
                entry !! "document_count"
                = Some (VInt (count_or_sentinel (fst (CountDocuments db)))))
           (map_to_list (vectorDBs s)) dbList).
Proof.
  intros Hwf. unfold handleListDatabases.
  case_decide as Hsize.
  - apply map_size_empty_iff in Hsize.
    exists (VString "No vector databases are currently active"), s.
    by repeat split.
  - assert (Hne : vectorDBs s <> ∅) by (by rewrite <- map_size_empty_iff).
    destruct (list_databases_loop_entries Database_count_pure
                Database_count_no_panic (map_to_list (vectorDBs s)) [] s)
      as (out & s' & Hrun & Hh & Hv & Hout).
    { apply Forall_forall. intros [n l] Hin.
      apply elem_of_map_to_list in Hin. by apply (Hwf n l). }
    rewrite Hrun. simpl.
    exists (VMap {[ "databases" := VMaps out ]}), s'.
    repeat split; try done.
    intros _. exists out. split; [done |].
    eapply Forall2_impl; [exact Hout |].
    intros [n l] entry (db & Hdb & ->). exists db.
    by repeat split.
Qed.

(** ** The invariant of the registry *)

Section Reachable.

Context {DB : Type} `{!VectorDatabase DB}.
Variable NewDatabase : string -> string -> Config -> result DB.

Lemma heap_grows_refl (s : Server DB) : heap_grows s s.
Proof. by intros l. Qed.

Lemma heap_grows_commit (l : loc) (op : Op) (db' : DB) (s : Server DB) :
  heap_grows s (commit l op db' s).
Proof.
  intros l0 Hl0. simpl. apply lookup_insert_is_Some.
  destruct (decide (l = l0)); [by left | by right].
Qed.

Lemma heap_grows_trans (s1 s2 s3 : Server DB) :
  heap_grows s1 s2 -> heap_grows s2 s3 -> heap_grows s1 s3.
Proof. intros H12 H23 l Hl. by apply H23, H12. Qed.

Ltac heap_grows_tac :=
  first
    [ apply heap_grows_refl
    | apply heap_grows_commit
    | intros ? ?; simpl; apply lookup_insert_is_Some;
      match goal with
      | |- ?a = ?b \/ _ => destruct (decide (a = b)); [by left | by right]
      end ].

Lemma list_databases_loop_heap (entries : list (string * loc)) :
  forall dbList (s : Server DB) r s',
    list_databases_loop entries dbList s = (r, s') -> heap_grows s s'.
Proof.
  induction entries as [|[dbName l] rest IH]; intros dbList s r s' Hrun;
    simpl in Hrun.
  - injection Hrun as <- <-. apply heap_grows_refl.
  - destruct (heap s !! l) as [db|];
      [|injection Hrun as <- <-; apply heap_grows_refl].
    destruct (CountDocuments db) as [rc db'].
    destruct rc; [| |injection Hrun as <- <-; apply heap_grows_commit];
      (eapply heap_grows_trans; [|exact (IH _ _ _ _ Hrun)]);
      apply heap_grows_commit.
Qed.

Lemma tool_heap_grows (name : string) (tool : Tool DB) (clk : Clock)
    (args : Args) (s s' : Server DB) (r : result any) :
  registerTools NewDatabase !! name = Some tool ->
  Handler tool clk args s = (r, s') ->
  heap_grows s s'.
Proof.
  intros Htool Hrun.
  destruct (registerTools_lookup _ _ _ Htool)
    as [[_ Hh]|[[_ Hh]|(_ & _ & Hh)]].
  - rewrite Hh in Hrun.
    destruct (handleCreateVectorDatabase_effect _ _ _ _ _ _ Hrun)
      as [[_ ->]|[_ (n & t & c & db & _ & _ & _ & _ & Hheap & _)]];
      [apply heap_grows_refl |].
    intros l Hl. rewrite Hheap. apply lookup_insert_is_Some.
    destruct (decide (fresh (dom (heap s)) = l)); [by left | by right].
  - rewrite Hh in Hrun. unfold handleCleanup in Hrun.
    handler_cases; heap_grows_tac.
  - destruct Hh as [Hh|[Hh|[Hh|[Hh|[Hh|[Hh|Hh]]]]]]; rewrite Hh in Hrun.
    + unfold handleListDatabases in Hrun.
      case_decide; [injection Hrun as <- <-; apply heap_grows_refl |].
      destruct (list_databases_loop _ _ _) as [rl sl] eqn:Hloop.
      apply list_databases_loop_heap in Hloop.
      by destruct rl; injection Hrun as <- <-.
    + unfold handleSetupDatabase in Hrun. handler_cases; heap_grows_tac.
    + unfold handleWriteDocument in Hrun. handler_cases; heap_grows_tac.
    + unfold handleQuery in Hrun. handler_cases; heap_grows_tac.
    + unfold handleListDocuments in Hrun. handler_cases; heap_grows_tac.
    + unfold handleCountDocuments in Hrun. handler_cases; heap_grows_tac.
    + unfold handleDeleteDocument in Hrun. handler_cases; heap_grows_tac.
Qed.

(** Every call of a tool preserves [wf]. *)
Lemma tool_preserves_wf (name : string) (tool : Tool DB) (clk : Clock)
    (args : Args) (s s' : Server DB) (r : result any) :
  registerTools NewDatabase !! name = Some tool ->
  Handler tool clk args s = (r, s') ->
  wf s -> wf s'.
Proof.
  intros Htool Hrun Hwf.
  pose proof (tool_heap_grows _ _ _ _ _ _ _ Htool Hrun) as Hgrows.
  destruct (tool_registry_effect
              _ _ _ _ _ _ _ _ Htool Hrun) as [Hsame|[Hins|Hdel]].
  - intros n l Hn. rewrite Hsame in Hn. by apply Hgrows, (Hwf n l).
  - destruct Hins as (n & db & Hv & Hh). intros n' l' Hn'.
    rewrite Hv in Hn'. rewrite Hh.
    apply lookup_insert_Some in Hn' as [[_ <-]|[_ Hn']].
    + by rewrite lookup_insert_eq.
    + apply lookup_insert_is_Some.
      destruct (decide (fresh (dom (heap s)) = l')); [by left |].
      right. split; [done |]. by apply (Hwf n' l').
  - destruct Hdel as (n & Hv). intros n' l' Hn'. rewrite Hv in Hn'.
    apply lookup_delete_Some in Hn' as [_ Hn'].
    by apply Hgrows, (Hwf n' l').
Qed.

Lemma wf_NewServer (cfg : Config) : wf (NewServer (DB := DB) cfg).
Proof. intros n l Hn. simpl in Hn. by rewrite lookup_empty in Hn. Qed.

(** In every state the server reaches, the registered handles point to
    objects. *)
Lemma reachable_wf (cfg : Config) (s : Server DB) :
  reachable NewDatabase cfg s -> wf s.
Proof.
  induction 1 as [|name tool clk args s r s' _ IH Htool Hrun].
  - apply wf_NewServer.
  - by eapply tool_preserves_wf.
Qed.

Lemma reachable_after (cfg : Config) (name : string) (tool : Tool DB)
    (clk : Clock) (args : Args) (s : Server DB) :
  reachable NewDatabase cfg s ->
  registerTools NewDatabase !! name = Some tool ->
  reachable NewDatabase cfg (snd (Handler tool clk args s)).
Proof.
  intros Hs Htool. eapply reachable_call; [exact Hs | exact Htool |].
  apply surjective_pairing.
Qed.

End Reachable.

Lemma reachable_s4 : reachable CreateVectorDatabase Examples.cfg Examples.s4.
Proof.
  pose proof (reachable_new CreateVectorDatabase Examples.cfg) as H0.
  pose proof (reachable_after CreateVectorDatabase Examples.cfg
                "create_vector_database" _ Examples.clk
                (create_call "db1" "milvus" ∅) _ H0
                (registerTools_create _)) as H1.
  pose proof (reachable_after CreateVectorDatabase Examples.cfg
                "setup_database" _ Examples.clk (name_call "db1" ∅) _ H1
                (registerTools_setup _)) as H2.
  pose proof (reachable_after CreateVectorDatabase Examples.cfg
                "write_document" _ Examples.clk
                (write_call "db1" "u" "hello world" ∅) _ H2
                (registerTools_write _)) as H3.
  exact (reachable_after CreateVectorDatabase Examples.cfg
           "create_vector_database" _ Examples.clk
           (create_call "db2" "weaviate" ∅) _ H3 (registerTools_create _)).
Qed.

Lemma wf_s4 : wf Examples.s4.
Proof. exact (reachable_wf _ _ _ reachable_s4). Qed.

Lemma list_databases_tolerates_count_failures_witness :
  exists (v : any) (s' : Server Database),
    handleListDatabases Examples.clk ∅ Examples.s4 = (Ok v, s') /\
    vectorDBs s' = vectorDBs Examples.s4.
Proof.
  destruct (list_databases_tolerates_count_failures Examples.clk ∅
              Examples.s4 wf_s4) as (v & s' & Hrun & Hv & _).
  exists v, s'. split; [exact Hrun | exact Hv].
Defined.

(** On [Examples.s4] the listing has two entries: "db1", whose collection
    was set up and holds one document, and "db2", which was never set up,
    so that its count fails and is reported as -1. *)
Example list_databases_sentinel :
  exists m1 w2,
    heap Examples.s4 !! 0%nat = Some (OfMilvus m1) /\
    heap Examples.s4 !! 1%nat = Some (OfWeaviate w2) /\
    is_err (fst (CountDocuments (OfWeaviate w2))) = true /\
    fst (handleListDatabases Examples.clk ∅ Examples.s4)
    = Ok (VMap {[ "databases" :=
            VMaps [ database_entry "db1" (OfMilvus m1) 1;
                    database_entry "db2" (OfWeaviate w2) (-1) ] ]}).
Proof.
  eexists _, _. split; [vm_compute; reflexivity |].
  split; [vm_compute; reflexivity |].
  split; vm_compute; reflexivity.
Qed.

(** ** setup_database *)

Lemma CreateCollection_empties (name : string) (schema : gmap string JSON)
    (m : MockClient) :
  exists m',
    Mock.CreateCollection name schema m = (Ok tt, m') /\
    documents m' !! name = Some [].
Proof.
  eexists. split; [reflexivity |]. simpl. apply lookup_insert_eq.
Qed.

(** [Setup] of the Milvus database always succeeds and leaves the
    collection empty, whatever it held. *)
Lemma Milvus_Setup_empties (embedding : string) (m : Milvus.MilvusDatabase) :
  exists m',
    Milvus.Setup embedding m = (Ok tt, m') /\
    Milvus.collectionName m' = Milvus.collectionName m /\
    documents (Milvus.client m') !! Milvus.collectionName m = Some [].
Proof.
  eexists. split; [reflexivity |]. simpl. split; [done |].
  apply lookup_insert_eq.
Qed.

Lemma Weaviate_Setup_empties (embedding : string)
    (w : Weaviate.WeaviateDatabase) :
  exists w',
    Weaviate.Setup embedding w = (Ok tt, w') /\
    Weaviate.collectionName w' = Weaviate.collectionName w /\
    documents (Weaviate.client w') !! Weaviate.collectionName w = Some [].
Proof.
  eexists. split; [reflexivity |]. simpl. split; [done |].
  apply lookup_insert_eq.
Qed.

(** The Setup written against the external Weaviate client does nothing
    when the class is reported to exist: it succeeds, does not call the
    creator and leaves the remote state as it is. *)
Lemma SetupRemote_existing (R : Type)
    (ClassExistenceChecker : string -> R -> result bool)
    (ClassCreator : string -> string -> R -> result unit * R)
    (collectionName embedding : string) (r : R) :
  ClassExistenceChecker collectionName r = Ok true ->
  Weaviate.SetupRemote R ClassExistenceChecker ClassCreator collectionName
    embedding r = (Ok tt, r).
Proof. unfold Weaviate.SetupRemote. by intros ->. Qed.

(** C4. On [Examples.s3], where "db1" is set up and holds one document,
    count_documents returns 1; a second setup_database on "db1" succeeds;
    after it count_documents returns 0 and list_documents returns no
    document: the document written before the second setup is gone. *)
Theorem setup_database_twice_loses_documents :
  fst (handleCountDocuments Examples.clk (name_call "db1" ∅) Examples.s3)
  = Ok (VMap {[ "count" := VInt 1 ]}) /\
  fst (handleSetupDatabase Examples.clk (name_call "db1" ∅) Examples.s3)
  = Ok (VString (setup_message "milvus" "db1" "default")) /\
  fst (handleCountDocuments Examples.clk (name_call "db1" ∅)
         (Examples.after handleSetupDatabase (name_call "db1" ∅) Examples.s3))
  = Ok (VMap {[ "count" := VInt 0 ]}) /\
  fst (handleListDocuments Examples.clk (name_call "db1" ∅)
         (Examples.after handleSetupDatabase (name_call "db1" ∅) Examples.s3))
  = Ok (VMap {[ "documents" := VDocuments []; "count" := VInt 0 ]}).
Proof. repeat split; vm_compute; reflexivity. Qed.

(** ** list_documents through the handler *)

Lemma Database_ListDocuments (limit offset : Z) (db : Database) :
  ListDocuments limit offset db
  = (match Mock.ListDocuments (CollectionName db) limit offset (client_of db)
     with
     | Ok docs => Ok docs
     | Err e =>
         Err (Wrap (match db with
                    | OfMilvus _ => "failed to list documents from Milvus"
                    | OfWeaviate _ => "failed to list documents from Weaviate"
                    end) e)
     | Panic msg => Panic msg
     end, db).
Proof.
  destruct db as [m|w]; simpl;
    unfold Milvus.ListDocuments, Weaviate.ListDocuments;
    by destruct (Mock.ListDocuments _ _ _ _).
Qed.

(** C5, as the code has it. For a registered instance whose collection
    holds [docs], a list_documents call whose limit and offset are not
    negative and whose sum fits an [int] succeeds and returns the page of at
    most [limit] documents that follows the first [offset] documents of the
    collection, in the collection's order; the page is empty when the offset
    is not below the number of documents. The registry and the objects are
    unchanged. *)
Theorem list_documents_page (clk : Clock) (args : Args)
    (s : Server Database) (n : string) (l : loc) (db : Database)
    (docs : list Document) (limit offset : Z) :
  as_string (args !! "db_name") = Some n ->
  vectorDBs s !! n = Some l ->
  heap s !! l = Some db ->
  documents (client_of db) !! CollectionName db = Some docs ->
  limit = match as_float64 (args !! "limit") with
          | Some f => int_of_float64 f
          | None => 10
          end ->
  offset = match as_float64 (args !! "offset") with
           | Some f => int_of_float64 f
           | None => 0
           end ->
  0 <= limit -> 0 <= offset -> offset + limit <= maxInt64 ->
  exists (page : list Document) (s' : Server Database),
    page = take (Z.to_nat limit) (drop (Z.to_nat offset) docs) /\
    handleListDocuments clk args s
    = (Ok (VMap {[ "documents" := VDocuments page;
                   "count" := VInt (Z.of_nat (length page)) ]}), s') /\
    vectorDBs s' = vectorDBs s /\ heap s' = heap s /\
    Z.of_nat (length page) <= limit /\
    (Z.of_nat (length docs) <= offset -> page = []).
Proof.
  intros Hn Hl Hdb Hdocs -> -> Hlim Hoff Hsum.
  eexists _, _. split; [reflexivity |]. split; [|split; [|split; [|split]]].
  - unfold handleListDocuments.
    rewrite Hn, (getDatabaseByName_Some _ _ _ Hl), Hdb.
    rewrite Database_ListDocuments.
    by rewrite (ListDocuments_page _ _ _ _ docs Hdocs Hlim Hoff Hsum).
  - done.
  - simpl. by apply insert_id.
  - rewrite length_take. lia.
  - intros Hbeyond. rewrite drop_ge by lia. apply take_nil.
Qed.

Lemma list_documents_page_witness :
  exists s',
    handleListDocuments Examples.clk
      (<["limit" := JNumber (1 # 1)]> (name_call "db1" ∅)) Examples.s3
    = (Ok (VMap {[ "documents" :=
                     VDocuments [ {| ID := "doc_1700000000000000000_0";
                                     URL := "u"; Text := "hello world";
                                     Metadata := ∅; Vector := [] |} ];
                   "count" := VInt 1 ]}), s').
Proof.
  destruct (heap Examples.s3 !! 0%nat) as [db|] eqn:Hdb;
    [|vm_compute in Hdb; discriminate Hdb].
  destruct (list_documents_page Examples.clk
              (<["limit" := JNumber (1 # 1)]> (name_call "db1" ∅))
              Examples.s3 "db1" 0%nat db
              [ {| ID := "doc_1700000000000000000_0"; URL := "u";
                   Text := "hello world"; Metadata := ∅; Vector := [] |} ]
              1 0) as (page & s' & -> & Hrun & _).
  - vm_compute. reflexivity.
  - vm_compute. reflexivity.
  - exact Hdb.
  - vm_compute in Hdb. injection Hdb as <-. vm_compute. reflexivity.
  - vm_compute. reflexivity.
  - vm_compute. reflexivity.
  - lia.
  - lia.
  - unfold maxInt64. lia.
  - exists s'. exact Hrun.
Defined.

(** ** query through the handler *)

Lemma Query_ranked (collectionName query : string) (limit : Z)
    (m : MockClient) (response : string) :
  Mock.Query collectionName query limit m = Ok response ->
  exists results,
    response = Mock.query_response query results /\
    non_increasing results /\ Z.of_nat (length results) <= limit.
Proof.
  intros Hq. destruct (Query_ok _ _ _ _ _ Hq) as (results & Hs & ->).
  destruct (Search_ok _ _ _ _ _ Hs) as (docs & _ & Hl & ->).
  eexists. split; [reflexivity |].
  split; [apply scored_non_increasing |].
  rewrite scored_length, length_take. lia.
Qed.

(** A query call that succeeds returns the rendering of results that are
    in non-increasing order of score and no more than the limit of the
    call (5 when the call gives none). *)
Lemma handleQuery_ranked (clk : Clock) (args : Args) (s s' : Server Database)
    (v : any) :
  handleQuery clk args s = (Ok v, s') ->
  exists (query : string) (results : list SearchResult),
    as_string (args !! "query") = Some query /\
    v = VString (Mock.query_response query results) /\
    non_increasing results /\
    Z.of_nat (length results)
    <= match as_float64 (args !! "limit") with
       | Some f => int_of_float64 f
       | None => 5
       end.
Proof.
  unfold handleQuery. intros Hrun.
  destruct (as_string (args !! "db_name")) as [dbName|]; [|done].
  destruct (as_string (args !! "query")) as [query|]; [|done].
  destruct (getDatabaseByName dbName s) as [l| |]; [|done..].
  destruct (heap s !! l) as [db|]; [|done].
  destruct (Query query _ _ db) as [r db'] eqn:Hq.
  destruct r as [result| |]; [|done..]. injection Hrun as <- <-.
  exists query.
  destruct db as [m|w]; simpl in Hq;
    unfold Milvus.Query, Weaviate.Query in Hq;
    (destruct (Mock.Query _ _ _ _) as [response| |] eqn:Hmock;
       [|done..]);
    injection Hq as <- <-;
    destruct (Query_ranked _ _ _ _ _ Hmock) as (results & -> & Hni & Hlen);
    by exists results.
Qed.

(** ** create_vector_database with a kind that is not supported *)

(** A backend kind other than "milvus" and "weaviate" is refused by
    [CreateVectorDatabase]; the handler wraps the error and returns the
    state it was given. *)
Lemma create_unsupported_kind (clk : Clock) (n dbType : string)
    (rest : Args) (s : Server Database) :
  vectorDBs s !! n = None ->
  dbType <> "milvus" -> dbType <> "weaviate" ->
  handleCreateVectorDatabase CreateVectorDatabase clk
    (create_call n dbType rest) s
  = (Err (Wrap "failed to create vector database" (ErrUnsupported dbType)),
     s) /\
  kind (Wrap "failed to create vector database" (ErrUnsupported dbType))
  = UnsupportedBackend.
Proof.
  intros Hn Hm Hw. split; [|done].
  unfold handleCreateVectorDatabase. args_lookup. rewrite Hn.
  unfold CreateVectorDatabase.
  apply String.eqb_neq in Hm, Hw. by rewrite Hm, Hw.
Qed.

(** * Further properties *)

(** ** The mock client: insertion *)

Lemma fresh_id_nonempty (clk : Clock) (i : Z) :
  Mock.fresh_id clk i <> EmptyString.
Proof. unfold Mock.fresh_id. simpl. discriminate. Qed.

Lemma assign_ids_spec (clk : Clock) (docs : list Document) :
  forall i : Z,
    Forall2
      (fun d a =>
         URL a = URL d /\ Text a = Text d /\ Metadata a = Metadata d /\
         Vector a = Vector d /\ (ID d <> EmptyString -> a = d) /\
         ID a <> EmptyString)
      docs (Mock.assign_ids clk i docs).
Proof.
  induction docs as [|d rest IH]; intros i; simpl; constructor; [|apply IH].
  destruct (String.eqb_spec (ID d) EmptyString) as [Heq|Hne]; simpl.
  - repeat split; try done; apply fresh_id_nonempty.
  - by repeat split.
Qed.

(** X1. [Insert] into a collection that exists succeeds and appends one
    stored document per given document, in order, after the documents the
    collection holds: each stored document has the URL, text, metadata and
    vector of the given one, is the given one when that has an ID, and has
    an ID in every case. The count of the collection grows by the number of
    documents given; the other collections and the schemas are unchanged. *)
Theorem Insert_appends (clk : Clock) (collectionName : string)
    (docs old : list Document) (m : MockClient) :
  documents m !! collectionName = Some old ->
  exists (added : list Document) (m' : MockClient),
    Mock.Insert clk collectionName docs m = (Ok tt, m') /\
    documents m' !! collectionName = Some (old ++ added) /\
    Forall2
      (fun d a =>
         URL a = URL d /\ Text a = Text d /\ Metadata a = Metadata d /\
         Vector a = Vector d /\ (ID d <> EmptyString -> a = d) /\
         ID a <> EmptyString)
      docs added /\
    Mock.CountDocuments collectionName m'
    = Ok (Z.of_nat (length old) + Z.of_nat (length docs)) /\
    (forall c : string,
       c <> collectionName -> documents m' !! c = documents m !! c) /\
    collections m' = collections m.
Proof.
  intros Hold. exists (Mock.assign_ids clk 0 docs). eexists.
  unfold Mock.Insert. rewrite Hold. split; [reflexivity |]. simpl.
  pose proof (assign_ids_spec clk docs 0) as Hids.
  split; [apply lookup_insert_eq |]. split; [exact Hids |].
  split; [|split; [|done]].
  - unfold Mock.CountDocuments. simpl. rewrite lookup_insert_eq.
    rewrite length_app, <- (Forall2_length _ _ _ Hids). f_equal. lia.
  - intros c Hc. by rewrite lookup_insert_ne.
Qed.

Lemma Insert_appends_witness :
  exists m',
    Mock.Insert Examples.clk "c" [Examples.doc EmptyString "w"]
      Examples.three = (Ok tt, m') /\
    Mock.CountDocuments "c" m' = Ok 4.
Proof.
  destruct (Insert_appends Examples.clk "c" [Examples.doc EmptyString "w"]
              [Examples.doc "a" "x"; Examples.doc "b" "y";
               Examples.doc "c" "z"] Examples.three)
    as (added & m' & Hrun & _ & _ & Hcount & _).
  - vm_compute. reflexivity.
  - exists m'. split; [exact Hrun | exact Hcount].
Defined.

(** ** The mock client: deletion *)

Lemma remove_first_none (documentID : string) (docs : list Document) :
  Forall (fun x => ID x <> documentID) docs ->
  Mock.remove_first documentID docs = None.
Proof.
  induction 1 as [|d rest Hd _ IH]; simpl; [done |].
  destruct (String.eqb_spec (ID d) documentID); [done |]. by rewrite IH.
Qed.

Lemma remove_first_some (documentID : string) (pre post : list Document)
    (d : Document) :
  ID d = documentID ->
  Forall (fun x => ID x <> documentID) pre ->
  Mock.remove_first documentID (pre ++ d :: post) = Some (pre ++ post).
Proof.
  intros Hd. induction 1 as [|x rest Hx _ IH]; simpl.
  - by destruct (String.eqb_spec (ID d) documentID).
  - destruct (String.eqb_spec (ID x) documentID); [done |]. by rewrite IH.
Qed.

Lemma remove_first_length (documentID : string) (docs docs' : list Document) :
  Mock.remove_first documentID docs = Some docs' ->
  length docs = S (length docs').
Proof.
  revert docs'. induction docs as [|d rest IH]; intros docs'; simpl; [done |].
  destruct (String.eqb (ID d) documentID); [by intros [= <-] |].
  destruct (Mock.remove_first documentID rest) as [rest'|]; [|done].
  intros [= <-]. simpl. by rewrite (IH rest').
Qed.

(** X2. [DeleteDocument] on a collection that exists removes the first
    document whose ID is the given one and nothing else: the documents
    before and after it stay, in order, also those after it that carry the
    same ID, and the count drops by one. When no document of the collection
    has that ID it fails with the document-not-found error and changes
    nothing. *)
Theorem DeleteDocument_removes_first (collectionName documentID : string)
    (docs : list Document) (m : MockClient) :
  documents m !! collectionName = Some docs ->
  (Forall (fun x => ID x <> documentID) docs ->
   Mock.DeleteDocument collectionName documentID m
   = (Err (ErrNoDocument documentID), m)) /\
  (forall (pre post : list Document) (d : Document),
     docs = pre ++ d :: post ->
     ID d = documentID ->
     Forall (fun x => ID x <> documentID) pre ->
     exists m',
       Mock.DeleteDocument collectionName documentID m = (Ok tt, m') /\
       documents m' !! collectionName = Some (pre ++ post) /\
       Mock.CountDocuments collectionName m'
       = Ok (Z.of_nat (length docs) - 1) /\
       (forall c : string,
          c <> collectionName -> documents m' !! c = documents m !! c) /\
       collections m' = collections m).
Proof.
  intros Hdocs. unfold Mock.DeleteDocument. rewrite Hdocs. split.
  - intros Hnone. by rewrite (remove_first_none _ _ Hnone).
  - intros pre post d -> Hd Hpre.
    rewrite (remove_first_some _ _ _ _ Hd Hpre). eexists.
    split; [reflexivity |]. simpl. split; [apply lookup_insert_eq |].
    split; [|split; [|done]].
    + unfold Mock.CountDocuments. simpl. rewrite lookup_insert_eq.
      f_equal. rewrite !length_app. simpl. lia.
    + intros c Hc. by rewrite lookup_insert_ne.
Qed.

Lemma DeleteDocument_removes_first_witness :
  exists m',
    Mock.DeleteDocument "c" "b" Examples.three = (Ok tt, m') /\
    documents m' !! "c" = Some [Examples.doc "a" "x"; Examples.doc "c" "z"].
Proof.
  destruct (DeleteDocument_removes_first "c" "b"
              [Examples.doc "a" "x"; Examples.doc "b" "y";
               Examples.doc "c" "z"] Examples.three) as [_ Hsome].
  - vm_compute. reflexivity.
  - destruct (Hsome [Examples.doc "a" "x"] [Examples.doc "c" "z"]
                (Examples.doc "b" "y")) as (m' & Hrun & Hdocs & _).
    + reflexivity.
    + reflexivity.
    + constructor; [discriminate | constructor].
    + exists m'. split; [exact Hrun | exact Hdocs].
Defined.

Lemma DeleteDocuments_app (collectionName : string) (ids1 ids2 : list string) :
  forall m : MockClient,
    Mock.DeleteDocuments collectionName (ids1 ++ ids2) m
    = match Mock.DeleteDocuments collectionName ids1 m with
      | (Ok _, m1) => Mock.DeleteDocuments collectionName ids2 m1
      | other => other
      end.
Proof.
  induction ids1 as [|id rest IH]; intros m; simpl; [done |].
  destruct (Mock.DeleteDocument collectionName id m) as [[[]| |] m1];
    [apply IH | done..].
Qed.

Lemma DeleteDocument_ok_length (collectionName id : string)
    (m m' : MockClient) (docs : list Document) :
  documents m !! collectionName = Some docs ->
  Mock.DeleteDocument collectionName id m = (Ok tt, m') ->
  exists docs',
    documents m' !! collectionName = Some docs' /\
    length docs = S (length docs').
Proof.
  intros Hdocs. unfold Mock.DeleteDocument. rewrite Hdocs.
  destruct (Mock.remove_first id docs) as [docs'|] eqn:Hrm; [|done].
  intros [= <-]. exists docs'. simpl. rewrite lookup_insert_eq.
  split; [done |]. by apply remove_first_length in Hrm.
Qed.

Lemma DeleteDocument_not_panic (collectionName id msg : string)
    (m m' : MockClient) :
  Mock.DeleteDocument collectionName id m <> (Panic msg, m').
Proof.
  unfold Mock.DeleteDocument.
  destruct (documents m !! collectionName) as [docs|]; [|done].
  by destruct (Mock.remove_first id docs).
Qed.

(** X3. [DeleteDocuments] deletes the given IDs one after the other and
    stops at the first that fails. When it succeeds, the count of the
    collection has dropped by the number of IDs. When it fails, the IDs
    before the failing one have been deleted and stay deleted: the client is
    the one those deletions left, and the error is the one [DeleteDocument]
    returns there for the failing ID. *)
Theorem DeleteDocuments_stops_at_first_failure (collectionName : string)
    (documentIDs : list string) :
  forall (m m' : MockClient) (r : result unit),
    Mock.DeleteDocuments collectionName documentIDs m = (r, m') ->
    (r = Ok tt /\
     forall docs : list Document,
       documents m !! collectionName = Some docs ->
       exists docs',
         documents m' !! collectionName = Some docs' /\
         length docs = (length docs' + length documentIDs)%nat) \/
    (exists (e : error) (deleted rest : list string) (id : string),
       r = Err e /\
       documentIDs = deleted ++ id :: rest /\
       Mock.DeleteDocuments collectionName deleted m = (Ok tt, m') /\
       Mock.DeleteDocument collectionName id m' = (Err e, m')).
Proof.
  induction documentIDs as [|id rest IH]; intros m m' r Hrun; simpl in Hrun.
  - injection Hrun as <- <-. left. split; [done |].
    intros docs Hdocs. exists docs. split; [done | simpl; lia].
  - destruct (Mock.DeleteDocument collectionName id m) as [[[]|e|msg] m1]
      eqn:Hdel.
    + destruct (IH _ _ _ Hrun) as [[-> Hlen]|
        (e & deleted & rest' & id' & -> & -> & Hdone & Hfail)].
      * left. split; [done |]. intros docs Hdocs.
        destruct (DeleteDocument_ok_length _ _ _ _ _ Hdocs Hdel)
          as (docs1 & Hdocs1 & Hl1).
        destruct (Hlen _ Hdocs1) as (docs' & Hdocs' & Hl').
        exists docs'. split; [done |]. simpl. lia.
      * right. exists e, (id :: deleted), rest', id'.
        split; [done |]. split; [done |]. split; [|done].
        simpl. by rewrite Hdel.
    + injection Hrun as <- <-.
      assert (m1 = m) as ->.
      { unfold Mock.DeleteDocument in Hdel.
        destruct (documents m !! collectionName) as [docs|];
          [|by injection Hdel].
        destruct (Mock.remove_first id docs); [done | by injection Hdel]. }
      right. by exists e, [], rest, id.
    + by apply DeleteDocument_not_panic in Hdel.
Qed.

Lemma DeleteDocuments_stops_at_first_failure_witness :
  exists m',
    Mock.DeleteDocuments "c" ["a"; "nope"; "b"] Examples.three
    = (Err (ErrNoDocument "nope"), m') /\
    Mock.DeleteDocuments "c" ["a"] Examples.three = (Ok tt, m').
Proof.
  destruct (Mock.DeleteDocuments "c" ["a"; "nope"; "b"] Examples.three)
    as [r m'] eqn:Hrun.
  destruct (DeleteDocuments_stops_at_first_failure "c" ["a"; "nope"; "b"]
              Examples.three m' r Hrun)
    as [[-> _]|(e & deleted & rest & id & -> & Hids & Hdone & Hfail)].
  - vm_compute in Hrun. discriminate Hrun.
  - exists m'. vm_compute in Hrun. injection Hrun as <- <-.
    split; vm_compute; reflexivity.
Defined.

(** X4. Inserting one document that carries an ID no document of the
    collection has, and then deleting that ID, gives back the client as it
    was. *)
Theorem Insert_then_DeleteDocument (clk : Clock) (collectionName : string)
    (d : Document) (old : list Document) (m : MockClient) :
  documents m !! collectionName = Some old ->
  ID d <> EmptyString ->
  Forall (fun x => ID x <> ID d) old ->
  exists m1,
    Mock.Insert clk collectionName [d] m = (Ok tt, m1) /\
    Mock.DeleteDocument collectionName (ID d) m1 = (Ok tt, m).
Proof.
  intros Hold Hid Hfresh. unfold Mock.Insert. rewrite Hold.
  eexists. split; [reflexivity |].
  unfold Mock.DeleteDocument. simpl. rewrite lookup_insert_eq.
  destruct (String.eqb_spec (ID d) EmptyString) as [|_]; [done |].
  rewrite (remove_first_some (ID d) old [] d eq_refl Hfresh).
  rewrite app_nil_r, insert_insert_eq, (insert_id _ _ _ Hold).
  by destruct m.
Qed.

Lemma Insert_then_DeleteDocument_witness :
  Mock.DeleteDocument "c" "d"
    (snd (Mock.Insert Examples.clk "c" [Examples.doc "d" "w"] Examples.three))
  = (Ok tt, Examples.three).
Proof.
  destruct (Insert_then_DeleteDocument Examples.clk "c"
              (Examples.doc "d" "w")
              [Examples.doc "a" "x"; Examples.doc "b" "y";
               Examples.doc "c" "z"] Examples.three)
    as (m1 & Hins & Hdel).
  - vm_compute. reflexivity.
  - discriminate.
  - repeat constructor; discriminate.
  - rewrite Hins. exact Hdel.
Defined.

(** ** The mock client: pages, search and listing *)

Lemma take_add_drop (A : Type) (l : list A) :
  forall a b : nat, take (a + b) l = take a l ++ take b (drop a l).
Proof.
  induction l as [|x l IH]; intros a b.
  - by rewrite !take_nil, drop_nil, take_nil.
  - destruct a as [|a]; simpl; [done |]. by rewrite IH.
Qed.

(** X5. Pages compose: for limits and an offset that are not negative and
    whose sum fits an [int], the page of [limit1] documents at [offset]
    followed by the page of [limit2] documents at [offset + limit1] is the
    page of [limit1 + limit2] documents at [offset]; and a page at offset 0
    whose limit is not below the number of documents is the whole
    collection. *)
Theorem ListDocuments_pages_compose (collectionName : string)
    (limit1 limit2 offset : Z) (m : MockClient) (docs : list Document) :
  documents m !! collectionName = Some docs ->
  0 <= limit1 -> 0 <= limit2 -> 0 <= offset ->
  offset + limit1 + limit2 <= maxInt64 ->
  exists page1 page2 : list Document,
    Mock.ListDocuments collectionName limit1 offset m = Ok page1 /\
    Mock.ListDocuments collectionName limit2 (offset + limit1) m = Ok page2 /\
    Mock.ListDocuments collectionName (limit1 + limit2) offset m
    = Ok (page1 ++ page2) /\
    (offset = 0 -> Z.of_nat (length docs) <= limit1 -> page1 = docs).
Proof.
  intros Hdocs H1 H2 Ho Hsum.
  rewrite !(ListDocuments_page _ _ _ _ docs Hdocs) by lia.
  eexists _, _. split; [reflexivity |]. split; [reflexivity |]. split.
  - f_equal. rewrite Z2Nat.inj_add by lia.
    rewrite take_add_drop, drop_drop. do 3 f_equal. lia.
  - intros -> Hall. simpl. apply take_ge. lia.
Qed.

Lemma ListDocuments_pages_compose_witness :
  Mock.ListDocuments "c" 3 0 Examples.three
  = Ok ([Examples.doc "a" "x"; Examples.doc "b" "y"]
        ++ [Examples.doc "c" "z"]).
Proof.
  destruct (ListDocuments_pages_compose "c" 2 1 0 Examples.three
              [Examples.doc "a" "x"; Examples.doc "b" "y";
               Examples.doc "c" "z"])
    as (page1 & page2 & Hp1 & Hp2 & Hboth & _).
  - vm_compute. reflexivity.
  - lia.
  - lia.
  - lia.
  - unfold maxInt64. lia.
  - vm_compute in Hp1, Hp2. injection Hp1 as <-. injection Hp2 as <-.
    exact Hboth.
Defined.

(** X6. [Search] and [ListDocuments] agree on which documents come first:
    whenever [Search] returns results for a limit, [ListDocuments] with that
    limit at offset 0 returns the documents of those results, in order, and
    their number is the smaller of the limit and the count of the
    collection. *)
Theorem Search_returns_first_page (collectionName query : string)
    (limit : Z) (m : MockClient) (results : list SearchResult) :
  limit <= maxInt64 ->
  Mock.Search collectionName query limit m = Ok results ->
  Mock.ListDocuments collectionName limit 0 m
  = Ok (SRDocument <$> results) /\
  exists count : Z,
    Mock.CountDocuments collectionName m = Ok count /\
    Z.of_nat (length results) = Z.min limit count.
Proof.
  intros Hmax Hs.
  destruct (Search_ok _ _ _ _ _ Hs) as (docs & Hdocs & Hl & ->).
  rewrite (ListDocuments_page _ _ _ _ docs Hdocs) by lia. simpl.
  rewrite scored_documents. split; [done |].
  unfold Mock.CountDocuments. rewrite Hdocs.
  eexists. split; [reflexivity |].
  rewrite scored_length, length_take. lia.
Qed.

Lemma Search_returns_first_page_witness :
  Mock.ListDocuments "c" 2 0 Examples.three
  = Ok [Examples.doc "a" "x"; Examples.doc "b" "y"].
Proof.
  destruct (Search_returns_first_page "c" "q" 2 Examples.three
              (scored 0 [Examples.doc "a" "x"; Examples.doc "b" "y"]))
    as [Hpage _].
  - unfold maxInt64. lia.
  - vm_compute. reflexivity.
  - exact Hpage.
Defined.

(** ** The mock client: collections *)

Lemma DeleteDocument_keys (collectionName documentID : string)
    (m : MockClient) :
  dom (documents (snd (Mock.DeleteDocument collectionName documentID m)))
  = dom (documents m) /\
  collections (snd (Mock.DeleteDocument collectionName documentID m))
  = collections m.
Proof.
  unfold Mock.DeleteDocument.
  destruct (documents m !! collectionName) as [docs|] eqn:Hdocs; [|done].
  destruct (Mock.remove_first documentID docs); [|done]. simpl.
  split; [|done]. by apply dom_insert_lookup_L.
Qed.

Lemma DeleteDocuments_keys (collectionName : string)
    (documentIDs : list string) :
  forall m : MockClient,
    dom (documents (snd (Mock.DeleteDocuments collectionName documentIDs m)))
    = dom (documents m) /\
    collections (snd (Mock.DeleteDocuments collectionName documentIDs m))
    = collections m.
Proof.
  induction documentIDs as [|id rest IH]; intros m; simpl; [done |].
  pose proof (DeleteDocument_keys collectionName id m) as [Hd Hc].
  destruct (Mock.DeleteDocument collectionName id m) as [[[]| |] m1];
    simpl in *; [|done..].
  destruct (IH m1) as [Hd1 Hc1]. by rewrite Hd1, Hc1.
Qed.

Lemma client_call_keys (call : ClientCall) (m : MockClient) :
  dom (collections m) = dom (documents m) ->
  dom (collections (client_call call m))
  = dom (documents (client_call call m)).
Proof.
  intros Hkeys. destruct call as [|name schema|clk c docs|c id|c ids|c|];
    simpl; try done.
  - by rewrite !dom_insert_L, Hkeys.
  - unfold Mock.Insert.
    destruct (documents m !! c) as [old|] eqn:Hold; [|done]. simpl.
    by rewrite dom_insert_lookup_L.
  - destruct (DeleteDocument_keys c id m) as [-> ->]. done.
  - destruct (DeleteDocuments_keys c ids m) as [-> ->]. done.
  - by rewrite !dom_delete_L, Hkeys.
Qed.

Lemma client_after_keys (calls : list ClientCall) :
  dom (collections (client_after calls))
  = dom (documents (client_after calls)).
Proof.
  induction calls as [|call calls IH] using rev_ind; [done |].
  unfold client_after in *. rewrite foldl_app. simpl.
  by apply client_call_keys.
Qed.

(** X7. Whatever calls a client has received since it was made, its
    schemas and its documents are kept under the same collection names; so
    [GetCollectionInfo] succeeds on exactly the collections on which
    [CountDocuments] does, and the document count it reports is that
    count. *)
Theorem client_collections_agree (calls : list ClientCall)
    (now collectionName : string) :
  dom (collections (client_after calls))
  = dom (documents (client_after calls)) /\
  (is_ok (Mock.GetCollectionInfo now collectionName (client_after calls))
   = is_ok (Mock.CountDocuments collectionName (client_after calls))) /\
  (forall info : Mock.CollectionInfo,
     Mock.GetCollectionInfo now collectionName (client_after calls)
     = Ok info ->
     Mock.CountDocuments collectionName (client_after calls)
     = Ok (Mock.info_document_count info)).
Proof.
  pose proof (client_after_keys calls) as Hkeys.
  split; [exact Hkeys |].
  unfold Mock.GetCollectionInfo, Mock.CountDocuments.
  destruct (collections (client_after calls) !! collectionName)
    as [schema|] eqn:Hc.
  - assert (is_Some (documents (client_after calls) !! collectionName))
      as [docs Hd].
    { apply elem_of_dom. rewrite <- Hkeys. apply elem_of_dom. by eexists. }
    rewrite Hd. split; [done |]. by intros info [= <-].
  - assert (documents (client_after calls) !! collectionName = None) as ->.
    { apply not_elem_of_dom. rewrite <- Hkeys. by apply not_elem_of_dom. }
    done.
Qed.

(** X8. The life of a collection. [ListCollections] of any client returns,
    without repetition, exactly the names that have a schema. After
    [CreateCollection] the collection is listed and its info shows the
    schema given and no document. [DeleteCollection] always succeeds,
    whether or not the collection exists; after it the collection is not
    listed, its info and its count fail with the no-collection error, and
    the other collections are as before. *)
Theorem collection_lifecycle (name now : string) (schema : gmap string JSON)
    (m : MockClient) :
  (exists names,
     Mock.ListCollections m = Ok names /\ NoDup names /\
     forall c, c ∈ names <-> is_Some (collections m !! c)) /\
  (exists m1,
     Mock.CreateCollection name schema m = (Ok tt, m1) /\
     Mock.GetCollectionInfo now name m1
     = Ok {| Mock.info_name := name; Mock.info_schema := schema;
             Mock.info_document_count := 0;
             Mock.info_created_at := now |} /\
     Mock.CountDocuments name m1 = Ok 0) /\
  (exists m2,
     Mock.DeleteCollection name m = (Ok tt, m2) /\
     Mock.GetCollectionInfo now name m2 = Err (ErrNoCollection name) /\
     Mock.CountDocuments name m2 = Err (ErrNoCollection name) /\
     Mock.DeleteCollection name m2 = (Ok tt, m2) /\
     forall c, c <> name ->
       collections m2 !! c = collections m !! c /\
       documents m2 !! c = documents m !! c).
Proof.
  split; [|split].
  - eexists. split; [reflexivity |].
    split; [apply NoDup_fst_map_to_list |].
    intros c. rewrite list_elem_of_fmap. split.
    + intros [[c' v] [-> Hin]]. apply elem_of_map_to_list in Hin.
      by eexists.
    + intros [v Hv]. exists (c, v). split; [done |].
      by apply elem_of_map_to_list.
  - eexists. split; [reflexivity |].
    unfold Mock.GetCollectionInfo, Mock.CountDocuments. simpl.
    by rewrite !lookup_insert_eq.
  - eexists. split; [reflexivity |].
    unfold Mock.GetCollectionInfo, Mock.CountDocuments,
      Mock.DeleteCollection. simpl.
    rewrite !lookup_delete_eq, !delete_delete_eq.
    repeat split; try done; by rewrite lookup_delete_ne.
Qed.

(** ** The databases over their client *)

Lemma Milvus_with_client_id (m : Milvus.MilvusDatabase) :
  Milvus.with_client m (Milvus.client m) = m.
Proof. by destruct m. Qed.

Lemma Weaviate_with_client_id (w : Weaviate.WeaviateDatabase) :
  Weaviate.with_client w (Weaviate.client w) = w.
Proof. by destruct w. Qed.

(** X9. A database whose client does not hold the database's collection
    (as is the case until [Setup] is called) refuses every data operation:
    writing, querying, searching, listing, counting and deleting each fail
    with the no-collection error, wrapped, and leave the database as it is,
    whatever the limit and the offset. [Setup] succeeds on it, and
    afterwards the count is 0. *)
Theorem operations_need_setup (db : Database) (clk : Clock) (doc : Document)
    (query embedding documentID : string) (limit offset : Z) :
  documents (client_of db) !! CollectionName db = None ->
  let e := ErrNoCollection (CollectionName db) in
  (exists p, WriteDocument clk doc db = (Err (Wrap p e), db)) /\
  (exists p, Query query limit EmptyString db = (Err (Wrap p e), db)) /\
  (exists p, Search query limit EmptyString db = (Err (Wrap p e), db)) /\
  (exists p, ListDocuments limit offset db = (Err (Wrap p e), db)) /\
  (exists p, CountDocuments db = (Err (Wrap p e), db)) /\
  (exists p, DeleteDocument documentID db = (Err (Wrap p e), db)) /\
  (exists db',
     Setup embedding db = (Ok tt, db') /\
     CountDocuments db' = (Ok 0, db') /\
     Type_ db' = Type_ db /\ CollectionName db' = CollectionName db).
Proof.
  intros Hnone e. unfold e. clear e.
  destruct db as [m|w]; simpl in *.
  - unfold Milvus.WriteDocument, Milvus.WriteDocuments, Milvus.Query,
      Milvus.Search, Milvus.ListDocuments, Milvus.CountDocuments,
      Milvus.DeleteDocument, Milvus.Setup, Milvus.or_default,
      Milvus.CollectionName in *. simpl.
    unfold Mock.Insert, Mock.Query, Mock.Search, Mock.ListDocuments,
      Mock.CountDocuments, Mock.DeleteDocument. simpl.
    rewrite Hnone, ?Milvus_with_client_id.
    repeat (split; [by eexists |]).
    eexists. split; [reflexivity |]. simpl.
    unfold Milvus.CountDocuments, Mock.CountDocuments. simpl.
    by rewrite lookup_insert_eq.
  - unfold Weaviate.WriteDocument, Weaviate.WriteDocuments, Weaviate.Query,
      Weaviate.Search, Weaviate.ListDocuments, Weaviate.CountDocuments,
      Weaviate.DeleteDocument, Weaviate.Setup, Weaviate.or_default,
      Weaviate.CollectionName in *. simpl.
    unfold Mock.Insert, Mock.Query, Mock.Search, Mock.ListDocuments,
      Mock.CountDocuments, Mock.DeleteDocument. simpl.
    rewrite Hnone, ?Weaviate_with_client_id.
    repeat (split; [by eexists |]).
    eexists. split; [reflexivity |]. simpl.
    unfold Weaviate.CountDocuments, Mock.CountDocuments. simpl.
    by rewrite lookup_insert_eq.
Qed.

Lemma operations_need_setup_witness :
  exists db p,
    CreateVectorDatabase "weaviate" "Docs" Examples.cfg = Ok db /\
    WriteDocument Examples.clk (Examples.doc EmptyString "t") db
    = (Err (Wrap p (ErrNoCollection "Docs")), db).
Proof.
  destruct (operations_need_setup
              (OfWeaviate
                 {| Weaviate.config := Examples.cfg;
                    Weaviate.collectionName := "Docs";
                    Weaviate.client := Mock.NewMockWeaviateClient |})
              Examples.clk (Examples.doc EmptyString "t") "q" "default" "d"
              5 0) as [[p Hw] _].
  - vm_compute. reflexivity.
  - eexists _, p. split; [reflexivity | exact Hw].
Defined.

(** X10. On a database whose collection exists, [WriteDocuments] succeeds,
    reports as many documents written as it was given, and the count grows
    by that number; [WriteDocument] stores exactly one document, which has
    the fields of the given one and an ID, and reports one document
    written. Neither changes the type or the collection name of the
    database. *)
Theorem WriteDocument_adds_one (db : Database) (clk : Clock)
    (doc : Document) (batch docs : list Document) :
  documents (client_of db) !! CollectionName db = Some docs ->
  (exists stats db',
     WriteDocuments clk batch db = (Ok stats, db') /\
     DocumentsWritten stats = Z.of_nat (length batch) /\
     fst (CountDocuments db')
     = Ok (Z.of_nat (length docs) + Z.of_nat (length batch)) /\
     Type_ db' = Type_ db /\ CollectionName db' = CollectionName db) /\
  (exists stats db' stored,
     WriteDocument clk doc db = (Ok stats, db') /\
     DocumentsWritten stats = 1 /\ Errors stats = [] /\
     documents (client_of db') !! CollectionName db
     = Some (docs ++ [stored]) /\
     URL stored = URL doc /\ Text stored = Text doc /\
     Metadata stored = Metadata doc /\ Vector stored = Vector doc /\
     ID stored <> EmptyString /\ (ID doc <> EmptyString -> stored = doc) /\
     fst (CountDocuments db') = Ok (Z.of_nat (length docs) + 1) /\
     Type_ db' = Type_ db /\ CollectionName db' = CollectionName db).
Proof.
  intros Hdocs.
  pose proof (assign_ids_spec clk batch 0) as Hbatch.
  pose proof (assign_ids_spec clk [doc] 0) as Hone.
  apply Forall2_length in Hbatch.
  simpl in Hone. apply Forall2_cons_1 in Hone
    as [(Hu & Ht & Hm & Hv & Hkeep & Hid) _].
  destruct db as [m|w]; simpl in *.
  - unfold Milvus.CollectionName in Hdocs. split.
    + unfold Milvus.WriteDocuments, Mock.Insert. rewrite Hdocs.
      eexists _, _. split; [reflexivity |]. simpl.
      unfold Milvus.CountDocuments, Mock.CountDocuments. simpl.
      rewrite lookup_insert_eq, length_app, <- Hbatch. simpl.
      repeat split; try done. f_equal. lia.
    + unfold Milvus.WriteDocument, Milvus.WriteDocuments, Mock.Insert.
      rewrite Hdocs. eexists _, _, _. split; [reflexivity |]. simpl.
      unfold Milvus.CountDocuments, Mock.CountDocuments. simpl.
      rewrite !lookup_insert_eq, length_app. simpl.
      repeat split; try done. f_equal. lia.
  - unfold Weaviate.CollectionName in Hdocs. split.
    + unfold Weaviate.WriteDocuments, Mock.Insert. rewrite Hdocs.
      eexists _, _. split; [reflexivity |]. simpl.
      unfold Weaviate.CountDocuments, Mock.CountDocuments. simpl.
      rewrite lookup_insert_eq, length_app, <- Hbatch. simpl.
      repeat split; try done. f_equal. lia.
    + unfold Weaviate.WriteDocument, Weaviate.WriteDocuments, Mock.Insert.
      rewrite Hdocs. eexists _, _, _. split; [reflexivity |]. simpl.
      unfold Weaviate.CountDocuments, Mock.CountDocuments. simpl.
      rewrite !lookup_insert_eq, length_app. simpl.
      repeat split; try done. f_equal. lia.
Qed.

Lemma WriteDocument_adds_one_witness :
  exists stats db',
    WriteDocument Examples.clk (Examples.doc EmptyString "t")
      (OfMilvus {| Milvus.config := Examples.cfg;
                   Milvus.collectionName := "c";
                   Milvus.client := Examples.three |})
    = (Ok stats, db') /\
    DocumentsWritten stats = 1 /\ fst (CountDocuments db') = Ok 4.
Proof.
  destruct (WriteDocument_adds_one
              (OfMilvus {| Milvus.config := Examples.cfg;
                           Milvus.collectionName := "c";
                           Milvus.client := Examples.three |})
              Examples.clk (Examples.doc EmptyString "t") []
              [Examples.doc "a" "x"; Examples.doc "b" "y";
               Examples.doc "c" "z"])
    as [_ (stats & db' & stored & Hrun & Hn & _ & _ & _ & _ & _ & _ & _ & _
           & Hcount & _)].
  - vm_compute. reflexivity.
  - exists stats, db'. split; [exact Hrun |]. split; [exact Hn |].
    exact Hcount.
Defined.

(** X11. [CreateVectorDatabase] succeeds exactly on the kinds "milvus" and
    "weaviate", spelled so. When it succeeds, the database reports the kind
    and the collection name it was asked for and its client holds no
    collection yet; on any other kind it returns the unsupported-type error
    carrying the kind. *)
Theorem CreateVectorDatabase_supported (dbType collectionName : string)
    (cfg : Config) :
  ((exists db, CreateVectorDatabase dbType collectionName cfg = Ok db)
   <-> dbType = "milvus" \/ dbType = "weaviate") /\
  (forall db,
     CreateVectorDatabase dbType collectionName cfg = Ok db ->
     Type_ db = dbType /\ CollectionName db = collectionName /\
     documents (client_of db) = ∅ /\ collections (client_of db) = ∅) /\
  (dbType <> "milvus" -> dbType <> "weaviate" ->
   CreateVectorDatabase dbType collectionName cfg
   = Err (ErrUnsupported dbType)).
Proof.
  unfold CreateVectorDatabase.
  destruct (String.eqb_spec dbType "milvus") as [->|Hm]; simpl.
  - split; [split; [by left | by eexists] |].
    split; [by intros db [= <-] | done].
  - destruct (String.eqb_spec dbType "weaviate") as [->|Hw]; simpl.
    + split; [split; [by right | by eexists] |].
      split; [by intros db [= <-] | done].
    + split; [split; [by intros [db Hdb] | by intros [|]] |].
      split; done.
Qed.

(** ** The objects of the server, from one call to the next *)

Section HeapStep.

Context {DB : Type} `{!VectorDatabase DB}.
Variable NewDatabase : string -> string -> Config -> result DB.
Variable R : DB -> DB -> Prop.
Variable N : DB -> Prop.

Hypothesis R_refl : forall db, R db db.
Hypothesis R_trans : forall a b c, R a b -> R b c -> R a c.
Hypothesis N_new :
  forall t c cfg db, NewDatabase t c cfg = Ok db -> N db.
Hypothesis R_Setup : forall e db, R db (snd (Setup e db)).
Hypothesis R_WriteDocument :
  forall clk doc db, R db (snd (WriteDocument clk doc db)).
Hypothesis R_Query : forall q n c db, R db (snd (Query q n c db)).
Hypothesis R_ListDocuments :
  forall n o db, R db (snd (ListDocuments n o db)).
Hypothesis R_CountDocuments : forall db, R db (snd (CountDocuments db)).
Hypothesis R_DeleteDocument :
  forall id db, R db (snd (DeleteDocument id db)).
Hypothesis R_Cleanup : forall db, R db (snd (Cleanup db)).

Lemma heap_step_refl (s : Server DB) : heap_step R N s s.
Proof. intros l db' Hl. left. by exists db'. Qed.

Ltac method_fact :=
  match goal with
  | Hm : ?call = (_, ?d') |- R _ ?d' =>
      replace d' with (snd call) by (by rewrite Hm);
      first [ apply R_Setup | apply R_WriteDocument | apply R_Query
            | apply R_ListDocuments | apply R_CountDocuments
            | apply R_DeleteDocument | apply R_Cleanup ]
  end.

Ltac heap_step_tac :=
  first
    [ apply heap_step_refl
    | let l0 := fresh "l0" in
      let db0 := fresh "db0" in
      let Hl0 := fresh "Hl0" in
      intros l0 db0; simpl; intros Hl0;
      apply lookup_insert_Some in Hl0 as [[<- <-]|[_ Hl0]];
      [ left; eexists; split; [eassumption | method_fact]
      | left; exists db0; split; [exact Hl0 | apply R_refl] ] ].

Lemma list_databases_loop_objects (entries : list (string * loc)) :
  forall dbList (s : Server DB) r s',
    list_databases_loop entries dbList s = (r, s') ->
    forall (l : loc) (db' : DB),
      heap s' !! l = Some db' ->
      exists db, heap s !! l = Some db /\ R db db'.
Proof.
  induction entries as [|[dbName l0] rest IH]; intros dbList s r s' Hrun;
    simpl in Hrun.
  - injection Hrun as <- <-. intros l db' Hl. by exists db'.
  - destruct (heap s !! l0) as [d|] eqn:Hd;
      [|injection Hrun as <- <-; intros l db' Hl; by exists db'].
    destruct (CountDocuments d) as [rc d1] eqn:Hc.
    assert (Hd1 : R d d1).
    { replace d1 with (snd (CountDocuments d)) by (by rewrite Hc).
      apply R_CountDocuments. }
    assert (Hback : forall l db1,
              heap (commit l0 OpCountDocuments d1 s) !! l = Some db1 ->
              exists db, heap s !! l = Some db /\ R db db1).
    { intros l db1. simpl. intros Hl.
      apply lookup_insert_Some in Hl as [[<- <-]|[_ Hl]].
      - by exists d.
      - by exists db1. }
    destruct rc as [count|e|msg].
    + intros l db' Hl. destruct (IH _ _ _ _ Hrun l db' Hl) as (db1 & H1 & HR).
      destruct (Hback l db1 H1) as (db & H0 & HR0).
      exists db. split; [done |]. by eapply R_trans.
    + intros l db' Hl. destruct (IH _ _ _ _ Hrun l db' Hl) as (db1 & H1 & HR).
      destruct (Hback l db1 H1) as (db & H0 & HR0).
      exists db. split; [done |]. by eapply R_trans.
    + injection Hrun as <- <-. exact Hback.
Qed.

(** Every call of a tool changes the objects along [R] and adds only
    objects made by [NewDatabase]. *)
Lemma tool_heap_step (name : string) (tool : Tool DB) (clk : Clock)
    (args : Args) (s s' : Server DB) (r : result any) :
  registerTools NewDatabase !! name = Some tool ->
  Handler tool clk args s = (r, s') ->
  heap_step R N s s'.
Proof.
  intros Htool Hrun.
  destruct (registerTools_lookup _ _ _ Htool)
    as [[_ Hh]|[[_ Hh]|(_ & _ & Hh)]].
  - rewrite Hh in Hrun.
    destruct (handleCreateVectorDatabase_effect _ _ _ _ _ _ Hrun)
      as [[_ ->]|[_ (n & t & c & db & _ & _ & Hnew & _ & Hheap & _)]];
      [apply heap_step_refl |].
    intros l db'. rewrite Hheap. intros Hl.
    apply lookup_insert_Some in Hl as [[<- <-]|[_ Hl]].
    + right. split; [apply not_elem_of_dom, is_fresh |]. by eapply N_new.
    + left. by exists db'.
  - rewrite Hh in Hrun. unfold handleCleanup in Hrun.
    handler_cases; heap_step_tac.
  - destruct Hh as [Hh|[Hh|[Hh|[Hh|[Hh|[Hh|Hh]]]]]]; rewrite Hh in Hrun.
    + unfold handleListDatabases in Hrun.
      case_decide; [injection Hrun as <- <-; apply heap_step_refl |].
      destruct (list_databases_loop _ _ _) as [rl sl] eqn:Hloop.
      pose proof (list_databases_loop_objects _ _ _ _ _ Hloop) as Hobj.
      assert (sl = s') as -> by (by destruct rl; injection Hrun as <- <-).
      intros l db' Hl. left. by apply Hobj.
    + unfold handleSetupDatabase in Hrun. handler_cases; heap_step_tac.
    + unfold handleWriteDocument in Hrun. handler_cases; heap_step_tac.
    + unfold handleQuery in Hrun. handler_cases; heap_step_tac.
    + unfold handleListDocuments in Hrun. handler_cases; heap_step_tac.
    + unfold handleCountDocuments in Hrun. handler_cases; heap_step_tac.
    + unfold handleDeleteDocument in Hrun. handler_cases; heap_step_tac.
Qed.

End HeapStep.

(** ** The registry in the states the server reaches *)

Section RegistryInvariant.

Context {DB : Type} `{!VectorDatabase DB}.
Variable NewDatabase : string -> string -> Config -> result DB.

Lemma tool_preserves_injective (name : string) (tool : Tool DB)
    (clk : Clock) (args : Args) (s s' : Server DB) (r : result any) :
  registerTools NewDatabase !! name = Some tool ->
  Handler tool clk args s = (r, s') ->
  wf s -> registry_injective s -> registry_injective s'.
Proof.
  intros Htool Hrun Hwf Hinj.
  destruct (tool_registry_effect _ _ _ _ _ _ _ _ Htool Hrun)
    as [Hsame|[(n & db & Hv & _)|(n & Hv)]].
  - intros n1 n2 l. rewrite Hsame. apply Hinj.
  - assert (Hfresh : forall n', vectorDBs s !! n' <> Some (fresh (dom (heap s)))).
    { intros n' Hn'. apply (is_fresh (dom (heap s))).
      apply elem_of_dom. by apply (Hwf n'). }
    intros n1 n2 l. rewrite Hv. intros H1 H2.
    apply lookup_insert_Some in H1 as [[<- <-]|[Hne1 H1]];
      apply lookup_insert_Some in H2 as [[<- Heq]|[Hne2 H2]]; try done.
    + by destruct (Hfresh n2).
    + subst l. by destruct (Hfresh n1).
    + by apply (Hinj n1 n2 l).
  - intros n1 n2 l. rewrite Hv. intros H1 H2.
    apply lookup_delete_Some in H1 as [_ H1].
    apply lookup_delete_Some in H2 as [_ H2]. by apply (Hinj n1 n2 l).
Qed.

(** X12. In every state the server reaches by calls of its tools, every
    name of the registry is bound to a handle that points to an object, and
    no two names are bound to the same handle. *)
Theorem registry_invariant (cfg : Config) (s : Server DB) :
  reachable NewDatabase cfg s -> wf s /\ registry_injective s.
Proof.
  induction 1 as [|name tool clk args s r s' Hs [Hwf Hinj] Htool Hrun].
  - split; [apply wf_NewServer |].
    intros n1 n2 l H1. simpl in H1. by rewrite lookup_empty in H1.
  - split.
    + by eapply tool_preserves_wf.
    + by eapply tool_preserves_injective.
Qed.

End RegistryInvariant.

Lemma registry_invariant_witness :
  wf Examples.s4 /\ registry_injective Examples.s4.
Proof.
  exact (registry_invariant CreateVectorDatabase Examples.cfg Examples.s4
           reachable_s4).
Defined.

(** ** What the methods of a database keep *)

(** A method call relates the database before and after so: the type and
    the collection name are the same, and if the client held no collection
    but the database's own, it still holds no other. *)
Lemma keeps_refl (db : Database) :
  same_kind db db /\ (own_collection_only db -> own_collection_only db).
Proof. by split. Qed.

Lemma keeps_trans (a b c : Database) :
  same_kind a b /\ (own_collection_only a -> own_collection_only b) ->
  same_kind b c /\ (own_collection_only b -> own_collection_only c) ->
  same_kind a c /\ (own_collection_only a -> own_collection_only c).
Proof.
  intros [[Ht1 Hc1] Ho1] [[Ht2 Hc2] Ho2]. split; [split |]; [congruence.. |].
  auto.
Qed.

Lemma own_preserved (db db' : Database) :
  CollectionName db' = CollectionName db ->
  (forall c : string,
     is_Some (documents (client_of db') !! c) ->
     c = CollectionName db \/ is_Some (documents (client_of db) !! c)) ->
  own_collection_only db -> own_collection_only db'.
Proof.
  intros Hname Hkeys Hown c Hc. rewrite Hname.
  destruct (Hkeys c Hc) as [-> | Hold]; [done | by apply Hown].
Qed.

Lemma Insert_keys (clk : Clock) (collectionName c : string)
    (docs : list Document) (m : MockClient) :
  is_Some (documents (snd (Mock.Insert clk collectionName docs m)) !! c) ->
  is_Some (documents m !! c).
Proof.
  unfold Mock.Insert.
  destruct (documents m !! collectionName) as [old|] eqn:Hold; [|done].
  simpl. rewrite lookup_insert_is_Some.
  intros [<- | [_ Hc]]; [by eexists | done].
Qed.

Lemma DeleteDocument_keys_sub (collectionName documentID c : string)
    (m : MockClient) :
  is_Some (documents
             (snd (Mock.DeleteDocument collectionName documentID m)) !! c) ->
  is_Some (documents m !! c).
Proof.
  destruct (DeleteDocument_keys collectionName documentID m) as [Hdom _].
  intros Hc. apply elem_of_dom. rewrite <- Hdom. by apply elem_of_dom.
Qed.

Ltac keeps_unchanged :=
  split; [by split | done].

Lemma keeps_Setup (embedding : string) (db : Database) :
  same_kind db (snd (Setup embedding db)) /\
  (own_collection_only db -> own_collection_only (snd (Setup embedding db))).
Proof.
  destruct db as [m|w]; simpl; (split; [by split |]);
    apply own_preserved; try done; simpl; intros c;
    rewrite lookup_insert_is_Some; intros [<- | [_ Hc]]; [by left | by right
      | by left | by right].
Qed.

Lemma keeps_WriteDocument (clk : Clock) (doc : Document) (db : Database) :
  same_kind db (snd (WriteDocument clk doc db)) /\
  (own_collection_only db ->
   own_collection_only (snd (WriteDocument clk doc db))).
Proof.
  destruct db as [m|w]; simpl.
  - unfold Milvus.WriteDocument, Milvus.WriteDocuments.
    destruct (Mock.Insert clk (Milvus.collectionName m) [doc]
                (Milvus.client m)) as [[[]|e|msg] c'] eqn:Hins; simpl;
      (split; [by split |]); apply own_preserved; try done; simpl;
      intros c Hc; right;
      apply (Insert_keys clk (Milvus.collectionName m) c [doc]);
      by rewrite Hins.
  - unfold Weaviate.WriteDocument, Weaviate.WriteDocuments.
    destruct (Mock.Insert clk (Weaviate.collectionName w) [doc]
                (Weaviate.client w)) as [[[]|e|msg] c'] eqn:Hins; simpl;
      (split; [by split |]); apply own_preserved; try done; simpl;
      intros c Hc; right;
      apply (Insert_keys clk (Weaviate.collectionName w) c [doc]);
      by rewrite Hins.
Qed.

Lemma keeps_Query (query : string) (limit : Z) (collectionName : string)
    (db : Database) :
  same_kind db (snd (Query query limit collectionName db)) /\
  (own_collection_only db ->
   own_collection_only (snd (Query query limit collectionName db))).
Proof.
  destruct db as [m|w]; simpl;
    unfold Milvus.Query, Weaviate.Query;
    destruct (Mock.Query _ _ _ _); simpl; keeps_unchanged.
Qed.

Lemma keeps_ListDocuments (limit offset : Z) (db : Database) :
  same_kind db (snd (ListDocuments limit offset db)) /\
  (own_collection_only db ->
   own_collection_only (snd (ListDocuments limit offset db))).
Proof.
  destruct db as [m|w]; simpl;
    unfold Milvus.ListDocuments, Weaviate.ListDocuments;
    destruct (Mock.ListDocuments _ _ _ _); simpl; keeps_unchanged.
Qed.

Lemma keeps_CountDocuments (db : Database) :
  same_kind db (snd (CountDocuments db)) /\
  (own_collection_only db -> own_collection_only (snd (CountDocuments db))).
Proof. rewrite Database_count_pure. apply keeps_refl. Qed.

Lemma keeps_DeleteDocument (documentID : string) (db : Database) :
  same_kind db (snd (DeleteDocument documentID db)) /\
  (own_collection_only db ->
   own_collection_only (snd (DeleteDocument documentID db))).
Proof.
  destruct db as [m|w]; simpl.
  - unfold Milvus.DeleteDocument.
    destruct (Mock.DeleteDocument (Milvus.collectionName m) documentID
                (Milvus.client m)) as [[[]|e|msg] c'] eqn:Hdel; simpl;
      (split; [by split |]); apply own_preserved; try done; simpl;
      intros c Hc; right;
      apply (DeleteDocument_keys_sub (Milvus.collectionName m) documentID);
      by rewrite Hdel.
  - unfold Weaviate.DeleteDocument.
    destruct (Mock.DeleteDocument (Weaviate.collectionName w) documentID
                (Weaviate.client w)) as [[[]|e|msg] c'] eqn:Hdel; simpl;
      (split; [by split |]); apply own_preserved; try done; simpl;
      intros c Hc; right;
      apply (DeleteDocument_keys_sub (Weaviate.collectionName w) documentID);
      by rewrite Hdel.
Qed.

Lemma keeps_Cleanup (db : Database) :
  same_kind db (snd (Cleanup db)) /\
  (own_collection_only db -> own_collection_only (snd (Cleanup db))).
Proof.
  destruct db as [m|w]; simpl;
    rewrite ?Milvus_with_client_id, ?Weaviate_with_client_id;
    keeps_unchanged.
Qed.

Lemma new_database_own (t c : string) (cfg : Config) (db : Database) :
  CreateVectorDatabase t c cfg = Ok db -> own_collection_only db.
Proof.
  unfold CreateVectorDatabase.
  destruct (String.eqb t "milvus"); simpl;
    [|destruct (String.eqb t "weaviate"); simpl; [|done]];
    intros [= <-] c' [docs Hc']; simpl in Hc';
    by rewrite lookup_empty in Hc'.
Qed.

Lemma tool_keeps (name : string) (tool : Tool Database) (clk : Clock)
    (args : Args) (s s' : Server Database) (r : result any) :
  registerTools CreateVectorDatabase !! name = Some tool ->
  Handler tool clk args s = (r, s') ->
  heap_step
    (fun db db' =>
       same_kind db db' /\
       (own_collection_only db -> own_collection_only db'))
    own_collection_only s s'.
Proof.
  apply (tool_heap_step CreateVectorDatabase _ _ keeps_refl keeps_trans
           new_database_own keeps_Setup keeps_WriteDocument keeps_Query
           keeps_ListDocuments keeps_CountDocuments keeps_DeleteDocument
           keeps_Cleanup).
Qed.

(** X13. Across any call of a tool, a name that is registered before and
    after the call is bound to the same handle, and the object it points to
    has the same type and the same collection name as before. *)
Theorem instance_keeps_kind (name : string) (tool : Tool Database)
    (clk : Clock) (args : Args) (s s' : Server Database) (r : result any)
    (n : string) (l l' : loc) (db : Database) :
  registerTools CreateVectorDatabase !! name = Some tool ->
  Handler tool clk args s = (r, s') ->
  vectorDBs s !! n = Some l -> heap s !! l = Some db ->
  vectorDBs s' !! n = Some l' ->
  l' = l /\
  exists db',
    heap s' !! l = Some db' /\
    Type_ db' = Type_ db /\ CollectionName db' = CollectionName db.
Proof.
  intros Htool Hrun Hn Hl Hn'.
  assert (l' = l) as ->.
  { destruct (registerTools_lookup _ _ _ Htool)
      as [[_ Hh]|[[_ Hh]|(_ & _ & Hh)]]; rewrite ?Hh in Hrun.
    - destruct (handleCreateVectorDatabase_effect _ _ _ _ _ _ Hrun)
        as [[_ ->]|[_ (n1 & t & c & db1 & _ & Hnone & _ & Hv1 & _)]];
        [congruence |].
      rewrite Hv1 in Hn'.
      apply lookup_insert_Some in Hn' as [[<- _]|[_ Hn']]; congruence.
    - destruct (handleCleanup_effect _ _ _ _ _ Hrun)
        as [[_ Hsame]|[_ (n1 & l1 & d1 & d1' & _ & _ & _ & _ & Hv1 & _)]].
      + rewrite Hsame in Hn'. congruence.
      + rewrite Hv1 in Hn'. apply lookup_delete_Some in Hn' as [_ Hn'].
        congruence.
    - assert (Hsame : vectorDBs s' = vectorDBs s).
      { destruct Hh as [Hh|[Hh|[Hh|[Hh|[Hh|[Hh|Hh]]]]]];
          rewrite Hh in Hrun;
          eauto using handleListDatabases_frame, handleSetupDatabase_frame,
            handleWriteDocument_frame, handleQuery_frame,
            handleListDocuments_frame, handleCountDocuments_frame,
            handleDeleteDocument_frame. }
      rewrite Hsame in Hn'. congruence. }
  split; [done |].
  pose proof (tool_heap_grows _ _ _ _ _ _ _ _ Htool Hrun l) as Hgrow.
  destruct Hgrow as [db' Hl']; [by eexists |].
  exists db'. split; [done |].
  destruct (tool_keeps _ _ _ _ _ _ _ Htool Hrun l db' Hl')
    as [(db0 & Hl0 & [Ht Hc] & _)|[Hnone _]]; [|congruence].
  assert (db0 = db) as -> by congruence. done.
Qed.

Lemma instance_keeps_kind_witness :
  exists db',
    heap Examples.s3 !! 0%nat = Some db' /\
    Type_ db' = "milvus" /\ CollectionName db' = "MaestroDocs".
Proof.
  destruct (heap Examples.s2 !! 0%nat) as [db|] eqn:Hdb;
    [|vm_compute in Hdb; discriminate Hdb].
  destruct (instance_keeps_kind "write_document"
              {| Name := "write_document";
                 Description :=
                   "Write a single document to a vector database";
                 Handler := handleWriteDocument |}
              Examples.clk (write_call "db1" "u" "hello world" ∅)
              Examples.s2 Examples.s3
              (fst (handleWriteDocument Examples.clk
                      (write_call "db1" "u" "hello world" ∅) Examples.s2))
              "db1" 0%nat 0%nat db)
    as [_ (db' & Hl' & Ht & Hc)].
  - apply registerTools_write.
  - apply surjective_pairing.
  - vm_compute. reflexivity.
  - exact Hdb.
  - vm_compute. reflexivity.
  - exists db'. split; [exact Hl' |].
    vm_compute in Hdb. injection Hdb as <-.
    split; [exact Ht | exact Hc].
Defined.

(** X14. In every state the server reaches, the client of every object
    holds no collection but the object's own. So a query that names a
    collection other than the instance's own fails with the no-collection
    error for that name, whatever the limit. *)
Theorem instances_hold_only_their_collection (cfg : Config)
    (s : Server Database) :
  reachable CreateVectorDatabase cfg s ->
  (forall (l : loc) (db : Database),
     heap s !! l = Some db -> own_collection_only db) /\
  (forall (clk : Clock) (args : Args) (n query cn : string) (l : loc)
          (db : Database),
     as_string (args !! "db_name") = Some n ->
     as_string (args !! "query") = Some query ->
     as_string (args !! "collection_name") = Some cn ->
     vectorDBs s !! n = Some l -> heap s !! l = Some db ->
     cn <> EmptyString -> cn <> CollectionName db ->
     exists p,
       fst (handleQuery clk args s)
       = Err (Wrap "failed to query vector database"
                (Wrap p (ErrNoCollection cn)))).
Proof.
  intros Hreach.
  assert (Hown : forall (l : loc) (db : Database),
            heap s !! l = Some db -> own_collection_only db).
  { induction Hreach as [|name tool clk args s r s' Hs IH Htool Hrun].
    - intros l db Hl. simpl in Hl. by rewrite lookup_empty in Hl.
    - intros l db' Hl'.
      destruct (tool_keeps _ _ _ _ _ _ _ Htool Hrun l db' Hl')
        as [(db & Hl & _ & Hkeep)|[_ Hnew]]; [|done].
      apply Hkeep. by apply (IH l). }
  split; [exact Hown |].
  intros clk args n query cn l db Hn Hq Hcn Hreg Hl Hne Hother.
  assert (Hnone : documents (client_of db) !! cn = None).
  { destruct (documents (client_of db) !! cn) eqn:Hc; [|done].
    destruct Hother. apply (Hown l db Hl). by eexists. }
  unfold handleQuery.
  rewrite Hn, Hq, (getDatabaseByName_Some _ _ _ Hreg), Hcn, Hl.
  apply String.eqb_neq in Hne.
  destruct db as [m|w]; simpl in *.
  - unfold Milvus.Query, Milvus.or_default, Mock.Query, Mock.Search.
    rewrite Hne, Hnone. by eexists.
  - unfold Weaviate.Query, Weaviate.or_default, Mock.Query, Mock.Search.
    rewrite Hne, Hnone. by eexists.
Qed.

Lemma instances_hold_only_their_collection_witness :
  exists db : Database,
    heap Examples.s4 !! 0%nat = Some db /\ own_collection_only db.
Proof.
  destruct (heap Examples.s4 !! 0%nat) as [db|] eqn:Hdb;
    [|vm_compute in Hdb; discriminate Hdb].
  exists db. split; [reflexivity |].
  exact (proj1 (instances_hold_only_their_collection Examples.cfg
                  Examples.s4 reachable_s4) 0%nat db Hdb).
Defined.

(** ** Creating and cleaning up *)

(** X15. Creating an instance under a name that is free and cleaning it up
    again gives back the registry as it was; the objects of the other
    instances are untouched. *)
Theorem create_then_cleanup (clk1 clk2 : Clock) (n dbType : string)
    (rest rest' : Args) (s : Server Database) :
  vectorDBs s !! n = None ->
  dbType = "milvus" \/ dbType = "weaviate" ->
  exists (v1 v2 : any) (s1 s2 : Server Database),
    handleCreateVectorDatabase CreateVectorDatabase clk1
      (create_call n dbType rest) s = (Ok v1, s1) /\
    handleCleanup clk2 (name_call n rest') s1 = (Ok v2, s2) /\
    vectorDBs s2 = vectorDBs s /\
    (forall (l : loc) (db : Database),
       heap s !! l = Some db -> heap s2 !! l = Some db).
Proof.
  intros Hnew Hkind.
  assert (Hfresh : forall l db, heap s !! l = Some db ->
                     fresh (dom (heap s)) <> l).
  { intros l db Hl <-. apply (is_fresh (dom (heap s))).
    apply elem_of_dom. by eexists. }
  unfold handleCreateVectorDatabase. args_lookup. rewrite Hnew.
  destruct Hkind as [-> | ->]; simpl;
    eexists _, _, _, _; (split; [reflexivity |]);
    unfold handleCleanup; args_lookup; rewrite !lookup_insert_eq; simpl;
    (split; [reflexivity |]); simpl;
    (split; [by apply delete_insert_id |]);
    intros l db Hl; rewrite insert_insert_eq, lookup_insert_ne;
    eauto.
Qed.

Lemma create_then_cleanup_witness :
  exists (v1 v2 : any) (s1 s2 : Server Database),
    handleCreateVectorDatabase CreateVectorDatabase Examples.clk
      (create_call "tmp" "milvus" ∅) Examples.s3 = (Ok v1, s1) /\
    handleCleanup Examples.clk (name_call "tmp" ∅) s1 = (Ok v2, s2) /\
    vectorDBs s2 = vectorDBs Examples.s3.
Proof.
  destruct (create_then_cleanup Examples.clk Examples.clk "tmp" "milvus"
              ∅ ∅ Examples.s3)
    as (v1 & v2 & s1 & s2 & H1 & H2 & Hv & _).
  - vm_compute. reflexivity.
  - left. reflexivity.
  - exists v1, v2, s1, s2. split; [exact H1 |]. split; [exact H2 | exact Hv].
Defined.

(** ** write_document: what is stored *)

Lemma convert_vector_numbers (fs : list float64) :
  forall k : nat, convert_vector k (JNumber <$> fs) = Ok fs.
Proof.
  induction fs as [|f fs IH]; intros k; simpl; [done |]. by rewrite IH.
Qed.

Lemma convert_vector_no_panic (vector : list JSON) :
  forall (k : nat) (msg : string), convert_vector k vector <> Panic msg.
Proof.
  induction vector as [|v rest IH]; intros k msg; simpl; [done |].
  destruct v; try done.
  destruct (convert_vector (S k) rest) as [fs'|e|msg'] eqn:Hrest;
    try done.
  by destruct (IH (S k) msg').
Qed.

(** X16. The conversion of the vector argument succeeds exactly on the
    slices whose elements are all numbers, and then returns those numbers
    in order; it never panics. *)
Theorem convert_vector_ok_iff (k : nat) (vector : list JSON)
    (fs : list float64) :
  (convert_vector k vector = Ok fs <-> vector = JNumber <$> fs) /\
  (forall msg, convert_vector k vector <> Panic msg).
Proof.
  split; [split |].
  - revert k fs. induction vector as [|v rest IH]; intros k fs; simpl.
    + by intros [= <-].
    + destruct v; try done.
      destruct (convert_vector (S k) rest) as [fs'| |] eqn:Hrest; try done.
      intros [= <-]. simpl. f_equal. by apply (IH (S k)).
  - intros ->. apply convert_vector_numbers.
  - apply convert_vector_no_panic.
Qed.

(** X17. A write_document call with string db_name, url and text, a vector
    that is absent or a slice of numbers, on a registered instance whose
    collection exists, succeeds with the status "ok" and the statistics of
    one document written. It stores one document after those the collection
    holds: the document with the url, the text, the metadata object (empty
    when the call gives none) and the numbers of the call, under a newly
    made ID. The registry is unchanged, and count_documents on the instance
    then returns one more than the collection held. *)
Theorem write_document_stores (clk clk' : Clock) (args rest : Args)
    (s : Server Database) (n url text : string) (l : loc) (db : Database)
    (docs : list Document) (fs : list float64) :
  as_string (args !! "db_name") = Some n ->
  as_string (args !! "url") = Some url ->
  as_string (args !! "text") = Some text ->
  (args !! "vector" = None /\ fs = []) \/
  args !! "vector" = Some (JArray (JNumber <$> fs)) ->
  vectorDBs s !! n = Some l -> heap s !! l = Some db ->
  documents (client_of db) !! CollectionName db = Some docs ->
  exists (s' : Server Database) (db' : Database),
    handleWriteDocument clk args s
    = (Ok (VMap {[ "status" := VString "ok";
                   "message" := VString "Wrote 1 document";
                   "write_stats" :=
                     VWriteStats {| DocumentsWritten := 1;
                                    ProcessingTime := Since clk;
                                    Errors := [] |} ]}), s') /\
    vectorDBs s' = vectorDBs s /\
    heap s' = <[l := db']> (heap s) /\
    documents (client_of db') !! CollectionName db
    = Some (docs ++
            [ {| ID := Mock.fresh_id clk 0; URL := url; Text := text;
                 Metadata := default ∅ (as_map (args !! "metadata"));
                 Vector := fs |} ]) /\
    fst (handleCountDocuments clk' (name_call n rest) s')
    = Ok (VMap {[ "count" := VInt (Z.of_nat (length docs) + 1) ]}).
Proof.
  intros Hn Hurl Htext Hvec Hreg Hl Hdocs.
  assert (Hconv : match as_slice (args !! "vector") with
                  | Some vector => convert_vector 0 vector
                  | None => Ok []
                  end = Ok fs).
  { destruct Hvec as [[-> ->] | ->]; simpl; [done |].
    apply convert_vector_numbers. }
  assert (Hmeta : match as_map (args !! "metadata") with
                  | Some metadata => metadata
                  | None => ∅
                  end = default ∅ (as_map (args !! "metadata")))
    by (by destruct (as_map (args !! "metadata"))).
  unfold handleWriteDocument.
  rewrite Hn, Hurl, Htext, (getDatabaseByName_Some _ _ _ Hreg), Hconv, Hl,
    Hmeta.
  unfold handleCountDocuments. args_lookup.
  destruct db as [m|w]; simpl in *.
  - unfold Milvus.CollectionName in Hdocs.
    unfold Milvus.WriteDocument, Milvus.WriteDocuments, Mock.Insert.
    rewrite Hdocs. simpl. eexists _, _. split; [reflexivity |]. simpl.
    split; [done |]. split; [reflexivity |]. simpl.
    split; [apply lookup_insert_eq |].
    unfold getDatabaseByName. simpl. rewrite Hreg, lookup_insert_eq. simpl.
    unfold Milvus.CountDocuments, Mock.CountDocuments. simpl.
    rewrite lookup_insert_eq. simpl. rewrite length_app. simpl.
    do 4 f_equal. lia.
  - unfold Weaviate.CollectionName in Hdocs.
    unfold Weaviate.WriteDocument, Weaviate.WriteDocuments, Mock.Insert.
    rewrite Hdocs. simpl. eexists _, _. split; [reflexivity |]. simpl.
    split; [done |]. split; [reflexivity |]. simpl.
    split; [apply lookup_insert_eq |].
    unfold getDatabaseByName. simpl. rewrite Hreg, lookup_insert_eq. simpl.
    unfold Weaviate.CountDocuments, Mock.CountDocuments. simpl.
    rewrite lookup_insert_eq. simpl. rewrite length_app. simpl.
    do 4 f_equal. lia.
Qed.

Lemma write_document_stores_witness :
  fst (handleCountDocuments Examples.clk (name_call "db1" ∅)
         (snd (handleWriteDocument Examples.clk
                 (write_call "db1" "u2" "second" ∅) Examples.s3)))
  = Ok (VMap {[ "count" := VInt 2 ]}).
Proof.
  destruct (heap Examples.s3 !! 0%nat) as [db|] eqn:Hdb;
    [|vm_compute in Hdb; discriminate Hdb].
  destruct (write_document_stores Examples.clk Examples.clk
              (write_call "db1" "u2" "second" ∅) ∅ Examples.s3
              "db1" "u2" "second" 0%nat db
              [ {| ID := "doc_1700000000000000000_0"; URL := "u";
                   Text := "hello world"; Metadata := ∅; Vector := [] |} ]
              [])
    as (s' & db' & Hrun & _ & _ & _ & Hcount).
  - vm_compute. reflexivity.
  - vm_compute. reflexivity.
  - vm_compute. reflexivity.
  - left. split; [vm_compute; reflexivity | reflexivity].
  - vm_compute. reflexivity.
  - exact Hdb.
  - vm_compute in Hdb. injection Hdb as <-. vm_compute. reflexivity.
  - rewrite Hrun. exact Hcount.
Defined.

(** ** The tool table and the required arguments *)

Section ToolTable.

Context {DB : Type} `{!VectorDatabase DB}.
Variable NewDatabase : string -> string -> Config -> result DB.
Variable Decode : string -> option (string * Args).

Lemma registerTools_cases (name : string) (tool : Tool DB) :
  registerTools NewDatabase !! name = Some tool ->
  Name tool = name /\
  ((name = "create_vector_database" /\
    Handler tool = handleCreateVectorDatabase NewDatabase) \/
   (name = "list_databases" /\ Handler tool = handleListDatabases) \/
   (name = "setup_database" /\ Handler tool = handleSetupDatabase) \/
   (name = "write_document" /\ Handler tool = handleWriteDocument) \/
   (name = "query" /\ Handler tool = handleQuery) \/
   (name = "list_documents" /\ Handler tool = handleListDocuments) \/
   (name = "count_documents" /\ Handler tool = handleCountDocuments) \/
   (name = "delete_document" /\ Handler tool = handleDeleteDocument) \/
   (name = "cleanup" /\ Handler tool = handleCleanup)).
Proof.
  unfold registerTools, registerTool. simpl.
  repeat (rewrite lookup_insert_Some; intros [[<- <-]|[? H]];
          [simpl; split; [reflexivity |];
           repeat match goal with
                  | |- _ \/ _ => first [left; split; reflexivity | right]
                  | |- _ /\ _ => split; reflexivity
                  end
          | revert H]).
  by rewrite lookup_empty.
Qed.

Lemma registerTools_registered (name : string) :
  name ∈ ["create_vector_database"; "list_databases"; "setup_database";
          "write_document"; "query"; "list_documents"; "count_documents";
          "delete_document"; "cleanup"] ->
  is_Some (registerTools NewDatabase !! name).
Proof.
  unfold registerTools, registerTool. simpl.
  rewrite !elem_of_cons, elem_of_nil.
  intros Hname. repeat (destruct Hname as [-> | Hname]); [.. | done];
    repeat (rewrite lookup_insert_ne by done);
    rewrite lookup_insert_eq; by eexists.
Qed.

Lemma list_databases_loop_not_err (entries : list (string * loc)) :
  forall (dbList : list (gmap string any)) (s s' : Server DB) (e : error),
    list_databases_loop entries dbList s <> (Err e, s').
Proof.
  induction entries as [|[dbName l] rest IH]; intros dbList s s' e; simpl;
    [done |].
  destruct (heap s !! l) as [db|]; [|done].
  destruct (CountDocuments db) as [rc db'].
  destruct rc; [apply IH | apply IH | done].
Qed.

Lemma convert_vector_err (vector : list JSON) :
  forall (k : nat) (e : error),
    convert_vector k vector = Err e -> exists i : nat, e = ErrInvalidVector i.
Proof.
  induction vector as [|v rest IH]; intros k e; simpl; [done |].
  destruct v; try (intros [= <-]; by eexists).
  destruct (convert_vector (S k) rest) as [fs|e'|msg] eqn:Hrest; try done.
  intros [= <-]. by apply (IH (S k)).
Qed.

(** X18. The tool table holds exactly the nine tools, each under its own
    name. A POST request whose body decodes is answered with 404 and the
    text "Tool '<name>' not found" exactly when its name is none of the
    nine, and then the state is unchanged. *)
Theorem tool_call_unknown_tool (clk : Clock) (r : Request) (s : Server DB)
    (name : string) (args : Args) :
  Method r = "POST" ->
  Decode (Body r) = Some (name, args) ->
  let names :=
    ["create_vector_database"; "list_databases"; "setup_database";
     "write_document"; "query"; "list_documents"; "count_documents";
     "delete_document"; "cleanup"] in
  (is_Some (registerTools NewDatabase !! name) <-> name ∈ names) /\
  (forall tool : Tool DB,
     registerTools NewDatabase !! name = Some tool -> Name tool = name) /\
  (fst (handleToolCall Decode (registerTools NewDatabase) clk r s)
   = Some (http_Error ("Tool '" +:+ name +:+ "' not found") 404)
   <-> name ∉ names) /\
  (name ∉ names ->
   snd (handleToolCall Decode (registerTools NewDatabase) clk r s) = s).
Proof.
  intros Hpost Hdec names.
  assert (Hiff : is_Some (registerTools NewDatabase !! name)
                 <-> name ∈ names).
  { split; [|apply registerTools_registered].
    intros [tool Htool]. apply registerTools_cases in Htool as [_ Hc].
    unfold names. rewrite !elem_of_cons. tauto. }
  split; [exact Hiff |].
  split; [intros tool Htool; by apply registerTools_cases in Htool as [? _] |].
  unfold handleToolCall. rewrite Hpost, Hdec. simpl.
  destruct (registerTools NewDatabase !! name) as [tool|] eqn:Htool.
  - assert (Hin : name ∈ names) by (apply Hiff; by eexists).
    split; [|done]. split; [|done].
    by destruct (Handler tool clk args s) as [[a|e|msg] s'].
  - assert (Hout : name ∉ names).
    { intros Hin. apply Hiff in Hin as [tool Hin]. discriminate Hin. }
    done.
Qed.

(** X19. The required lists of the input schemas are what the handlers
    enforce: a tool fails with "<f> is required and must be a string"
    exactly when [f] is the first entry of its required list that the
    arguments do not give as a string, and it then leaves the state as it
    was. *)
Theorem required_arguments_enforced (name : string) (tool : Tool DB)
    (clk : Clock) (args : Args) (s : Server DB) (f : string) :
  registerTools NewDatabase !! name = Some tool ->
  let first_missing :=
    exists pre post : list string,
      required name = pre ++ f :: post /\
      Forall (fun g => is_Some (as_string (args !! g))) pre /\
      as_string (args !! f) = None in
  (first_missing ->
   Handler tool clk args s = (Err (ErrRequired f), s)) /\
  (forall s' : Server DB,
     Handler tool clk args s = (Err (ErrRequired f), s') ->
     s' = s /\ first_missing).
Proof.
  intros Htool first_missing. unfold first_missing. clear first_missing.
  apply registerTools_cases in Htool as [_ Hc].
  split.
  - intros (pre & post & Hreq & Hpre & Hf).
    destruct Hc as [[-> ->]|[[-> ->]|[[-> ->]|[[-> ->]|[[-> ->]|[[-> ->]|
                   [[-> ->]|[[-> ->]|[-> ->]]]]]]]]];
      unfold required in Hreq; simpl in Hreq;
      destruct pre as [|g1 [|g2 [|g3 [|g4 pre]]]]; simplify_eq/=;
      repeat match goal with
             | H : Forall _ (_ :: _) |- _ =>
                 apply Forall_cons in H as [[? ?] ?]
             end;
      unfold handleCreateVectorDatabase, handleSetupDatabase,
        handleWriteDocument, handleQuery, handleListDocuments,
        handleCountDocuments, handleDeleteDocument, handleCleanup;
      repeat match goal with
             | H : as_string _ = _ |- _ => rewrite H; clear H
             end;
      reflexivity.
  - destruct Hc as [[-> ->]|[[-> ->]|[[-> ->]|[[-> ->]|[[-> ->]|[[-> ->]|
                   [[-> ->]|[[-> ->]|[-> ->]]]]]]]]];
      intros s' Hrun; unfold required; simpl.
    2: { unfold handleListDatabases in Hrun.
         case_decide; [discriminate Hrun |].
         destruct (list_databases_loop _ _ _) as [[a|e|msg] sl] eqn:Hloop;
           try discriminate Hrun.
         by apply list_databases_loop_not_err in Hloop. }
    all: unfold handleCreateVectorDatabase, handleSetupDatabase,
           handleWriteDocument, handleQuery, handleListDocuments,
           handleCountDocuments, handleDeleteDocument, handleCleanup,
           getDatabaseByName in Hrun;
         repeat match goal with
         | H : context [match ?x with _ => _ end] |- _ =>
             lazymatch x with
             | context [match _ with _ => _ end] => fail
             | _ => destruct x eqn:?
             end
         | H : context [let '(_, _) := ?x in _] |- _ => destruct x eqn:?
         end;
         try match goal with
             | H : convert_vector _ _ = Err _ |- _ =>
                 apply convert_vector_err in H as [? ->]
             end;
         try discriminate Hrun;
         injection Hrun as <- <-; (split; [reflexivity |]);
         first
           [ eexists [], _; split; [reflexivity |]
           | eexists [_], _; split; [reflexivity |]
           | eexists [_; _], _; split; [reflexivity |] ];
         (split; [|assumption]);
         repeat (apply Forall_cons_2; [eexists; eassumption |]);
         apply Forall_nil_2.
Qed.

(** X20. A POST request that names one of the seven tools working on an
    instance, gives every required argument as a string and names an
    instance that is not registered, is answered with status 500 and the
    JSON error "vector database '<name>' not found. Please create it
    first" (for cleanup: "vector database '<name>' not found"); the state
    is unchanged. *)
Theorem tool_call_unknown_instance (clk : Clock) (r : Request)
    (s : Server DB) (name : string) (tool : Tool DB) (args : Args)
    (n : string) :
  Method r = "POST" ->
  Decode (Body r) = Some (name, args) ->
  registerTools NewDatabase !! name = Some tool ->
  name <> "create_vector_database" -> name <> "list_databases" ->
  Forall (fun g => is_Some (as_string (args !! g))) (required name) ->
  as_string (args !! "db_name") = Some n ->
  vectorDBs s !! n = None ->
  handleToolCall Decode (registerTools NewDatabase) clk r s
  = (Some (json_response 500
             {[ "error" :=
                  VString (Error (if String.eqb name "cleanup"
                                  then ErrCleanupNotFound n
                                  else ErrNotFound n)) ]}), s).
Proof.
  intros Hpost Hdec Htool Hnc Hnl Hreq Hn Hnone.
  unfold handleToolCall. rewrite Hpost, Hdec. simpl. rewrite Htool.
  apply registerTools_cases in Htool as [_ Hc].
  destruct Hc as [[-> ->]|[[-> ->]|[[-> ->]|[[-> ->]|[[-> ->]|[[-> ->]|
                 [[-> ->]|[[-> ->]|[-> ->]]]]]]]]]; try done;
    unfold required in Hreq; simpl in Hreq;
    repeat match goal with
           | H : Forall _ (_ :: _) |- _ =>
               apply Forall_cons in H as [[? ?] ?]
           end;
    unfold handleSetupDatabase, handleWriteDocument, handleQuery,
      handleListDocuments, handleCountDocuments, handleDeleteDocument,
      handleCleanup, getDatabaseByName;
    rewrite Hn;
    repeat match goal with
           | H : as_string _ = Some _ |- _ => rewrite H; clear H
           end;
    rewrite Hnone; reflexivity.
Qed.

(** X21. The health endpoint answers a GET with status 200 and the number
    of registered instances. After a call of a tool that number is one
    more when the tool is create_vector_database and the call succeeded,
    one less when it is cleanup and the call succeeded, and the same in
    every other case. *)
Theorem health_counts_instances (now : string) (r : Request)
    (name : string) (tool : Tool DB) (clk : Clock) (args : Args)
    (s s' : Server DB) (res : result any) :
  Method r = "GET" ->
  registerTools NewDatabase !! name = Some tool ->
  Handler tool clk args s = (res, s') ->
  let count (k : Z) :=
    json_response 200
      {[ "status" := VString "healthy";
         "timestamp" := VString now;
         "vector_databases" := VInt k ]} in
  handleHealth now r s = count (Z.of_nat (size (vectorDBs s))) /\
  handleHealth now r s'
  = count (Z.of_nat (size (vectorDBs s))
           + (if is_ok res
              then if String.eqb name "create_vector_database" then 1
                   else if String.eqb name "cleanup" then -1 else 0
              else 0)).
Proof.
  intros Hget Htool Hrun count. unfold count, handleHealth.
  rewrite Hget. simpl. split; [reflexivity |].
  assert (Hsize :
    Z.of_nat (size (vectorDBs s'))
    = Z.of_nat (size (vectorDBs s))
      + (if is_ok res
         then if String.eqb name "create_vector_database" then 1
              else if String.eqb name "cleanup" then -1 else 0
         else 0)); [|by rewrite Hsize].
  apply registerTools_cases in Htool as [_ Hc].
  destruct Hc as [[-> Hh]|[[-> Hh]|[[-> Hh]|[[-> Hh]|[[-> Hh]|[[-> Hh]|
                 [[-> Hh]|[[-> Hh]|[-> Hh]]]]]]]]];
    rewrite Hh in Hrun; simpl.
  - apply handleCreateVectorDatabase_effect in Hrun
      as [[-> ->] | [-> (n & t & c & db & _ & Hnone & _ & -> & _)]];
      [lia |].
    rewrite map_size_insert_None by done. lia.
  - apply handleListDatabases_frame in Hrun as ->. destruct (is_ok res); lia.
  - apply handleSetupDatabase_frame in Hrun as ->. destruct (is_ok res); lia.
  - apply handleWriteDocument_frame in Hrun as ->. destruct (is_ok res); lia.
  - apply handleQuery_frame in Hrun as ->. destruct (is_ok res); lia.
  - apply handleListDocuments_frame in Hrun as ->. destruct (is_ok res); lia.
  - apply handleCountDocuments_frame in Hrun as ->. destruct (is_ok res); lia.
  - apply handleDeleteDocument_frame in Hrun as ->. destruct (is_ok res); lia.
  - apply handleCleanup_effect in Hrun
      as [[-> ->] | [-> (n & l & db & db' & _ & Hsome & _ & _ & -> & _)]];
      [lia |].
    rewrite map_size_delete_Some by (by eexists).
    assert (size (vectorDBs s) <> 0%nat)
      by (apply (map_size_ne_0_lookup_2 _ n); by eexists).
    lia.
Qed.

End ToolTable.

Lemma tool_call_unknown_tool_witness :
  snd (handleToolCall (fun _ => Some ("drop_database", ∅))
         (registerTools CreateVectorDatabase) Examples.clk
         {| Method := "POST"; Body := "{}" |} Examples.s3)
  = Examples.s3.
Proof.
  destruct (tool_call_unknown_tool CreateVectorDatabase
              (fun _ => Some ("drop_database", ∅)) Examples.clk
              {| Method := "POST"; Body := "{}" |} Examples.s3
              "drop_database" ∅ eq_refl eq_refl)
    as (_ & _ & _ & Hstate).
  apply Hstate. intros Hin.
  repeat (apply elem_of_cons in Hin as [Hin | Hin]; [discriminate Hin |]).
  by apply elem_of_nil in Hin.
Defined.

Lemma required_arguments_enforced_witness :
  handleWriteDocument Examples.clk (name_call "db1" ∅) Examples.s3
  = (Err (ErrRequired "url"), Examples.s3).
Proof.
  destruct (required_arguments_enforced CreateVectorDatabase
              "write_document" _ Examples.clk (name_call "db1" ∅)
              Examples.s3 "url" (registerTools_write CreateVectorDatabase))
    as [Hfails _].
  apply Hfails. exists ["db_name"], ["text"].
  split; [vm_compute; reflexivity |].
  split; [|vm_compute; reflexivity].
  apply Forall_cons_2; [|apply Forall_nil_2].
  exists "db1". vm_compute. reflexivity.
Defined.

Lemma tool_call_unknown_instance_witness :
  handleToolCall (fun _ => Some ("setup_database", name_call "db9" ∅))
    (registerTools CreateVectorDatabase) Examples.clk
    {| Method := "POST"; Body := "{}" |} Examples.s3
  = (Some (json_response 500
             {[ "error" :=
                  VString (Error (ErrNotFound "db9")) ]}), Examples.s3).
Proof.
  apply (tool_call_unknown_instance CreateVectorDatabase
           (fun _ => Some ("setup_database", name_call "db9" ∅))
           Examples.clk {| Method := "POST"; Body := "{}" |} Examples.s3
           "setup_database" _ (name_call "db9" ∅) "db9" eq_refl eq_refl
           (registerTools_setup CreateVectorDatabase)).
  - discriminate.
  - discriminate.
  - apply Forall_cons_2; [|apply Forall_nil_2].
    exists "db9". vm_compute. reflexivity.
  - vm_compute. reflexivity.
  - vm_compute. reflexivity.
Defined.

Lemma health_counts_instances_witness :
  handleHealth "2026-01-01T00:00:00Z" {| Method := "GET"; Body := EmptyString |}
    Examples.s1
  = json_response 200
      {[ "status" := VString "healthy";
         "timestamp" := VString "2026-01-01T00:00:00Z";
         "vector_databases" := VInt 1 ]}.
Proof.
  destruct (health_counts_instances CreateVectorDatabase
              "2026-01-01T00:00:00Z"
              {| Method := "GET"; Body := EmptyString |}
              "create_vector_database" _ Examples.clk
              (create_call "db1" "milvus" ∅) Examples.s0 Examples.s1
              (Ok (VString (created_message "milvus" "db1" "MaestroDocs")))
              eq_refl (registerTools_create CreateVectorDatabase))
    as [_ Hafter].
  - vm_compute. reflexivity.
  - exact Hafter.
Defined.

(** ** Panics of the tools on the in-memory backends *)

Ltac backend_cases :=
  simpl;
  unfold Milvus.Setup, Weaviate.Setup, Milvus.WriteDocument,
    Weaviate.WriteDocument, Milvus.WriteDocuments, Weaviate.WriteDocuments,
    Milvus.Query, Weaviate.Query, Milvus.ListDocuments,
    Weaviate.ListDocuments, Milvus.DeleteDocument, Weaviate.DeleteDocument,
    Milvus.Cleanup, Weaviate.Cleanup, Mock.Connect, Mock.CreateCollection,
    Mock.Insert, Mock.Query, Mock.Search, Mock.ListDocuments, Mock.slice,
    Mock.DeleteDocument, Mock.Close;
  repeat case_match; simplify_eq/=.

Lemma Database_Setup_no_panic (embedding msg : string) (db : Database) :
  fst (Setup embedding db) <> Panic msg.
Proof. destruct db; backend_cases; done. Qed.

Lemma Database_WriteDocument_no_panic (clk : Clock) (doc : Document)
    (msg : string) (db : Database) :
  fst (WriteDocument clk doc db) <> Panic msg.
Proof. destruct db; backend_cases; done. Qed.

Lemma Database_DeleteDocument_no_panic (documentID msg : string)
    (db : Database) :
  fst (DeleteDocument documentID db) <> Panic msg.
Proof. destruct db; backend_cases; done. Qed.

Lemma Database_Cleanup_no_panic (msg : string) (db : Database) :
  fst (Cleanup db) <> Panic msg.
Proof. destruct db; backend_cases; done. Qed.

Lemma Database_ListDocuments_panic (limit offset : Z) (msg : string)
    (db : Database) :
  fst (ListDocuments limit offset db) = Panic msg ->
  offset < 0 \/ wrap64 (offset + limit) < offset.
Proof. destruct db; backend_cases; intros; simplify_eq; lia. Qed.

Lemma CreateVectorDatabase_no_panic (dbType collectionName msg : string)
    (cfg : Config) :
  CreateVectorDatabase dbType collectionName cfg <> Panic msg.
Proof. unfold CreateVectorDatabase. by repeat case_match. Qed.

(** X22. On the in-memory backends, in a state whose registered handles
    point to objects, no tool other than query and list_documents panics,
    and list_documents panics only when the offset is negative or the end,
    offset + limit in 64-bit arithmetic, is below the offset. (The limit
    defaults to 10 and the offset to 0.) *)
Theorem tools_panic_only_on_bad_bounds (name : string)
    (tool : Tool Database) (clk : Clock) (args : Args)
    (s s' : Server Database) (msg : string) :
  wf s ->
  registerTools CreateVectorDatabase !! name = Some tool ->
  Handler tool clk args s = (Panic msg, s') ->
  name = "query" \/
  (name = "list_documents" /\
   (number_or 0 (args !! "offset") < 0 \/
    wrap64 (number_or 0 (args !! "offset")
            + number_or 10 (args !! "limit"))
    < number_or 0 (args !! "offset"))).
Proof.
  intros Hwf Htool.
  apply registerTools_cases in Htool as [_ Hc].
  destruct Hc as [[-> ->]|[[-> ->]|[[-> ->]|[[-> ->]|[[-> ->]|[[-> ->]|
                 [[-> ->]|[[-> ->]|[-> ->]]]]]]]]];
    intros Hrun.
  2: { exfalso. unfold handleListDatabases in Hrun.
       case_decide; [discriminate Hrun |].
       destruct (list_databases_loop_entries Database_count_pure
                   Database_count_no_panic (map_to_list (vectorDBs s)) [] s)
         as (out & s1 & Hloop & _).
       { apply Forall_forall. intros [n l] Hin.
         apply elem_of_map_to_list in Hin. by apply (Hwf n l). }
       rewrite Hloop in Hrun. discriminate Hrun. }
  all: unfold handleCreateVectorDatabase, handleSetupDatabase,
         handleWriteDocument, handleQuery, handleListDocuments,
         handleCountDocuments, handleDeleteDocument, handleCleanup,
         getDatabaseByName in Hrun;
       repeat match goal with
       | H : context [match ?x with _ => _ end] |- _ =>
           lazymatch x with
           | context [match _ with _ => _ end] => fail
           | _ => destruct x eqn:?
           end
       | H : context [let '(_, _) := ?x in _] |- _ => destruct x eqn:?
       end;
       try discriminate Hrun;
       injection Hrun as <- <-;
       try match goal with
           | H1 : vectorDBs ?st !! ?n = Some ?l, H2 : heap ?st !! ?l = None
             |- _ =>
               destruct (Hwf n l H1) as [? Hsome]; rewrite H2 in Hsome;
               discriminate Hsome
           end.
  all: match goal with
       | H : CreateVectorDatabase _ _ _ = Panic _ |- _ =>
           by apply CreateVectorDatabase_no_panic in H
       | H : convert_vector _ _ = Panic _ |- _ =>
           by apply convert_vector_no_panic in H
       | H : Setup _ _ = (Panic _, _) |- _ =>
           exfalso; eapply Database_Setup_no_panic; by erewrite H
       | H : WriteDocument _ _ _ = (Panic _, _) |- _ =>
           exfalso; eapply Database_WriteDocument_no_panic; by erewrite H
       | H : CountDocuments _ = (Panic _, _) |- _ =>
           exfalso; eapply Database_count_no_panic; by erewrite H
       | H : DeleteDocument _ _ = (Panic _, _) |- _ =>
           exfalso; eapply Database_DeleteDocument_no_panic; by erewrite H
       | H : Cleanup _ = (Panic _, _) |- _ =>
           exfalso; eapply Database_Cleanup_no_panic; by erewrite H
       | H : Query _ _ _ _ = (Panic _, _) |- _ => left; reflexivity
       | H : ListDocuments _ _ _ = (Panic _, _) |- _ =>
           right; split; [reflexivity |]; unfold number_or;
           repeat match goal with
                  | E : as_float64 _ = _ |- _ => rewrite E; clear E
                  end;
           eapply Database_ListDocuments_panic; by erewrite H
       end.
Qed.

Lemma tools_panic_only_on_bad_bounds_witness :
  let args := name_call "db1" {[ "offset" := JNumber (inject_Z (-1)) ]} in
  "list_documents" = "query" \/
  ("list_documents" = "list_documents" /\
   (number_or 0 (args !! "offset") < 0 \/
    wrap64 (number_or 0 (args !! "offset")
            + number_or 10 (args !! "limit"))
    < number_or 0 (args !! "offset"))).
Proof.
  intros args.
  assert (Htool :
    registerTools CreateVectorDatabase !! "list_documents"
    = Some {| Name := "list_documents";
              Description := "List documents from a vector database";
              Handler := handleListDocuments |}).
  { unfold registerTools, registerTool. simpl.
    repeat rewrite lookup_insert_ne by done. apply lookup_insert_eq. }
  apply (tools_panic_only_on_bad_bounds "list_documents" _ Examples.clk
           args Examples.s4
           (snd (handleListDocuments Examples.clk args Examples.s4))
           "slice bounds out of range" wf_s4 Htool).
  vm_compute. reflexivity.
Defined.

(** ** config.go: validation *)

(** X23. [Validate] accepts a configuration exactly when the server port
    is between 1 and 65535, the database type is not empty, and the vector
    database type is either "milvus", with a host that is not empty and a
    port between 1 and 65535, or "weaviate", with a URL that is not empty.
    The settings of the backend that is not selected are not looked at. *)
Theorem Validate_accepts_iff (c : Configuration.Config) :
  Configuration.Validate c = None <->
  0 < Configuration.Port (Configuration.Server c) <= 65535 /\
  Configuration.DatabaseType (Configuration.Database c) <> EmptyString /\
  let vdb := Configuration.VectorDB (Configuration.MCP c) in
  (Configuration.VectorDBType vdb = "milvus" /\
   Configuration.MilvusHost (Configuration.Milvus vdb) <> EmptyString /\
   0 < Configuration.MilvusPort (Configuration.Milvus vdb) <= 65535) \/
  (Configuration.VectorDBType vdb = "weaviate" /\
   Configuration.WeaviateURL (Configuration.Weaviate vdb) <> EmptyString).
Proof.
  unfold Configuration.Validate. simpl.
  repeat case_match;
    repeat match goal with
    | H : _ || _ = true |- _ => apply orb_true_iff in H
    | H : _ || _ = false |- _ => apply orb_false_iff in H as [? ?]
    | H : String.eqb _ _ = true |- _ => apply String.eqb_eq in H
    | H : String.eqb _ _ = false |- _ => apply String.eqb_neq in H
    end;
    rewrite ?Z.gtb_ltb, ?Z.leb_le, ?Z.leb_gt, ?Z.ltb_lt, ?Z.ltb_ge in *;
    split; try done; intros; destruct_and?; destruct_or?; destruct_and?;
    try congruence; try lia;
    first [ split; [lia |]; split; [done |]; by left
          | split; [lia |]; split; [done |]; by right
          | idtac ].
Qed.

(** ** The collection methods of the databases *)

Lemma Mock_DeleteDocuments_prefix (collectionName : string)
    (docs rest : list Document) :
  forall m : MockClient,
    documents m !! collectionName = Some (docs ++ rest) ->
    Mock.DeleteDocuments collectionName (ID <$> docs) m
    = (Ok tt,
       {| collections := collections m;
          documents := <[collectionName := rest]> (documents m) |}).
Proof.
  induction docs as [|d docs IH]; intros m Hdocs; simpl in *.
  - rewrite insert_id by done. by destruct m.
  - unfold Mock.DeleteDocument. rewrite Hdocs. simpl.
    rewrite String.eqb_refl. rewrite IH; simpl.
    + by rewrite insert_insert_eq.
    + apply lookup_insert_eq.
Qed.

(** X24. [DeleteDocuments] of a database, given the IDs of the first
    documents of its collection in their order, succeeds and leaves the
    documents after them, even when IDs repeat; given the IDs of all of
    them it leaves the collection empty, with the count 0. The type, the
    collection name and the schemas are as before. This holds for both
    backends. *)
Theorem DeleteDocuments_of_stored (m : Milvus.MilvusDatabase)
    (w : Weaviate.WeaviateDatabase) (docs rest : list Document) :
  documents (Milvus.client m) !! Milvus.collectionName m
  = Some (docs ++ rest) ->
  documents (Weaviate.client w) !! Weaviate.collectionName w
  = Some (docs ++ rest) ->
  (exists m',
     Milvus.DeleteDocuments (ID <$> docs) m = (Ok tt, m') /\
     documents (Milvus.client m') !! Milvus.collectionName m = Some rest /\
     Milvus.CountDocuments m' = (Ok (Z.of_nat (length rest)), m') /\
     Milvus.collectionName m' = Milvus.collectionName m /\
     collections (Milvus.client m') = collections (Milvus.client m)) /\
  (exists w',
     Weaviate.DeleteDocuments (ID <$> docs) w = (Ok tt, w') /\
     documents (Weaviate.client w') !! Weaviate.collectionName w
     = Some rest /\
     Weaviate.CountDocuments w' = (Ok (Z.of_nat (length rest)), w') /\
     Weaviate.collectionName w' = Weaviate.collectionName w /\
     collections (Weaviate.client w') = collections (Weaviate.client w)).
Proof.
  intros Hm Hw. split.
  - unfold Milvus.DeleteDocuments.
    rewrite (Mock_DeleteDocuments_prefix _ _ _ _ Hm).
    eexists. split; [reflexivity |]. simpl.
    unfold Milvus.CountDocuments, Mock.CountDocuments. simpl.
    rewrite lookup_insert_eq. by repeat split.
  - unfold Weaviate.DeleteDocuments.
    rewrite (Mock_DeleteDocuments_prefix _ _ _ _ Hw).
    eexists. split; [reflexivity |]. simpl.
    unfold Weaviate.CountDocuments, Mock.CountDocuments. simpl.
    rewrite lookup_insert_eq. by repeat split.
Qed.

Lemma DeleteDocuments_of_stored_witness :
  exists m',
    Milvus.DeleteDocuments ["a"; "b"]
      {| Milvus.config := Examples.cfg; Milvus.collectionName := "c";
         Milvus.client := Examples.three |}
    = (Ok tt, m') /\
    Milvus.CountDocuments m' = (Ok 1, m').
Proof.
  destruct (DeleteDocuments_of_stored
              {| Milvus.config := Examples.cfg;
                 Milvus.collectionName := "c";
                 Milvus.client := Examples.three |}
              {| Weaviate.config := Examples.cfg;
                 Weaviate.collectionName := "c";
                 Weaviate.client := Examples.three |}
              [Examples.doc "a" "x"; Examples.doc "b" "y"]
              [Examples.doc "c" "z"])
    as [(m' & Hrun & _ & Hcount & _) _].
  - vm_compute. reflexivity.
  - vm_compute. reflexivity.
  - exists m'. split; [exact Hrun | exact Hcount].
Defined.

(** X25. On a database whose client does not hold the database's
    collection, [Setup] followed by [DeleteCollection] of that collection
    gives back the database as it was. In between, [ListCollections] lists
    the collection, and [GetCollectionInfo], called with the empty name,
    reports on the database's own collection: its name, the schema [Setup]
    built for the embedding, and no document. This holds for both
    backends. *)
Theorem Setup_then_DeleteCollection (embedding now : string)
    (m : Milvus.MilvusDatabase) (w : Weaviate.WeaviateDatabase) :
  collections (Milvus.client m) !! Milvus.collectionName m = None ->
  documents (Milvus.client m) !! Milvus.collectionName m = None ->
  collections (Weaviate.client w) !! Weaviate.collectionName w = None ->
  documents (Weaviate.client w) !! Weaviate.collectionName w = None ->
  (exists m1 names,
     Milvus.Setup embedding m = (Ok tt, m1) /\
     Milvus.ListCollections m1 = (Ok names, m1) /\
     Milvus.collectionName m ∈ names /\
     Milvus.GetCollectionInfo now EmptyString m1
     = (Ok {| Mock.info_name := Milvus.collectionName m;
              Mock.info_schema := Milvus.schema m embedding;
              Mock.info_document_count := 0;
              Mock.info_created_at := now |}, m1) /\
     Milvus.DeleteCollection (Milvus.collectionName m) m1 = (Ok tt, m)) /\
  (exists w1 names,
     Weaviate.Setup embedding w = (Ok tt, w1) /\
     Weaviate.ListCollections w1 = (Ok names, w1) /\
     Weaviate.collectionName w ∈ names /\
     Weaviate.GetCollectionInfo now EmptyString w1
     = (Ok {| Mock.info_name := Weaviate.collectionName w;
              Mock.info_schema := Weaviate.schema w embedding;
              Mock.info_document_count := 0;
              Mock.info_created_at := now |}, w1) /\
     Weaviate.DeleteCollection (Weaviate.collectionName w) w1
     = (Ok tt, w)).
Proof.
  intros Hmc Hmd Hwc Hwd. split.
  - eexists _, _. split; [reflexivity |]. split; [reflexivity |]. simpl.
    split.
    { apply list_elem_of_fmap. eexists (_, _). split; [reflexivity |].
      apply elem_of_map_to_list, lookup_insert_eq. }
    unfold Milvus.GetCollectionInfo, Milvus.or_default,
      Mock.GetCollectionInfo, Milvus.DeleteCollection,
      Mock.DeleteCollection. simpl.
    rewrite !lookup_insert_eq. split; [reflexivity |].
    rewrite !delete_insert_id by done. by destruct m as [? ? []].
  - eexists _, _. split; [reflexivity |]. split; [reflexivity |]. simpl.
    split.
    { apply list_elem_of_fmap. eexists (_, _). split; [reflexivity |].
      apply elem_of_map_to_list, lookup_insert_eq. }
    unfold Weaviate.GetCollectionInfo, Weaviate.or_default,
      Mock.GetCollectionInfo, Weaviate.DeleteCollection,
      Mock.DeleteCollection. simpl.
    rewrite !lookup_insert_eq. split; [reflexivity |].
    rewrite !delete_insert_id by done. by destruct w as [? ? []].
Qed.

Lemma Setup_then_DeleteCollection_witness :
  exists m1,
    Milvus.Setup "default"
      {| Milvus.config := Examples.cfg; Milvus.collectionName := "c";
         Milvus.client := Mock.NewMockMilvusClient |}
    = (Ok tt, m1) /\
    Milvus.DeleteCollection "c" m1
    = (Ok tt,
       {| Milvus.config := Examples.cfg; Milvus.collectionName := "c";
          Milvus.client := Mock.NewMockMilvusClient |}).
Proof.
  destruct (Setup_then_DeleteCollection "default" "2026-01-01T00:00:00Z"
              {| Milvus.config := Examples.cfg;
                 Milvus.collectionName := "c";
                 Milvus.client := Mock.NewMockMilvusClient |}
              {| Weaviate.config := Examples.cfg;
                 Weaviate.collectionName := "c";
                 Weaviate.client := Mock.NewMockWeaviateClient |})
    as [(m1 & names & Hsetup & _ & _ & _ & Hdel) _].
  - vm_compute. reflexivity.
  - vm_compute. reflexivity.
  - vm_compute. reflexivity.
  - vm_compute. reflexivity.
  - exists m1. split; [exact Hsetup | exact Hdel].
Defined.
